(** * A shallow embedding of [autogen/browser_utils.py]

    The module implements [SimpleTextBrowser], a text-only browser: a
    registry of page renderers tried in priority order, a page state
    (history, title, content) and a viewport that pages through the content.

    Python objects are mutated in place and keep their mutations when an
    exception unwinds, so the embedding threads the interpreter state
    explicitly and keeps it next to the outcome of every call.  The two
    [while] loops of [_split_pages] are driven by fuel.  A [str] is a
    string of ASCII characters; [lower] and [strip] are those of Python on
    such text. *)

From Stdlib Require Import ZArith List String Ascii Bool Lia Arith.
From Stdlib Require Import DecimalString.
Import ListNotations.

Open Scope string_scope.
Open Scope Z_scope.

(** ** Python values used by the module *)

Module Py.

(** Characters that have no printable literal. *)
Definition TAB : ascii := ascii_of_nat 9.
Definition LF : ascii := ascii_of_nat 10.
Definition VT : ascii := ascii_of_nat 11.
Definition FF : ascii := ascii_of_nat 12.
Definition CR : ascii := ascii_of_nat 13.
Definition DQ : ascii := ascii_of_nat 34.
Definition nl : string := String LF EmptyString.

(** [len(s)] *)
Definition len (s : string) : Z := Z.of_nat (String.length s).

(** [s.startswith(p)] *)
Definition startswith (s p : string) : bool := String.prefix p s.

(** [s[i]]: a negative index counts from the end; [None] stands for the
    [IndexError] of an index out of range. *)
Definition getitem (s : string) (i : Z) : option ascii :=
  if (0 <=? i) && (i <? len s) then String.get (Z.to_nat i) s
  else if (i <? 0) && (- len s <=? i) then String.get (Z.to_nat (len s + i)) s
  else None.

(** [s[i:]] for [0 <= i]. *)
Fixpoint drop (n : nat) (s : string) : string :=
  match n, s with
  | O, _ => s
  | S _, EmptyString => EmptyString
  | S n', String _ s' => drop n' s'
  end.

(** [s[:i]] for [0 <= i]. *)
Fixpoint take (n : nat) (s : string) : string :=
  match n, s with
  | O, _ => EmptyString
  | S _, EmptyString => EmptyString
  | S n', String c s' => String c (take n' s')
  end.

(** [s[a:b]] for [0 <= a]. *)
Definition slice (s : string) (a b : Z) : string :=
  take (Z.to_nat (b - a)) (drop (Z.to_nat a) s).

(** [sub in s] *)
Fixpoint contains (sub s : string) : bool :=
  String.prefix sub s ||
  match s with
  | EmptyString => false
  | String _ s' => contains sub s'
  end.

Definition lower_char (c : ascii) : ascii :=
  let n := nat_of_ascii c in
  if (Nat.leb 65 n && Nat.leb n 90)%bool then ascii_of_nat (n + 32) else c.

(** [s.lower()] on ASCII text. *)
Fixpoint lower (s : string) : string :=
  match s with
  | EmptyString => EmptyString
  | String c s' => String (lower_char c) (lower s')
  end.

(** The ASCII characters [str.strip()] removes. *)
Definition isspace (c : ascii) : bool :=
  let n := nat_of_ascii c in
  (Nat.leb 9 n && Nat.leb n 13) || (Nat.leb 28 n && Nat.leb n 32).

Fixpoint lstrip (s : string) : string :=
  match s with
  | EmptyString => EmptyString
  | String c s' => if isspace c then lstrip s' else s
  end.

Fixpoint rstrip (s : string) : string :=
  match s with
  | EmptyString => EmptyString
  | String c s' =>
      match rstrip s' with
      | EmptyString => if isspace c then EmptyString else String c EmptyString
      | r => String c r
      end
  end.

(** [s.strip()] *)
Definition strip (s : string) : string := rstrip (lstrip s).

(** [sep.join(l)] *)
Definition join (sep : string) (l : list string) : string := String.concat sep l.

(** [str(n)] for an [int]. *)
Definition str_of_int (n : Z) : string := NilZero.string_of_int (Z.to_int n).

(** [bool(x)] for [x : Optional[str]]. *)
Definition truthy (x : option string) : bool :=
  match x with
  | None => false
  | Some s => negb (String.eqb s "")
  end.

(** [str(x)] for [x : Optional[str]], as an f-string renders it. *)
Definition str_of_opt (x : option string) : string :=
  match x with
  | None => "None"
  | Some s => s
  end.

End Py.

(** ** Responses, exceptions and outcomes *)

(** What the body stream hands out: a [str], or [bytes]. *)
Inductive chunk :=
| StrChunk (s : string)
| BytesChunk (b : string).

(** A [requests.Response] as far as the module looks at it: the status
    code, the headers (keys compared case-insensitively) and the chunks the
    body stream hands out.  The module reads the stream in two ways:
    [iter_content(chunk_size=512)] yields the bytes of the body, and
    [iter_content(chunk_size=512, decode_unicode=True)] yields them decoded
    to [str] where [requests] has an encoding for the response (a charset
    in the content type, or a [text/...] or JSON type), and yields the
    bytes as they are where it has none. *)
Record Response := {
  status_code : Z;
  headers : list (string * string);
  iter_content : list string;
  iter_content_unicode : list chunk
}.

(** The exceptions that can cross the module. [RequestException] stands
    for [requests.exceptions.RequestException] and its subclasses and
    carries [ex.response]. *)
Inductive exn :=
| RequestException (response : option Response)
| AttributeError (what : string)
| NameError (what : string)
| UnboundLocalError (what : string)
| ValueError (what : string)
| TypeError (what : string)
| KeyError (key : string)
| IndexError
| NotImplementedError
| OSError (what : string)
| OtherError (what : string).

(** A call returns, raises, or is still running when the fuel is spent. *)
Inductive outcome (A : Type) :=
| Ret (a : A)
| Raise (e : exn)
| OutOfFuel.
Arguments Ret {A} a.
Arguments Raise {A} e.
Arguments OutOfFuel {A}.

(** ** Pagination: [SimpleTextBrowser._split_pages] *)

Module Pages.

(** [c in [" ", "\t", "\r", "\n"]] *)
Definition is_break (c : ascii) : bool :=
  Ascii.eqb c " " || Ascii.eqb c Py.TAB || Ascii.eqb c Py.CR || Ascii.eqb c Py.LF.

(** The inner loop:
    [while end_idx < len(content) and content[end_idx - 1] not in ...: end_idx += 1] *)
Fixpoint extend_end (fuel : nat) (content : string) (end_idx : Z) : outcome Z :=
  match fuel with
  | O => OutOfFuel
  | S fuel' =>
      if end_idx <? Py.len content then
        match Py.getitem content (end_idx - 1) with
        | None => Raise IndexError
        | Some c =>
            if negb (is_break c) then extend_end fuel' content (end_idx + 1)
            else Ret end_idx
        end
      else Ret end_idx
  end.

(** The outer loop, started with [start_idx] and the pages appended so
    far; the list is the value of [self.viewport_pages] when the loop
    stops, however it stops. *)
Fixpoint split_loop (fuel : nat) (content : string) (viewport_size : Z)
    (start_idx : Z) (pages : list (Z * Z)) : outcome unit * list (Z * Z) :=
  match fuel with
  | O => (OutOfFuel, pages)
  | S fuel' =>
      if start_idx <? Py.len content then
        let end_idx := Z.min (start_idx + viewport_size) (Py.len content) in
        match extend_end fuel' content end_idx with
        | Ret end_idx' =>
            split_loop fuel' content viewport_size end_idx'
              (pages ++ [(start_idx, end_idx')])
        | Raise e => (Raise e, pages)
        | OutOfFuel => (OutOfFuel, pages)
        end
      else (Ret tt, pages)
  end.

(** [_split_pages] as a function of the three things it reads: the
    current address, the content and the viewport size. *)
Definition split_pages (fuel : nat) (address content : string) (viewport_size : Z)
    : outcome unit * list (Z * Z) :=
  if negb (Py.startswith address "http:") && negb (Py.startswith address "https:") then
    (Ret tt, [(0, Py.len content)])
  else if Py.len content =? 0 then
    (Ret tt, [(0, 0)])
  else split_loop fuel content viewport_size 0 [].

(** The character before a page end is one of the four break characters. *)
Definition break_before (content : string) (e : Z) : Prop :=
  exists c, Py.getitem content (e - 1) = Some c /\ is_break c = true.

(** Consecutive non-empty ranges from [from] to the end of the content,
    each but the last ending after a break. *)
Inductive chain (content : string) : Z -> list (Z * Z) -> Prop :=
| chain_nil : chain content (Py.len content) []
| chain_cons from e rest :
    from < e <= Py.len content ->
    (e < Py.len content -> break_before content e) ->
    chain content e rest ->
    chain content from ((from, e) :: rest).

End Pages.

(** ** The world outside the module *)

(** Keyword arguments: a value is a scalar or a dictionary of scalars
    (the [headers] and [params] entries). *)
Inductive scalar :=
| SStr (s : string)
| SBool (b : bool).

Inductive pyval :=
| VScalar (v : scalar)
| VDict (d : list (string * scalar)).

Definition dict := list (string * pyval).

Fixpoint dict_get {V} (k : string) (d : list (string * V)) : option V :=
  match d with
  | [] => None
  | (k', v) :: d' => if String.eqb k k' then Some v else dict_get k d'
  end.

(** [d[k] = v]: an existing key keeps its place. *)
Fixpoint dict_set {V} (k : string) (v : V) (d : list (string * V)) : list (string * V) :=
  match d with
  | [] => [(k, v)]
  | (k', v') :: d' => if String.eqb k k' then (k, v) :: d' else (k', v') :: dict_set k v d'
  end.

(** The search API's answer, as the JSON objects [_bing_search] reads.
    Every object is given by the keys the module looks up; a key of the
    answer may be missing ([None]), and where it is present its value has
    the type the API documents.  [webPages] and [news] are the lists under
    [results["webPages"]["value"]] and [results["news"]["value"]]: the
    outer option is the key [webPages] (or [news]), the inner one the key
    [value]. *)
Record DeepLink := {
  dl_name : option string;
  dl_url : option string;
  dl_snippet : option string
}.

Record WebPage := {
  wp_name : option string;
  wp_url : option string;
  wp_snippet : option string;
  wp_deepLinks : option (list DeepLink)
}.

Record NewsItem := {
  news_name : option string;
  news_url : option string;
  news_description : option string
}.

Record SearchResults := {
  webPages : option (option (list WebPage));
  news : option (option (list NewsItem))
}.

(** [d[key]] on an object of the answer: a missing key raises [KeyError]. *)
Definition subscript {A} (key : string) (v : option A) : exn + A :=
  match v with
  | Some a => inr a
  | None => inl (KeyError key)
  end.

(** Sequencing of computations that only return or raise. *)
Definition and_then {A B} (r : exn + A) (k : A -> exn + B) : exn + B :=
  match r with
  | inl e => inl e
  | inr a => k a
  end.

(** What [BeautifulSoup(text, "html.parser")] gives [HtmlRenderer]:
    [soup.title] ([None] when the document has no title element) with its
    [.string], and the Markdown that [MarkdownConverter().convert_soup]
    makes of the soup once its script and style elements are extracted. *)
Record Soup := {
  soup_title : option (option string);
  soup_markdown : string
}.

(** The file system and the state of the random generator. *)
Record World := {
  fs_dirs : list string;
  fs_files : list (string * string);
  uuid_count : nat
}.

(** The libraries the module calls, taken as parameters. *)
Record Env := {
  IS_PDF_CAPABLE : bool;
  (** [None] when [import pathvalidate] failed. *)
  pathvalidate_sanitize_filename : option (string -> exn + string);
  requests_get : string -> dict -> exn + Response;
  response_json : Response -> exn + SearchResults;
  BeautifulSoup : string -> Soup;
  pdfminer_extract_text : Response -> exn + string;
  mimetypes_guess_extension : option string -> option string;
  uuid4 : nat -> string;
  urljoin : string -> string -> exn + string;
  urlparse_path : string -> exn + string;
  os_path_abspath : string -> string
}.

(** ** Results and renderers *)

Record TextRendererResult := {
  title : option string;
  page_content : string
}.

(** The renderer classes of the module; [CustomRenderer] is any other
    subclass of [PageTextRenderer], given by its two methods. *)
Inductive Renderer :=
| PageTextRenderer
| PlainTextRenderer
| HtmlRenderer
| PdfRenderer
| DownloadRenderer
| FallbackPageRenderer
| FallbackErrorRenderer
| CustomRenderer
    (claim : string -> Z -> option string -> exn + bool)
    (render : Response -> string -> Z -> option string -> exn + TextRendererResult).

(** ** The browser object *)

(** Attributes that [__init__] assigns only after its call of
    [set_address] are optional: [None] is an attribute that does not exist
    yet. *)
Record SimpleTextBrowser := {
  start_page : string;
  viewport_size : Z;
  downloads_folder : option string;
  history : list string;
  page_title : option string;
  viewport_current_page : Z;
  viewport_pages : list (Z * Z);
  bing_api_key : option (option string);
  request_kwargs : option (option dict);
  _page_renderers : option (list Renderer);
  _error_renderers : option (list Renderer);
  _page_content : option string
}.

Definition set_history (v : list string) (b : SimpleTextBrowser) : SimpleTextBrowser :=
  {| start_page := start_page b; viewport_size := viewport_size b;
     downloads_folder := downloads_folder b; history := v;
     page_title := page_title b; viewport_current_page := viewport_current_page b;
     viewport_pages := viewport_pages b; bing_api_key := bing_api_key b;
     request_kwargs := request_kwargs b; _page_renderers := _page_renderers b;
     _error_renderers := _error_renderers b; _page_content := _page_content b |}.

Definition set_page_title (v : option string) (b : SimpleTextBrowser) : SimpleTextBrowser :=
  {| start_page := start_page b; viewport_size := viewport_size b;
     downloads_folder := downloads_folder b; history := history b;
     page_title := v; viewport_current_page := viewport_current_page b;
     viewport_pages := viewport_pages b; bing_api_key := bing_api_key b;
     request_kwargs := request_kwargs b; _page_renderers := _page_renderers b;
     _error_renderers := _error_renderers b; _page_content := _page_content b |}.

Definition set_viewport_current_page (v : Z) (b : SimpleTextBrowser) : SimpleTextBrowser :=
  {| start_page := start_page b; viewport_size := viewport_size b;
     downloads_folder := downloads_folder b; history := history b;
     page_title := page_title b; viewport_current_page := v;
     viewport_pages := viewport_pages b; bing_api_key := bing_api_key b;
     request_kwargs := request_kwargs b; _page_renderers := _page_renderers b;
     _error_renderers := _error_renderers b; _page_content := _page_content b |}.

Definition set_viewport_pages (v : list (Z * Z)) (b : SimpleTextBrowser) : SimpleTextBrowser :=
  {| start_page := start_page b; viewport_size := viewport_size b;
     downloads_folder := downloads_folder b; history := history b;
     page_title := page_title b; viewport_current_page := viewport_current_page b;
     viewport_pages := v; bing_api_key := bing_api_key b;
     request_kwargs := request_kwargs b; _page_renderers := _page_renderers b;
     _error_renderers := _error_renderers b; _page_content := _page_content b |}.

Definition set_bing_api_key (v : option string) (b : SimpleTextBrowser) : SimpleTextBrowser :=
  {| start_page := start_page b; viewport_size := viewport_size b;
     downloads_folder := downloads_folder b; history := history b;
     page_title := page_title b; viewport_current_page := viewport_current_page b;
     viewport_pages := viewport_pages b; bing_api_key := Some v;
     request_kwargs := request_kwargs b; _page_renderers := _page_renderers b;
     _error_renderers := _error_renderers b; _page_content := _page_content b |}.

Definition set_request_kwargs (v : option dict) (b : SimpleTextBrowser) : SimpleTextBrowser :=
  {| start_page := start_page b; viewport_size := viewport_size b;
     downloads_folder := downloads_folder b; history := history b;
     page_title := page_title b; viewport_current_page := viewport_current_page b;
     viewport_pages := viewport_pages b; bing_api_key := bing_api_key b;
     request_kwargs := Some v; _page_renderers := _page_renderers b;
     _error_renderers := _error_renderers b; _page_content := _page_content b |}.

Definition set_page_renderers (v : list Renderer) (b : SimpleTextBrowser) : SimpleTextBrowser :=
  {| start_page := start_page b; viewport_size := viewport_size b;
     downloads_folder := downloads_folder b; history := history b;
     page_title := page_title b; viewport_current_page := viewport_current_page b;
     viewport_pages := viewport_pages b; bing_api_key := bing_api_key b;
     request_kwargs := request_kwargs b; _page_renderers := Some v;
     _error_renderers := _error_renderers b; _page_content := _page_content b |}.

Definition set_error_renderers (v : list Renderer) (b : SimpleTextBrowser) : SimpleTextBrowser :=
  {| start_page := start_page b; viewport_size := viewport_size b;
     downloads_folder := downloads_folder b; history := history b;
     page_title := page_title b; viewport_current_page := viewport_current_page b;
     viewport_pages := viewport_pages b; bing_api_key := bing_api_key b;
     request_kwargs := request_kwargs b; _page_renderers := _page_renderers b;
     _error_renderers := Some v; _page_content := _page_content b |}.

Definition set_page_content_attr (v : string) (b : SimpleTextBrowser) : SimpleTextBrowser :=
  {| start_page := start_page b; viewport_size := viewport_size b;
     downloads_folder := downloads_folder b; history := history b;
     page_title := page_title b; viewport_current_page := viewport_current_page b;
     viewport_pages := viewport_pages b; bing_api_key := bing_api_key b;
     request_kwargs := request_kwargs b; _page_renderers := _page_renderers b;
     _error_renderers := _error_renderers b; _page_content := Some v |}.

(** ** The interpreter state and its monad *)

Record State := {
  self : SimpleTextBrowser;
  world : World
}.

Definition M (A : Type) : Type := State -> outcome A * State.

Definition ret {A} (a : A) : M A := fun s => (Ret a, s).

Definition raise {A} (e : exn) : M A := fun s => (Raise e, s).

Definition bind {A B} (c : M A) (k : A -> M B) : M B :=
  fun s =>
    match c s with
    | (Ret a, s') => k a s'
    | (Raise e, s') => (Raise e, s')
    | (OutOfFuel, s') => (OutOfFuel, s')
    end.

Notation "x <- c ;; k" := (bind c (fun x => k))
  (at level 61, c at next level, right associativity).
Notation "c ;;; k" := (bind c (fun _ => k))
  (at level 61, right associativity).

(** [try: c except Exception as e: h e] *)
Definition catch {A} (c : M A) (h : exn -> M A) : M A :=
  fun s =>
    match c s with
    | (Raise e, s') => h e s'
    | r => r
    end.

Definition lift {A} (r : exn + A) : M A :=
  match r with
  | inl e => raise e
  | inr a => ret a
  end.

(** Reading an attribute of [self]. *)
Definition getattr {A} (name : string) (proj : SimpleTextBrowser -> option A) : M A :=
  fun s =>
    match proj (self s) with
    | Some a => (Ret a, s)
    | None => (Raise (AttributeError name), s)
    end.

Definition get {A} (proj : SimpleTextBrowser -> A) : M A :=
  fun s => (Ret (proj (self s)), s).

Definition modify (f : SimpleTextBrowser -> SimpleTextBrowser) : M unit :=
  fun s => (Ret tt, {| self := f (self s); world := world s |}).

Definition get_world : M World := fun s => (Ret (world s), s).

Definition put_world (w : World) : M unit :=
  fun s => (Ret tt, {| self := self s; world := w |}).

(** ** Helpers of the standard library that the module calls *)

Module OS.

(** [os.path.basename(p)]: what follows the last slash. *)
Fixpoint basename (p : string) : string :=
  match p with
  | EmptyString => EmptyString
  | String c p' =>
      if Py.contains "/" p then
        (if Ascii.eqb c "/" && negb (Py.contains "/" p') then p' else basename p')
      else p
  end.

(** [os.path.dirname(p)] for a normalised absolute path. *)
Fixpoint dirname_aux (p : string) : string :=
  match p with
  | EmptyString => EmptyString
  | String c p' => if Py.contains "/" p' then String c (dirname_aux p') else EmptyString
  end.

Definition dirname (p : string) : string :=
  if Py.contains "/" p then
    match dirname_aux p with
    | EmptyString => "/"
    | d => d
    end
  else EmptyString.

Fixpoint endswith_slash (p : string) : bool :=
  match p with
  | EmptyString => false
  | String c EmptyString => Ascii.eqb c "/"
  | String _ p' => endswith_slash p'
  end.

(** [os.path.join(a, b)] on POSIX. *)
Definition join (a b : string) : string :=
  if Py.startswith b "/" then b
  else if String.eqb a "" || endswith_slash a then a ++ b
  else a ++ "/" ++ b.

Definition is_dir (w : World) (p : string) : bool :=
  existsb (String.eqb p) (fs_dirs w).

(** [open(p, "wb")]: refuses a directory and a path whose parent is
    missing, else creates the file or empties it. *)
Definition open_wb (p : string) (w : World) : exn + World :=
  if is_dir w p then inl (OSError "IsADirectoryError")
  else if negb (is_dir w (dirname p)) then inl (OSError "FileNotFoundError")
  else inr {| fs_dirs := fs_dirs w;
              fs_files := dict_set p "" (fs_files w);
              uuid_count := uuid_count w |}.

(** [fh.write(chunk)] on the file opened at [p]. *)
Definition write (p chunk : string) (w : World) : World :=
  {| fs_dirs := fs_dirs w;
     fs_files :=
       dict_set p (match dict_get p (fs_files w) with
                   | Some old => old ++ chunk
                   | None => chunk
                   end) (fs_files w);
     uuid_count := uuid_count w |}.

End OS.

Module Re.

(** [re.sub(r"\r\n", "\n", s)] *)
Fixpoint sub_crlf (s : string) : string :=
  match s with
  | String c1 ((String c2 s'') as s') =>
      if Ascii.eqb c1 Py.CR && Ascii.eqb c2 Py.LF then String Py.LF (sub_crlf s'')
      else String c1 (sub_crlf s')
  | _ => s
  end.

(** [re.sub(r"\n{2,}", "\n\n", s)]; [seen] counts the line feeds already
    written for the current run. *)
Fixpoint sub_blank_lines_from (seen : nat) (s : string) : string :=
  match s with
  | EmptyString => EmptyString
  | String c s' =>
      if Ascii.eqb c Py.LF then
        (if Nat.ltb seen 2 then String Py.LF (sub_blank_lines_from (S seen) s')
         else sub_blank_lines_from seen s')
      else String c (sub_blank_lines_from O s')
  end.

Definition sub_blank_lines (s : string) : string := sub_blank_lines_from O s.

End Re.

(** [response.headers.get(key, default)]: the keys of a
    [CaseInsensitiveDict] compare by their lower-cased form. *)
Fixpoint headers_get (h : list (string * string)) (key default : string) : string :=
  match h with
  | [] => default
  | (k, v) :: h' =>
      if String.eqb (Py.lower k) (Py.lower key) then v else headers_get h' key default
  end.

(** [response.raise_for_status()] *)
Definition raise_for_status (response : Response) : exn + unit :=
  if (400 <=? status_code response) && (status_code response <? 600)
  then inl (RequestException (Some response))
  else inr tt.

Definition search_url : string := "https://api.bing.microsoft.com/v7.0/search".

(** ** The renderers and the browser's methods *)

Section Browser.

Variable env : Env.

(** *** [PageTextRenderer] helpers *)

(** [text += chunk] for each chunk in turn: [str + bytes] is a
    [TypeError]. *)
Fixpoint read_chunks (text : string) (chunks : list chunk) : exn + string :=
  match chunks with
  | [] => inr text
  | StrChunk s :: rest => read_chunks (text ++ s) rest
  | BytesChunk _ :: _ =>
      inl (TypeError ("can only concatenate str (not " ++ String Py.DQ "bytes"
                      ++ String Py.DQ ") to str"))
  end.

(** [_read_all_text]: [text += chunk] over the chunks of the stream read
    with [decode_unicode=True]. *)
Definition _read_all_text (response : Response) : exn + string :=
  read_chunks "" (iter_content_unicode response).

(** [_read_all_html] *)
Definition _read_all_html (response : Response) : exn + Soup :=
  and_then (_read_all_text response) (fun text => inr (BeautifulSoup env text)).

(** [content_type is not None and kind in content_type.lower()] *)
Definition claims_type (kind : string) (content_type : option string) : bool :=
  match content_type with
  | None => false
  | Some ct => Py.contains kind (Py.lower ct)
  end.

(** *** [claim_responsibility] *)

Definition claim_responsibility (r : Renderer) (url : string) (status : Z)
    (content_type : option string) : M bool :=
  match r with
  | PageTextRenderer => raise NotImplementedError
  | PlainTextRenderer => ret (claims_type "text/plain" content_type)
  | HtmlRenderer => ret (claims_type "text/html" content_type)
  | PdfRenderer => ret (claims_type "application/pdf" content_type)
  | DownloadRenderer => folder <- get downloads_folder ;; ret (Py.truthy folder)
  | FallbackPageRenderer => ret true
  | FallbackErrorRenderer => ret true
  | CustomRenderer claim _ => lift (claim url status content_type)
  end.

(** *** [render_page] *)

(** [HtmlRenderer.render_page]: the title is read off [soup.title]
    before the content is cleaned up. *)
Definition HtmlRenderer_render_page (response : Response) : M TextRendererResult :=
  soup <- lift (_read_all_html response) ;;
  let webpage_text := Re.sub_crlf (soup_markdown soup) in
  match soup_title soup with
  | None => raise (AttributeError "string")
  | Some t =>
      ret {| title := t;
             page_content := Py.strip (Re.sub_blank_lines webpage_text) |}
  end.

(** The body of [with open(path, "wb") as fh: for chunk in ...: fh.write(chunk)]. *)
Definition write_file (path : string) (chunks : list string) : M unit :=
  w <- get_world ;;
  w' <- lift (OS.open_wb path w) ;;
  put_world (fold_left (fun w chunk => OS.write path chunk w) chunks w').

(** [try: fname = pathvalidate.sanitize_filename(os.path.basename(
    urlparse(url).path)).strip()], [except NameError: pass]: the name
    [pathvalidate] is looked up first, and is unbound when the import at
    the top of the module failed. *)
Definition try_safe_filename (url : string) : M (option string) :=
  catch
    (match pathvalidate_sanitize_filename env with
     | None => raise (NameError "pathvalidate")
     | Some sanitize_filename =>
         path <- lift (urlparse_path env url) ;;
         clean <- lift (sanitize_filename (OS.basename path)) ;;
         ret (Some (Py.strip clean))
     end)
    (fun e => match e with
              | NameError _ => ret None
              | _ => raise e
              end).

(** [extension = mimetypes.guess_extension(content_type)], [".download"]
    when there is none, and [fname = str(uuid.uuid4()) + extension]. *)
Definition make_filename (content_type : option string) : M string :=
  let extension :=
    match mimetypes_guess_extension env content_type with
    | Some ext => ext
    | None => ".download"
    end in
  w <- get_world ;;
  put_world {| fs_dirs := fs_dirs w; fs_files := fs_files w;
               uuid_count := S (uuid_count w) |} ;;;
  ret (uuid4 env (uuid_count w) ++ extension).

Definition DownloadRenderer_render_page (response : Response) (url : string)
    (content_type : option string) : M TextRendererResult :=
  fname <- try_safe_filename url ;;
  (* if fname is None: make one *)
  fname <- match fname with
           | Some f => ret f
           | None => make_filename content_type
           end ;;
  folder <- get downloads_folder ;;
  match folder with
  | None => raise (TypeError "expected str, bytes or os.PathLike object, not NoneType")
  | Some folder =>
      let download_path := os_path_abspath env (OS.join folder fname) in
      write_file download_path (iter_content response) ;;;
      ret {| title := Some "Download complete.";
             page_content := "Downloaded '" ++ url ++ "' to '" ++ download_path ++ "'." |}
  end.

Definition FallbackPageRenderer_render_page (content_type : option string)
    : TextRendererResult :=
  {| title := Some ("Error - Unsupported Content-Type '" ++ Py.str_of_opt content_type ++ "'");
     page_content := "Error - Unsupported Content-Type '" ++ Py.str_of_opt content_type ++ "'" |}.

Definition FallbackErrorRenderer_render_page (response : Response) (status : Z)
    (content_type : option string) : M TextRendererResult :=
  if claims_type "text/html" content_type then
    res <- HtmlRenderer_render_page response ;;
    ret {| title := Some ("Error " ++ Py.str_of_int status);
           page_content := "## Error " ++ Py.str_of_int status ++ Py.nl ++ Py.nl
                           ++ page_content res |}
  else
    text <- lift (_read_all_text response) ;;
    ret {| title := Some ("Error " ++ Py.str_of_int status);
           page_content := "## Error " ++ Py.str_of_int status ++ Py.nl ++ Py.nl ++ text |}.

Definition render_page (r : Renderer) (response : Response) (url : string)
    (status : Z) (content_type : option string) : M TextRendererResult :=
  match r with
  | PageTextRenderer => raise NotImplementedError
  | PlainTextRenderer =>
      text <- lift (_read_all_text response) ;;
      ret {| title := None; page_content := text |}
  | HtmlRenderer => HtmlRenderer_render_page response
  | PdfRenderer =>
      if IS_PDF_CAPABLE env then
        text <- lift (pdfminer_extract_text env response) ;;
        ret {| title := None; page_content := text |}
      else raise (NameError "pdfminer")
  | DownloadRenderer => DownloadRenderer_render_page response url content_type
  | FallbackPageRenderer => ret (FallbackPageRenderer_render_page content_type)
  | FallbackErrorRenderer => FallbackErrorRenderer_render_page response status content_type
  | CustomRenderer _ render => lift (render response url status content_type)
  end.

(** *** [SimpleTextBrowser] *)

(** The [address] property: [self.history[-1]]. *)
Definition address : M string :=
  h <- get history ;;
  match h with
  | [] => raise IndexError
  | x :: h' => ret (last h' x)
  end.

Definition _split_pages (fuel : nat) : M unit :=
  addr <- address ;;
  content <- getattr "_page_content" _page_content ;;
  size <- get viewport_size ;;
  let (r, pages) := Pages.split_pages fuel addr content size in
  modify (set_viewport_pages pages) ;;;
  (fun s => (r, s)).

Definition _set_page_content (fuel : nat) (content : string) : M unit :=
  modify (set_page_content_attr content) ;;;
  _split_pages fuel ;;;
  cur <- get viewport_current_page ;;
  pages <- get viewport_pages ;;
  if cur >=? Z.of_nat (List.length pages)
  then modify (set_viewport_current_page (Z.of_nat (List.length pages) - 1))
  else ret tt.

Definition page_down : M unit :=
  cur <- get viewport_current_page ;;
  pages <- get viewport_pages ;;
  modify (set_viewport_current_page (Z.min (cur + 1) (Z.of_nat (List.length pages) - 1))).

Definition page_up : M unit :=
  cur <- get viewport_current_page ;;
  modify (set_viewport_current_page (Z.max (cur - 1) 0)).

Definition register_page_renderer (renderer : Renderer) : M unit :=
  rs <- getattr "_page_renderers" _page_renderers ;;
  modify (set_page_renderers (renderer :: rs)).

Definition register_error_renderer (renderer : Renderer) : M unit :=
  rs <- getattr "_error_renderers" _error_renderers ;;
  modify (set_error_renderers (renderer :: rs)).

(** [self.viewport_pages[i]], with Python's negative indices. *)
Definition list_getitem {A} (l : list A) (i : Z) : exn + A :=
  let n := Z.of_nat (List.length l) in
  let j := if i <? 0 then n + i else i in
  if (0 <=? j) && (j <? n) then
    match nth_error l (Z.to_nat j) with
    | Some a => inr a
    | None => inl IndexError
    end
  else inl IndexError.

(** The [viewport] property. *)
Definition viewport : M string :=
  pages <- get viewport_pages ;;
  cur <- get viewport_current_page ;;
  bounds <- lift (list_getitem pages cur) ;;
  content <- getattr "_page_content" _page_content ;;
  ret (Py.slice content (fst bounds) (snd bounds)).

(** *** Search *)

(** [request_kwargs[key1][key2] = v], after
    [if key1 not in request_kwargs: request_kwargs[key1] = {}].  The local
    dictionary is a shallow copy, so an inner dictionary that came from
    [self.request_kwargs] is the same object there and sees the write; one
    that the [if] created is in the copy alone. *)
Definition setitem2 (key1 key2 : string) (v : scalar) (kw : dict) : M dict :=
  match dict_get key1 kw with
  | None => ret (dict_set key1 (VDict [(key2, v)]) kw)
  | Some (VDict d) =>
      let d' := dict_set key2 v d in
      modify (fun b =>
                match request_kwargs b with
                | Some (Some orig) =>
                    match dict_get key1 orig with
                    | Some _ => set_request_kwargs (Some (dict_set key1 (VDict d') orig)) b
                    | None => b
                    end
                | _ => b
                end) ;;;
      ret (dict_set key1 (VDict d') kw)
  | Some (VScalar _) => raise (TypeError "object does not support item assignment")
  end.

Definition _bing_api_call (query : string) : M SearchResults :=
  key <- getattr "bing_api_key" bing_api_key ;;
  match key with
  | None => raise (ValueError "Missing Bing API key.")
  | Some key =>
      rk <- getattr "request_kwargs" request_kwargs ;;
      let kw := match rk with
                | Some d => d
                | None => []
                end in
      kw <- setitem2 "headers" "Ocp-Apim-Subscription-Key" (SStr key) kw ;;
      kw <- setitem2 "params" "q" (SStr query) kw ;;
      kw <- setitem2 "params" "textDecorations" (SBool false) kw ;;
      kw <- setitem2 "params" "textFormat" (SStr "raw") kw ;;
      let kw := dict_set "stream" (VScalar (SBool false)) kw in
      response <- lift (requests_get env search_url kw) ;;
      lift (raise_for_status response) ;;;
      lift (response_json env response)
  end.

(** [f"{idx}. [{name}]({url})\n{text}"] *)
Definition snippet (idx : Z) (name url text : string) : string :=
  Py.str_of_int idx ++ ". [" ++ name ++ "](" ++ url ++ ")" ++ Py.nl ++ text.

(** [for dl in page["deepLinks"]: idx += 1; web_snippets.append(...)];
    the f-string looks up [name], then [url], then [snippet] where the
    deep link has one. *)
Fixpoint deep_links_loop (dls : list DeepLink) (idx : Z) (web_snippets : list string)
    : exn + (Z * list string) :=
  match dls with
  | [] => inr (idx, web_snippets)
  | dl :: rest =>
      let idx := idx + 1 in
      and_then (subscript "name" (dl_name dl)) (fun name =>
      and_then (subscript "url" (dl_url dl)) (fun url =>
      let text := match dl_snippet dl with
                  | Some t => t
                  | None => ""
                  end in
      deep_links_loop rest idx (web_snippets ++ [snippet idx name url text])%list))
  end.

(** [for page in results["webPages"]["value"]: ...] *)
Fixpoint web_loop (pages : list WebPage) (idx : Z) (web_snippets : list string)
    : exn + (Z * list string) :=
  match pages with
  | [] => inr (idx, web_snippets)
  | page :: rest =>
      let idx := idx + 1 in
      and_then (subscript "name" (wp_name page)) (fun name =>
      and_then (subscript "url" (wp_url page)) (fun url =>
      and_then (subscript "snippet" (wp_snippet page)) (fun text =>
      let web_snippets := (web_snippets ++ [snippet idx name url text])%list in
      and_then (match wp_deepLinks page with
                | Some dls => deep_links_loop dls idx web_snippets
                | None => inr (idx, web_snippets)
                end) (fun '(idx, web_snippets) =>
      web_loop rest idx web_snippets))))
  end.

(** [for page in results["news"]["value"]: ...] *)
Fixpoint news_loop (items : list NewsItem) (idx : Z) (news_snippets : list string)
    : exn + (Z * list string) :=
  match items with
  | [] => inr (idx, news_snippets)
  | page :: rest =>
      let idx := idx + 1 in
      and_then (subscript "name" (news_name page)) (fun name =>
      and_then (subscript "url" (news_url page)) (fun url =>
      and_then (subscript "description" (news_description page)) (fun text =>
      news_loop rest idx (news_snippets ++ [snippet idx name url text])%list)))
  end.

(** The two snippet lists [_bing_search] builds from the results, or the
    [KeyError] of the first key it does not find. *)
Definition search_snippets (results : SearchResults)
    : exn + (list string * list string) :=
  and_then (subscript "webPages" (webPages results)) (fun web =>
  and_then (subscript "value" web) (fun pages =>
  and_then (web_loop pages 0 []) (fun '(idx, web_snippets) =>
  and_then (match news results with
            | Some items =>
                and_then (subscript "value" items) (fun items =>
                news_loop items idx [])
            | None => inr (idx, [])
            end) (fun '(_, news_snippets) =>
  inr (web_snippets, news_snippets))))).

(** The page content [_bing_search] builds from the two lists. *)
Definition search_content (query : string) (web_snippets news_snippets : list string)
    : string :=
  let content :=
    "A Bing search for '" ++ query ++ "' found "
    ++ Py.str_of_int (Z.of_nat (List.length web_snippets) + Z.of_nat (List.length news_snippets))
    ++ " results:" ++ Py.nl ++ Py.nl ++ "## Web Results" ++ Py.nl
    ++ Py.join (Py.nl ++ Py.nl) web_snippets in
  if Z.of_nat (List.length news_snippets) >? 0 then
    content ++ Py.nl ++ Py.nl ++ "## News Results:" ++ Py.nl
    ++ Py.join (Py.nl ++ Py.nl) news_snippets
  else content.

Definition _bing_search (fuel : nat) (query : string) : M unit :=
  results <- _bing_api_call query ;;
  snippets <- lift (search_snippets results) ;;
  let '(web_snippets, news_snippets) := snippets in
  modify (set_page_title (Some (query ++ " - Search"))) ;;;
  _set_page_content fuel (search_content query web_snippets news_snippets).

(** *** Fetching *)

(** [self.page_title = res.title; self._set_page_content(res.page_content)] *)
Definition show (fuel : nat) (res : TextRendererResult) : M unit :=
  modify (set_page_title (title res)) ;;;
  _set_page_content fuel (page_content res).

Definition unhandled_text (head url : string) (status : Z) (content_type : string)
    : string :=
  head ++ Py.nl ++ "Url: " ++ url ++ Py.nl ++ "Status code: " ++ Py.str_of_int status
  ++ Py.nl ++ "Content-type: " ++ content_type.

(** [for renderer in self._page_renderers: ...] and the lines after it. *)
Fixpoint page_loop (fuel : nat) (url : string) (response : Response)
    (content_type : string) (renderers : list Renderer) : M unit :=
  match renderers with
  | renderer :: rest =>
      claimed <- claim_responsibility renderer url (status_code response)
                   (Some content_type) ;;
      if claimed : bool then
        res <- render_page renderer response url (status_code response)
                 (Some content_type) ;;
        show fuel res
      else page_loop fuel url response content_type rest
  | [] =>
      modify (set_page_title (Some "Error - Unhandled _fetch_page")) ;;;
      _set_page_content fuel
        (unhandled_text "Error - Unhandled _fetch_page:" url (status_code response)
           content_type)
  end.

(** [for renderer in self._error_renderers: ...] and the lines after it.
    [response] and [content_type] are the local variables of
    [_fetch_page], unbound ([None]) where the [try] block had not
    assigned them; each round rebinds them from [ex.response]. *)
Fixpoint error_loop (fuel : nat) (url : string) (ex_response : option Response)
    (renderers : list Renderer) (response : option Response)
    (content_type : option string) : M unit :=
  match renderers with
  | renderer :: rest =>
      match ex_response with
      | None => raise (AttributeError "headers")
      | Some response =>
          let content_type := headers_get (headers response) "content-type" "" in
          claimed <- claim_responsibility renderer url (status_code response)
                       (Some content_type) ;;
          if claimed : bool then
            res <- render_page renderer response url (status_code response)
                     (Some content_type) ;;
            show fuel res
          else error_loop fuel url ex_response rest (Some response) (Some content_type)
      end
  | [] =>
      modify (set_page_title (Some "Error - Unhandled _fetch_page")) ;;;
      match response, content_type with
      | None, _ => raise (UnboundLocalError "response")
      | Some _, None => raise (UnboundLocalError "content_type")
      | Some response, Some content_type =>
          _set_page_content fuel
            (unhandled_text "Error - Unhandled _fetch_page error:" url
               (status_code response) content_type)
      end
  end.

(** [except requests.exceptions.RequestException as ex: ...]; any other
    exception passes through. *)
Definition except_RequestException (fuel : nat) (url : string)
    (response : option Response) (content_type : option string) (ex : exn) : M unit :=
  match ex with
  | RequestException ex_response =>
      renderers <- getattr "_error_renderers" _error_renderers ;;
      error_loop fuel url ex_response renderers response content_type
  | _ => raise ex
  end.

(** [request_kwargs = self.request_kwargs.copy() if self.request_kwargs
    is not None else {}] and [request_kwargs["stream"] = True] *)
Definition fetch_kwargs (rk : option dict) : dict :=
  let request_kwargs := match rk with
                        | Some d => d
                        | None => []
                        end in
  dict_set "stream" (VScalar (SBool true)) request_kwargs.

(** [_fetch_page]: the [try] block in three stretches, by the local
    variables bound when an exception leaves it. *)
Definition _fetch_page (fuel : nat) (url : string) : M unit :=
  got <- catch
           (rk <- getattr "request_kwargs" request_kwargs ;;
            response <- lift (requests_get env url (fetch_kwargs rk)) ;;
            ret (Some response))
           (fun ex => except_RequestException fuel url None None ex ;;; ret None) ;;
  match got with
  | None => ret tt
  | Some response =>
      ok <- catch
              (lift (raise_for_status response) ;;; ret true)
              (fun ex =>
                 except_RequestException fuel url (Some response) None ex ;;; ret false) ;;
      if ok : bool then
        let content_type := headers_get (headers response) "content-type" "" in
        catch
          (renderers <- getattr "_page_renderers" _page_renderers ;;
           page_loop fuel url response content_type renderers)
          (except_RequestException fuel url (Some response) (Some content_type))
      else ret tt
  end.

(** *** Navigation *)

(** [self.history[-1] = v] *)
Definition set_last (v : string) (h : list string) : exn + list string :=
  match h with
  | [] => inl IndexError
  | _ => inr (removelast h ++ [v])%list
  end.

Definition set_address (fuel : nat) (uri_or_path : string) : M unit :=
  h <- get history ;;
  modify (set_history (h ++ [uri_or_path])) ;;;
  (if String.eqb uri_or_path "about:blank" then _set_page_content fuel ""
   else if Py.startswith uri_or_path "bing:" then
     _bing_search fuel (Py.strip (Py.drop 5 uri_or_path))
   else
     uri_or_path <-
       (if negb (Py.startswith uri_or_path "http:")
           && negb (Py.startswith uri_or_path "https:") then
          base <- address ;;
          uri_or_path <- lift (urljoin env base uri_or_path) ;;
          h <- get history ;;
          h <- lift (set_last uri_or_path h) ;;
          modify (set_history h) ;;;
          ret uri_or_path
        else ret uri_or_path) ;;
     _fetch_page fuel uri_or_path) ;;;
  modify (set_viewport_current_page 0).

Definition visit_page (fuel : nat) (path_or_uri : string) : M string :=
  set_address fuel path_or_uri ;;;
  viewport.

(** *** Construction *)

(** The object as [__init__] has it just before its call of
    [set_address]. *)
Definition new_object (start_page : string) (viewport_size : Z)
    (downloads_folder : option string) : SimpleTextBrowser :=
  {| start_page := start_page; viewport_size := viewport_size;
     downloads_folder := downloads_folder; history := [];
     page_title := None; viewport_current_page := 0; viewport_pages := [];
     bing_api_key := None; request_kwargs := None; _page_renderers := None;
     _error_renderers := None; _page_content := None |}.

(** The statements of [__init__] after its call of [set_address]. *)
Definition init_rest (bing_api_key : option string) (request_kwargs : option dict)
    : M unit :=
  modify (set_bing_api_key bing_api_key) ;;;
  modify (set_request_kwargs request_kwargs) ;;;
  modify (set_page_renderers []) ;;;
  modify (set_error_renderers []) ;;;
  modify (set_page_content_attr "") ;;;
  register_page_renderer FallbackPageRenderer ;;;
  register_page_renderer DownloadRenderer ;;;
  register_page_renderer HtmlRenderer ;;;
  register_page_renderer PlainTextRenderer ;;;
  (if IS_PDF_CAPABLE env then register_page_renderer PdfRenderer else ret tt) ;;;
  register_error_renderer FallbackErrorRenderer.

Definition __init__ (fuel : nat) (start_page : string) (viewport_size : Z)
    (downloads_folder bing_api_key : option string) (request_kwargs : option dict)
    (w : World) : outcome unit * State :=
  (set_address fuel start_page ;;; init_rest bing_api_key request_kwargs)
    {| self := new_object start_page viewport_size downloads_folder; world := w |}.

End Browser.

(** ** [urllib.parse], as CPython 3.11 defines what the module imports

    [urljoin] and [urlparse] for [str] arguments with the default
    [allow_fragments=True].  The two checks that need the [ipaddress] and
    [unicodedata] modules are parameters: [host_ok] decides
    [_check_bracketed_host] and [nfkc_ok] decides [_checknetloc] on a
    netloc that is not ASCII. *)

Module Urllib.

Definition uses_relative : list string :=
  [""; "ftp"; "http"; "gopher"; "nntp"; "imap"; "wais"; "file"; "https"; "shttp"; "mms";
   "prospero"; "rtsp"; "rtspu"; "sftp"; "svn"; "svn+ssh"; "ws"; "wss"].

Definition uses_netloc : list string :=
  [""; "ftp"; "http"; "gopher"; "nntp"; "telnet"; "imap"; "wais"; "file"; "mms"; "https";
   "shttp"; "snews"; "prospero"; "rtsp"; "rtspu"; "rsync"; "svn"; "svn+ssh"; "sftp";
   "nfs"; "git"; "git+ssh"; "ws"; "wss"].

Definition uses_params : list string :=
  [""; "ftp"; "hdl"; "prospero"; "http"; "imap"; "https"; "shttp"; "rtsp"; "rtspu"; "sip";
   "sips"; "mms"; "sftp"; "tel"].

Definition mem (s : string) (l : list string) : bool := existsb (String.eqb s) l.

Definition is_alpha (c : ascii) : bool :=
  let n := nat_of_ascii c in
  (Nat.leb 65 n && Nat.leb n 90) || (Nat.leb 97 n && Nat.leb n 122).

Definition is_digit (c : ascii) : bool :=
  let n := nat_of_ascii c in Nat.leb 48 n && Nat.leb n 57.

(** [c in scheme_chars] *)
Definition is_scheme_char (c : ascii) : bool :=
  is_alpha c || is_digit c || Ascii.eqb c "+" || Ascii.eqb c "-" || Ascii.eqb c ".".

Fixpoint forallb_str (p : ascii -> bool) (s : string) : bool :=
  match s with
  | EmptyString => true
  | String c s' => p c && forallb_str p s'
  end.

Definition has (c : ascii) (s : string) : bool := negb (forallb_str (fun x => negb (Ascii.eqb x c)) s).

(** [s.partition(c)] without the separator: the text before the first
    [c] and the text after it, or [None] when [c] does not occur. *)
Fixpoint cut (c : ascii) (s : string) : option (string * string) :=
  match s with
  | EmptyString => None
  | String x s' =>
      if Ascii.eqb x c then Some (EmptyString, s')
      else match cut c s' with
           | Some (a, b) => Some (String x a, b)
           | None => None
           end
  end.

(** [s.rpartition(c)]: split at the last [c]. *)
Fixpoint rcut (c : ascii) (s : string) : option (string * string) :=
  match s with
  | EmptyString => None
  | String x s' =>
      match rcut c s' with
      | Some (a, b) => Some (String x a, b)
      | None => if Ascii.eqb x c then Some (EmptyString, s') else None
      end
  end.

(** [s.split(c)] *)
Fixpoint split (c : ascii) (s : string) : list string :=
  match s with
  | EmptyString => [EmptyString]
  | String x s' =>
      if Ascii.eqb x c then EmptyString :: split c s'
      else match split c s' with
           | seg :: segs => String x seg :: segs
           | [] => [String x EmptyString]
           end
  end.

(** [url.lstrip(_WHATWG_C0_CONTROL_OR_SPACE)] *)
Fixpoint lstrip_c0 (s : string) : string :=
  match s with
  | EmptyString => EmptyString
  | String c s' => if Nat.leb (nat_of_ascii c) 32 then lstrip_c0 s' else s
  end.

Fixpoint rstrip_c0 (s : string) : string :=
  match s with
  | EmptyString => EmptyString
  | String c s' =>
      match rstrip_c0 s' with
      | EmptyString =>
          if Nat.leb (nat_of_ascii c) 32 then EmptyString else String c EmptyString
      | r => String c r
      end
  end.

(** The three [replace] calls over [_UNSAFE_URL_BYTES_TO_REMOVE]. *)
Fixpoint remove_unsafe (s : string) : string :=
  match s with
  | EmptyString => EmptyString
  | String c s' =>
      if Ascii.eqb c Py.TAB || Ascii.eqb c Py.CR || Ascii.eqb c Py.LF
      then remove_unsafe s'
      else String c (remove_unsafe s')
  end.

(** [_splitnetloc(url, 2)] on the text after the two slashes: the netloc
    runs to the first of [/], [?] and [#]. *)
Fixpoint splitnetloc (s : string) : string * string :=
  match s with
  | EmptyString => (EmptyString, EmptyString)
  | String c s' =>
      if Ascii.eqb c "/" || Ascii.eqb c "?" || Ascii.eqb c "#" then (EmptyString, s)
      else let (a, b) := splitnetloc s' in (String c a, b)
  end.

Section Checks.

Variable host_ok : string -> bool.
Variable nfkc_ok : string -> bool.

Definition _check_bracketed_netloc (netloc : string) : exn + unit :=
  let hostname_and_port :=
    match rcut "@" netloc with
    | Some (_, b) => b
    | None => netloc
    end in
  match cut "[" hostname_and_port with
  | Some (before_bracket, bracketed) =>
      if negb (String.eqb before_bracket "") then inl (ValueError "Invalid IPv6 URL")
      else
        let (hostname, port) :=
          match cut "]" bracketed with
          | Some (h, p) => (h, p)
          | None => (bracketed, EmptyString)
          end in
        if negb (String.eqb port "") && negb (Py.startswith port ":")
        then inl (ValueError "Invalid IPv6 URL")
        else if host_ok hostname then inr tt
        else inl (ValueError "invalid bracketed host")
  | None =>
      let hostname :=
        match cut ":" hostname_and_port with
        | Some (h, _) => h
        | None => hostname_and_port
        end in
      if host_ok hostname then inr tt else inl (ValueError "invalid bracketed host")
  end.

Definition _checknetloc (netloc : string) : exn + unit :=
  if String.eqb netloc "" || forallb_str (fun c => Nat.ltb (nat_of_ascii c) 128) netloc
  then inr tt
  else if nfkc_ok netloc then inr tt
  else inl (ValueError "netloc contains invalid characters under NFKC normalization").

(** (scheme, netloc, path, query, fragment) *)
Definition SplitResult : Type := string * string * string * string * string.

Definition urlsplit (url scheme : string) : exn + SplitResult :=
  let url := remove_unsafe (lstrip_c0 url) in
  let scheme := remove_unsafe (rstrip_c0 (lstrip_c0 scheme)) in
  let (scheme, url) :=
    match cut ":" url with
    | Some ((String c0 rest) as head, tail) =>
        if is_alpha c0 && forallb_str is_scheme_char head
        then (Py.lower head, tail)
        else (scheme, url)
    | _ => (scheme, url)
    end in
  let checked :=
    if Py.startswith url "//" then
      let (netloc, rest) := splitnetloc (Py.drop 2 url) in
      if (has "[" netloc && negb (has "]" netloc))
         || (has "]" netloc && negb (has "[" netloc))
      then inl (ValueError "Invalid IPv6 URL")
      else if has "[" netloc && has "]" netloc then
        match _check_bracketed_netloc netloc with
        | inl e => inl e
        | inr _ => inr (netloc, rest)
        end
      else inr (netloc, rest)
    else inr (EmptyString, url) in
  match checked with
  | inl e => inl e
  | inr (netloc, url) =>
      let (url, fragment) :=
        match cut "#" url with
        | Some (a, b) => (a, b)
        | None => (url, EmptyString)
        end in
      let (url, query) :=
        match cut "?" url with
        | Some (a, b) => (a, b)
        | None => (url, EmptyString)
        end in
      match _checknetloc netloc with
      | inl e => inl e
      | inr _ => inr (scheme, netloc, url, query, fragment)
      end
  end.

(** [_splitparams] *)
Definition _splitparams (url : string) : string * string :=
  match rcut "/" url with
  | Some (dir, file) =>
      match cut ";" file with
      | Some (a, b) => (dir ++ "/" ++ a, b)
      | None => (url, EmptyString)
      end
  | None =>
      (* [i = url.find(';')], and the caller made sure there is one *)
      match cut ";" url with
      | Some (a, b) => (a, b)
      | None => (url, EmptyString)
      end
  end.

(** (scheme, netloc, path, params, query, fragment) *)
Definition ParseResult : Type := string * string * string * string * string * string.

Definition urlparse (url scheme : string) : exn + ParseResult :=
  match urlsplit url scheme with
  | inl e => inl e
  | inr (scheme, netloc, url, query, fragment) =>
      let (url, params) :=
        if mem scheme uses_params && has ";" url then _splitparams url
        else (url, EmptyString) in
      inr (scheme, netloc, url, params, query, fragment)
  end.

Definition urlunsplit (c : SplitResult) : string :=
  let '(scheme, netloc, url, query, fragment) := c in
  let url :=
    if negb (String.eqb netloc "")
       || (negb (String.eqb scheme "") && mem scheme uses_netloc
           && negb (Py.startswith url "//"))
    then
      let url := if negb (String.eqb url "") && negb (Py.startswith url "/")
                 then "/" ++ url else url in
      "//" ++ netloc ++ url
    else url in
  let url := if negb (String.eqb scheme "") then scheme ++ ":" ++ url else url in
  let url := if negb (String.eqb query "") then url ++ "?" ++ query else url in
  if negb (String.eqb fragment "") then url ++ "#" ++ fragment else url.

Definition urlunparse (c : ParseResult) : string :=
  let '(scheme, netloc, url, params, query, fragment) := c in
  let url := if negb (String.eqb params "") then url ++ ";" ++ params else url in
  urlunsplit (scheme, netloc, url, query, fragment).

(** [segments[1:-1] = filter(None, segments[1:-1])] *)
Definition filter_middle (segments : list string) : list string :=
  match segments with
  | first :: ((_ :: _) as rest) =>
      first :: (filter (fun seg => negb (String.eqb seg "")) (removelast rest)
                ++ [last rest EmptyString])%list
  | _ => segments
  end.

(** The loop over [segments] that fills [resolved_path]. *)
Definition resolve (segments : list string) : list string :=
  fold_left
    (fun resolved_path seg =>
       if String.eqb seg ".." then removelast resolved_path
       else if String.eqb seg "." then resolved_path
       else (resolved_path ++ [seg])%list)
    segments [].

Definition urljoin (base url : string) : exn + string :=
  if String.eqb base "" then inr url
  else if String.eqb url "" then inr base
  else
    match urlparse base "" with
    | inl e => inl e
    | inr (bscheme, bnetloc, bpath, bparams, bquery, bfragment) =>
        match urlparse url bscheme with
        | inl e => inl e
        | inr (scheme, netloc, path, params, query, fragment) =>
            if negb (String.eqb scheme bscheme) || negb (mem scheme uses_relative)
            then inr url
            else if mem scheme uses_netloc && negb (String.eqb netloc "")
            then inr (urlunparse (scheme, netloc, path, params, query, fragment))
            else
              let netloc := if mem scheme uses_netloc then bnetloc else netloc in
              if String.eqb path "" && String.eqb params "" then
                let query := if String.eqb query "" then bquery else query in
                inr (urlunparse (scheme, netloc, bpath, bparams, query, fragment))
              else
                let base_parts := split "/" bpath in
                let base_parts :=
                  if negb (String.eqb (last base_parts EmptyString) "")
                  then removelast base_parts else base_parts in
                let segments :=
                  if Py.startswith path "/" then split "/" path
                  else filter_middle (base_parts ++ split "/" path) in
                let resolved_path := resolve segments in
                let resolved_path :=
                  if mem (last segments EmptyString) ["."; ".."]
                  then (resolved_path ++ [EmptyString])%list else resolved_path in
                let joined := Py.join "/" resolved_path in
                inr (urlunparse
                       (scheme, netloc,
                        (if String.eqb joined "" then "/" else joined),
                        params, query, fragment))
        end
    end.

(** [urlparse(url).path] *)
Definition urlparse_path (url : string) : exn + string :=
  match urlparse url "" with
  | inl e => inl e
  | inr (_, _, path, _, _, _) => inr path
  end.

End Checks.

End Urllib.

(** ** A small world to run the browser in

    Stand-ins for the libraries, enough to evaluate the browser on the
    concrete inputs of the examples below: a handful of URLs with fixed
    answers, a parser that only finds the title element, a sanitizer that
    leaves a name as it is, and [urllib.parse] as modelled above. *)

Module Demo.

(** The text after the first occurrence of [marker]. *)
Fixpoint after (marker s : string) : option string :=
  if String.prefix marker s then Some (Py.drop (String.length marker) s)
  else match s with
       | EmptyString => None
       | String _ s' => after marker s'
       end.

(** The text before the first occurrence of [marker]. *)
Fixpoint before (marker s : string) : string :=
  if String.prefix marker s then EmptyString
  else match s with
       | EmptyString => EmptyString
       | String c s' => String c (before marker s')
       end.

Definition soup (text : string) : Soup :=
  {| soup_title :=
       match after "<title>" text with
       | Some t => Some (Some (before "</title>" t))
       | None => None
       end;
     soup_markdown := text |}.

Definition html_page : Response :=
  {| status_code := 200;
     headers := [("Content-Type", "text/html; charset=utf-8")];
     iter_content := ["<html><head><title>T</title></head>";
                      "<body><p>Hi</p></body></html>"];
     iter_content_unicode := [StrChunk "<html><head><title>T</title></head>";
                              StrChunk "<body><p>Hi</p></body></html>"] |}.

Definition not_found : Response :=
  {| status_code := 404;
     headers := [("Content-Type", "text/html")];
     iter_content := ["<html><body><p>Not found</p></body></html>"];
     iter_content_unicode := [StrChunk "<html><body><p>Not found</p></body></html>"] |}.

Definition gone : Response :=
  {| status_code := 410;
     headers := [("Content-Type", "text/plain")];
     iter_content := ["Gone"];
     iter_content_unicode := [StrChunk "Gone"] |}.

Definition blob : Response :=
  {| status_code := 200;
     headers := [("Content-Type", "application/octet-stream")];
     iter_content := ["01"; "23"];
     iter_content_unicode := [BytesChunk "01"; BytesChunk "23"] |}.

(** An error answer of a type for which [requests] has no encoding. *)
Definition broken : Response :=
  {| status_code := 500;
     headers := [("Content-Type", "application/octet-stream")];
     iter_content := ["oops"];
     iter_content_unicode := [BytesChunk "oops"] |}.

Definition search_answer : Response :=
  {| status_code := 200;
     headers := [("Content-Type", "application/json")];
     iter_content := [];
     iter_content_unicode := [] |}.

(** Two web results, the first with one deep link. *)
Definition cats : SearchResults :=
  {| webPages :=
       Some (Some
         [ {| wp_name := Some "A"; wp_url := Some "http://a"; wp_snippet := Some "first";
              wp_deepLinks := Some [ {| dl_name := Some "A1"; dl_url := Some "http://a/1";
                                        dl_snippet := None |} ] |};
           {| wp_name := Some "B"; wp_url := Some "http://b"; wp_snippet := Some "second";
              wp_deepLinks := None |} ]);
     news := None |}.

(** The same answer with a news section of one item. *)
Definition cats_in_the_news : SearchResults :=
  {| webPages := webPages cats;
     news := Some (Some [ {| news_name := Some "N"; news_url := Some "http://n";
                             news_description := Some "today" |} ]) |}.

(** An answer without web results: the API leaves the key out. *)
Definition no_web_pages : SearchResults :=
  {| webPages := None; news := None |}.

(** Addresses without an answer fail in transport, with no response. *)
Definition get (url : string) (kw : dict) : exn + Response :=
  if String.eqb url "http://a.com/index.html" then inr html_page
  else if String.eqb url "http://a.com/missing" then inr not_found
  else if String.eqb url "http://a.com/gone" then inr gone
  else if String.eqb url "https://a.com/files/data.bin" then inr blob
  else if String.eqb url "https://a.com/" then inr blob
  else if String.eqb url search_url then inr search_answer
  else if String.eqb url "http://a.com/broken" then inr broken
  else inl (RequestException None).

(** [os.path.abspath] on an absolute path that is normalised but for a
    trailing slash. *)
Fixpoint abspath (p : string) : string :=
  match p with
  | EmptyString => EmptyString
  | String c EmptyString => if Ascii.eqb c "/" then EmptyString else p
  | String c p' => String c (abspath p')
  end.

Definition guess_extension (content_type : option string) : option string :=
  match content_type with
  | Some "application/octet-stream" => Some ".bin"
  | Some "text/html" => Some ".html"
  | _ => None
  end.

Definition env : Env :=
  {| IS_PDF_CAPABLE := false;
     pathvalidate_sanitize_filename := Some (fun name => inr name);
     requests_get := get;
     response_json := fun _ => inr cats;
     BeautifulSoup := soup;
     pdfminer_extract_text := fun _ => inl (NameError "pdfminer");
     mimetypes_guess_extension := guess_extension;
     uuid4 := fun n => "uuid-" ++ Py.str_of_int (Z.of_nat n);
     urljoin := Urllib.urljoin (fun _ => true) (fun _ => true);
     urlparse_path := Urllib.urlparse_path (fun _ => true) (fun _ => true);
     os_path_abspath := abspath |}.


(** The same world with another answer of the search API. *)
Definition answering (results : SearchResults) : Env :=
  {| IS_PDF_CAPABLE := false;
     pathvalidate_sanitize_filename := Some (fun name => inr name);
     requests_get := get;
     response_json := fun _ => inr results;
     BeautifulSoup := soup;
     pdfminer_extract_text := fun _ => inl (NameError "pdfminer");
     mimetypes_guess_extension := guess_extension;
     uuid4 := fun n => "uuid-" ++ Py.str_of_int (Z.of_nat n);
     urljoin := Urllib.urljoin (fun _ => true) (fun _ => true);
     urlparse_path := Urllib.urlparse_path (fun _ => true) (fun _ => true);
     os_path_abspath := abspath |}.

Definition disk : World :=
  {| fs_dirs := ["/"; "/tmp"; "/tmp/dl"]; fs_files := []; uuid_count := 0 |}.

(** A browser as [SimpleTextBrowser(downloads_folder=folder, bing_api_key="k")]
    builds it, on [about:blank]. *)
Definition browser (folder : option string) : State :=
  snd (__init__ env 0 "about:blank" 8192 folder (Some "k") None disk).

(** The same browser after its history gained [addr] as current address. *)
Definition browser_at (folder : option string) (addr : string) : State :=
  let s := browser folder in
  {| self := set_history (history (self s) ++ [addr]) (self s); world := world s |}.

(** A browser on a page of its own: the current address, the content and
    the viewport size are given, the rest is as in [browser None]. *)
Definition reading (addr content : string) (size : Z) : State :=
  let s := browser None in
  {| self :=
       {| start_page := start_page (self s); viewport_size := size;
          downloads_folder := None; history := ["about:blank"; addr];
          page_title := None; viewport_current_page := 0; viewport_pages := [(0, 0)];
          bing_api_key := bing_api_key (self s);
          request_kwargs := request_kwargs (self s);
          _page_renderers := _page_renderers (self s);
          _error_renderers := _error_renderers (self s);
          _page_content := Some content |};
     world := world s |}.

(** A renderer of a caller's own that claims every response and signs
    its page. *)
Definition signed (name : string) : TextRendererResult :=
  {| title := Some name; page_content := "rendered by " ++ name |}.

Definition signing (name : string) : Renderer :=
  CustomRenderer (fun _ _ _ => inr true) (fun _ _ _ _ => inr (signed name)).

End Demo.

(** ** Notions the properties are stated with *)

(** A computation keeps the history when its final state has the history
    of its initial state, whatever the outcome. *)
Definition keeps_history {A} (c : M A) : Prop :=
  forall s, history (self (snd (c s))) = history (self s).

(** What [HtmlRenderer] makes of a body text whose soup has a title
    element. *)
Definition html_content (env : Env) (text : string) : string :=
  Py.strip (Re.sub_blank_lines (Re.sub_crlf (soup_markdown (BeautifulSoup env text)))).


(** The page renderers in the order [__init__] leaves them: the last one
    registered comes first. *)
Definition default_page_renderers (env : Env) : list Renderer :=
  ((if IS_PDF_CAPABLE env then [PdfRenderer] else [])
   ++ [PlainTextRenderer; HtmlRenderer; DownloadRenderer; FallbackPageRenderer])%list.

(** The renderer of that list that comes first among those claiming a
    content type; [downloads] says whether a downloads folder is set. *)
Definition default_choice (env : Env) (downloads : bool) (content_type : option string)
    : Renderer :=
  if IS_PDF_CAPABLE env && claims_type "application/pdf" content_type then PdfRenderer
  else if claims_type "text/plain" content_type then PlainTextRenderer
  else if claims_type "text/html" content_type then HtmlRenderer
  else if downloads then DownloadRenderer
  else FallbackPageRenderer.

(** The numbering as the specification words it.  An item is what one
    numbered entry shows: a name, a URL and a text.  The items of a result
    set come in traversal order, each web result followed by its deep
    links, then the news; they are there when the answer has the shape the
    API documents, every object with its keys (a deep link may go without
    a snippet, a web result without deep links, the answer without
    news). *)
Definition Item : Type := string * string * string.

Definition item (name url text : option string) : option Item :=
  match name, url, text with
  | Some n, Some u, Some t => Some (n, u, t)
  | _, _, _ => None
  end.

Definition deep_link_item (dl : DeepLink) : option Item :=
  item (dl_name dl) (dl_url dl)
    (Some (match dl_snippet dl with
           | Some t => t
           | None => ""
           end)).

Definition news_item (page : NewsItem) : option Item :=
  item (news_name page) (news_url page) (news_description page).

(** The items of all objects of a list, if each object has its keys. *)
Fixpoint all_items {A} (f : A -> option (list Item)) (l : list A) : option (list Item) :=
  match l with
  | [] => Some []
  | a :: l' =>
      match f a, all_items f l' with
      | Some x, Some y => Some (x ++ y)%list
      | _, _ => None
      end
  end.

Definition one {A} (f : A -> option Item) (a : A) : option (list Item) :=
  option_map (fun i => [i]) (f a).

Definition web_items (page : WebPage) : option (list Item) :=
  match item (wp_name page) (wp_url page) (wp_snippet page),
        match wp_deepLinks page with
        | Some dls => all_items (one deep_link_item) dls
        | None => Some []
        end with
  | Some i, Some links => Some (i :: links)
  | _, _ => None
  end.

Definition web_traversal (results : SearchResults) : option (list Item) :=
  match webPages results with
  | Some (Some pages) => all_items web_items pages
  | _ => None
  end.

Definition news_traversal (results : SearchResults) : option (list Item) :=
  match news results with
  | None => Some []
  | Some None => None
  | Some (Some items) => all_items (one news_item) items
  end.

(** The entry with number [idx] as the Markdown shows it: the number, a
    full stop, the name as a link to the URL, and the text on the next
    line. *)
Definition entry (idx : Z) (i : Item) : string :=
  let '(name, url, text) := i in
  Py.str_of_int idx ++ ". [" ++ name ++ "](" ++ url ++ ")" ++ Py.nl ++ text.

(** The entries of a list of items, numbered from [idx] on by one
    counter. *)
Fixpoint numbered (idx : Z) (items : list Item) : list string :=
  match items with
  | [] => []
  | i :: rest => entry idx i :: numbered (idx + 1) rest
  end.

(** The page of a search: a line with the number of results, the section
    of the web results numbered from 1 and, where there are news, the
    section of the news numbered on from there, the entries of a section
    one blank line apart. *)
Definition results_page (query : string) (web nw : list Item) : string :=
  "A Bing search for '" ++ query ++ "' found "
  ++ Py.str_of_int (Z.of_nat (List.length web + List.length nw)) ++ " results:"
  ++ Py.nl ++ Py.nl ++ "## Web Results" ++ Py.nl
  ++ Py.join (Py.nl ++ Py.nl) (numbered 1 web)
  ++ match nw with
     | [] => ""
     | _ :: _ =>
         Py.nl ++ Py.nl ++ "## News Results:" ++ Py.nl
         ++ Py.join (Py.nl ++ Py.nl) (numbered (1 + Z.of_nat (List.length web)) nw)
     end.

(** A computation keeps an attribute of the browser when its final state
    has the value of its initial state there, whatever the outcome. *)
Definition keeps_attr {B A} (proj : SimpleTextBrowser -> B) (c : M A) : Prop :=
  forall s, proj (self (snd (c s))) = proj (self s).


(** The viewport can be read: there is a page content, and the index of
    the current page points into the list of pages. *)
Definition readable (b : SimpleTextBrowser) : Prop :=
  _page_content b <> None /\
  0 <= viewport_current_page b < Z.of_nat (List.length (viewport_pages b)).

(** When [c] is started in a state with [P] and returns [a], the state it
    leaves and [a] satisfy [Q]. *)
Definition returns_with {A} (P : State -> Prop) (c : M A) (Q : A -> State -> Prop)
    : Prop :=
  forall s a s', P s -> c s = (Ret a, s') -> Q a s'.

(** A page has been stored and split. *)
Definition paged (s : State) : Prop :=
  _page_content (self s) <> None /\ viewport_pages (self s) <> [].

(** A predicate on the browser is kept by a computation, whatever the
    outcome. *)
Definition keeps_pred (P : SimpleTextBrowser -> Prop) {A} (c : M A) : Prop :=
  forall s, P (self s) -> P (self (snd (c s))).

(** Three line feeds in a row: two blank lines. *)
Definition three_newlines : string := Py.nl ++ Py.nl ++ Py.nl.

(** * Properties *)

(** ** Pagination *)

Module PagesFacts.

Import Pages.

Lemma get_in_range (s : string) (k : nat) :
  (k < String.length s)%nat -> exists c, String.get k s = Some c.
Proof.
  revert k. induction s as [|c s IH]; intros k Hk; simpl in Hk.
  - lia.
  - destruct k as [|k]; simpl.
    + now exists c.
    + apply IH. lia.
Qed.

Lemma getitem_in_range (s : string) (i : Z) :
  0 <= i < Py.len s -> exists c, Py.getitem s i = Some c.
Proof.
  intros Hi. unfold Py.getitem.
  replace ((0 <=? i) && (i <? Py.len s)) with true
    by (symmetry; apply andb_true_iff; split; [apply Z.leb_le | apply Z.ltb_lt]; lia).
  apply get_in_range. unfold Py.len in Hi. lia.
Qed.

(** The inner loop stops, at or after the candidate end and not beyond
    the content, on a break unless it reached the end of the content. *)
Lemma extend_end_ok (content : string) :
  forall fuel e,
    1 <= e <= Py.len content ->
    (Z.to_nat (Py.len content - e) < fuel)%nat ->
    exists e',
      extend_end fuel content e = Ret e' /\ e <= e' <= Py.len content /\
      (e' < Py.len content -> break_before content e').
Proof.
  induction fuel as [|fuel IH]; intros e He Hfuel; [lia|].
  simpl. destruct (e <? Py.len content) eqn:Hlt.
  - apply Z.ltb_lt in Hlt.
    destruct (getitem_in_range content (e - 1)) as [c Hc]; [lia|].
    rewrite Hc. destruct (is_break c) eqn:Hb; simpl.
    + exists e. repeat split; try lia. intros _. now exists c.
    + destruct (IH (e + 1)) as (e' & Hrun & Hrange & Hbreak); [lia | lia |].
      exists e'. repeat split; try lia; assumption.
  - apply Z.ltb_ge in Hlt. exists e. repeat split; lia.
Qed.

Lemma split_loop_ok (content : string) (size : Z) :
  1 <= size ->
  forall fuel from pages,
    0 <= from <= Py.len content ->
    (Z.to_nat (Py.len content - from) + 2 <= fuel)%nat ->
    exists rest,
      split_loop fuel content size from pages = (Ret tt, (pages ++ rest)%list) /\
      chain content from rest.
Proof.
  intros Hsize. induction fuel as [|fuel IH]; intros from pages Hfrom Hfuel; [lia|].
  simpl. destruct (from <? Py.len content) eqn:Hlt.
  - apply Z.ltb_lt in Hlt.
    destruct (extend_end_ok content fuel (Z.min (from + size) (Py.len content)))
      as (e & Hrun & Hrange & Hbreak); [lia | lia |].
    rewrite Hrun.
    destruct (IH e (pages ++ [(from, e)])%list) as (rest & Hloop & Hchain); [lia | lia |].
    exists ((from, e) :: rest). split.
    + rewrite Hloop. now rewrite <- app_assoc.
    + constructor; [lia | assumption | assumption].
  - apply Z.ltb_ge in Hlt. exists []. split.
    + now rewrite app_nil_r.
    + replace from with (Py.len content) by lia. constructor.
Qed.

(** More fuel does not change a run that ended. *)
Lemma extend_end_mono (content : string) :
  forall fuel fuel' e e',
    extend_end fuel content e = Ret e' -> (fuel <= fuel')%nat ->
    extend_end fuel' content e = Ret e'.
Proof.
  induction fuel as [|fuel IH]; intros fuel' e e' Hrun Hle; [discriminate|].
  destruct fuel' as [|fuel']; [lia|].
  simpl in *. destruct (e <? Py.len content); [|assumption].
  destruct (Py.getitem content (e - 1)) as [c|]; [|discriminate].
  destruct (negb (is_break c)); [|assumption].
  apply IH with (fuel' := fuel') in Hrun; [assumption | lia].
Qed.

Lemma split_loop_mono (content : string) (size : Z) :
  forall fuel fuel' from pages pages',
    split_loop fuel content size from pages = (Ret tt, pages') -> (fuel <= fuel')%nat ->
    split_loop fuel' content size from pages = (Ret tt, pages').
Proof.
  induction fuel as [|fuel IH]; intros fuel' from pages pages' Hrun Hle; [discriminate|].
  destruct fuel' as [|fuel']; [lia|].
  simpl in *. destruct (from <? Py.len content); [|assumption].
  destruct (extend_end fuel content (Z.min (from + size) (Py.len content))) as [e| |] eqn:He;
    try discriminate.
  rewrite (extend_end_mono content fuel fuel' _ e He) by lia.
  apply IH; [assumption | lia].
Qed.

(** What a chain says about the list, by position. *)
Lemma chain_first content from pages :
  chain content from pages -> from < Py.len content ->
  exists e rest, pages = (from, e) :: rest.
Proof. intros H Hlt. destruct H; [lia | eauto]. Qed.

Lemma chain_last content from pages :
  chain content from pages -> pages <> [] ->
  snd (last pages (0, 0)) = Py.len content.
Proof.
  induction 1 as [|from e rest Hr Hb Hc IH]; intros Hne; [congruence|].
  destruct rest as [|p rest'].
  - inversion Hc; subst. reflexivity.
  - change (last ((from, e) :: p :: rest') (0, 0)) with (last (p :: rest') (0, 0)).
    apply IH. discriminate.
Qed.

Lemma chain_nonempty content from pages :
  chain content from pages -> Forall (fun p => fst p < snd p) pages.
Proof. induction 1; constructor; simpl; try lia; assumption. Qed.

Lemma chain_adjacent content from pages :
  chain content from pages ->
  forall i a b a' b',
    nth_error pages i = Some (a, b) -> nth_error pages (S i) = Some (a', b') ->
    a' = b /\ break_before content b.
Proof.
  induction 1 as [|from e rest Hr Hb Hc IH]; intros i a b a' b' H1 H2.
  - destruct i; discriminate.
  - destruct i as [|i].
    + simpl in H1, H2. injection H1 as <- <-.
      destruct Hc as [|from' e' rest' Hr' Hb' Hc']; [discriminate|].
      simpl in H2. injection H2 as <- <-. split; [reflexivity|].
      apply Hb. lia.
    + simpl in H1. change (nth_error rest (S i) = Some (a', b')) in H2. eauto.
Qed.

(** With a viewport of zero characters and a content ending in a break,
    the first page is empty and [start_idx] never moves. *)
Lemma split_loop_stuck_0 :
  forall fuel pages, fst (split_loop fuel " " 0 0 pages) = OutOfFuel.
Proof.
  induction fuel as [|fuel IH]; intros pages; [reflexivity|].
  destruct fuel as [|fuel']; [reflexivity|].
  change (split_loop (S (S fuel')) " " 0 0 pages)
    with (split_loop (S fuel') " " 0 0 (pages ++ [(0, 0)])%list).
  apply IH.
Qed.

(** A negative viewport size can stall the loop in the same way. *)
Lemma split_loop_stuck_neg :
  forall fuel pages, fst (split_loop fuel "a " (-1) 0 pages) = OutOfFuel.
Proof.
  induction fuel as [|fuel IH]; intros pages; [reflexivity|].
  destruct fuel as [|[|fuel']]; [reflexivity | reflexivity |].
  change (split_loop (S (S (S fuel'))) "a " (-1) 0 pages)
    with (split_loop (S (S fuel')) "a " (-1) 0 (pages ++ [(0, 0)])%list).
  apply IH.
Qed.

(** The pages put side by side are the content again. *)
Lemma append_empty_r (s : string) : s ++ "" = s.
Proof. induction s as [|c s IH]; simpl; [reflexivity | now rewrite IH]. Qed.

Lemma take_drop (s : string) : forall n, Py.take n s ++ Py.drop n s = s.
Proof.
  induction s as [|c s IH]; intros [|n]; simpl; try reflexivity.
  now rewrite IH.
Qed.

Lemma drop_drop (s : string) : forall m n, Py.drop n (Py.drop m s) = Py.drop (m + n) s.
Proof.
  induction s as [|c s IH]; intros [|m] n; simpl; try reflexivity.
  - now destruct n.
  - apply IH.
Qed.

Lemma drop_all (s : string) : Py.drop (String.length s) s = "".
Proof. induction s as [|c s IH]; simpl; [reflexivity | exact IH]. Qed.

Lemma slice_then_drop (s : string) (a b : Z) :
  0 <= a <= b ->
  Py.slice s a b ++ Py.drop (Z.to_nat b) s = Py.drop (Z.to_nat a) s.
Proof.
  intros Hab. unfold Py.slice.
  replace (Z.to_nat b) with (Z.to_nat a + Z.to_nat (b - a))%nat by lia.
  rewrite <- drop_drop. apply take_drop.
Qed.

Lemma join_cons (x : string) (l : list string) :
  Py.join "" (x :: l) = x ++ Py.join "" l.
Proof.
  unfold Py.join. destruct l as [|y l]; simpl.
  - now rewrite append_empty_r.
  - reflexivity.
Qed.

Lemma chain_join content from pages :
  chain content from pages -> 0 <= from ->
  Py.join "" (map (fun p => Py.slice content (fst p) (snd p)) pages)
  = Py.drop (Z.to_nat from) content.
Proof.
  induction 1 as [|from e rest Hr Hb Hc IH]; intros Hfrom.
  - unfold Py.len. rewrite Nat2Z.id, drop_all. reflexivity.
  - cbn [map fst snd]. rewrite join_cons, IH by lia.
    apply slice_then_drop. lia.
Qed.

End PagesFacts.

(** C2.  On a page whose address starts with [http:] or [https:], with a
    viewport of at least one character, [_split_pages] returns (given
    enough fuel for its loops) and leaves in [viewport_pages] an ordered
    partition of the content: there is a first range and it starts at 0,
    the last range ends at [len(content)], every range starts where the
    one before it ends, and the character before the end of every range
    but the last is a space, a tab, a carriage return or a line feed.
    The slices of the content over the ranges, put side by side, are the
    content again.  Empty content gives the single range (0, 0). *)
Theorem split_pages_partition :
  forall (st : State) (addr content : string),
    address st = (Ret addr, st) ->
    Py.startswith addr "http:" = true \/ Py.startswith addr "https:" = true ->
    _page_content (self st) = Some content ->
    1 <= viewport_size (self st) ->
    exists pages,
      (forall fuel, (String.length content + 2 <= fuel)%nat ->
         _split_pages fuel st
         = (Ret tt, {| self := set_viewport_pages pages (self st); world := world st |})) /\
      pages <> [] /\
      fst (hd (0, 0) pages) = 0 /\
      snd (last pages (0, 0)) = Py.len content /\
      (forall i a b a' b',
         nth_error pages i = Some (a, b) -> nth_error pages (S i) = Some (a', b') ->
         a' = b /\
         exists c, Py.getitem content (b - 1) = Some c /\ Pages.is_break c = true) /\
      Py.join "" (map (fun p => Py.slice content (fst p) (snd p)) pages) = content /\
      (content = "" -> pages = [(0, 0)]).
Proof.
  intros st addr content Haddr Hhttp Hcontent Hsize.
  assert (Hbranch : negb (Py.startswith addr "http:") && negb (Py.startswith addr "https:")
                    = false).
  { destruct Hhttp as [-> | ->]; [reflexivity | apply andb_false_r]. }
  assert (Hrun : forall fuel pages r,
             Pages.split_pages fuel addr content (viewport_size (self st)) = (r, pages) ->
             _split_pages fuel st
             = (r, {| self := set_viewport_pages pages (self st); world := world st |})).
  { intros fuel pages r Hsp. unfold _split_pages, bind. rewrite Haddr.
    unfold getattr. rewrite Hcontent. unfold get. rewrite Hsp. reflexivity. }
  destruct content as [|c0 content'].
  - exists [(0, 0)]. split; [|split; [|split; [|split; [|split; [|split]]]]];
      try reflexivity; try discriminate.
    + intros fuel _. apply Hrun. unfold Pages.split_pages. rewrite Hbranch. reflexivity.
    + intros [|[|i]] p q p' q' H1 H2; simpl in H2; discriminate.
  - set (content := String c0 content') in *.
    assert (Hlen : 0 < Py.len content) by (unfold Py.len, content; simpl; lia).
    destruct (PagesFacts.split_loop_ok content (viewport_size (self st)) Hsize
                (String.length content + 2) 0 [])
      as (pages & Hloop & Hchain); [lia | unfold Py.len; lia |].
    simpl in Hloop.
    destruct (PagesFacts.chain_first _ _ _ Hchain Hlen) as (e & rest & Hpages).
    exists pages. split; [|split; [|split; [|split; [|split; [|split]]]]].
    + intros fuel Hfuel. apply Hrun. unfold Pages.split_pages. rewrite Hbranch.
      replace (Py.len content =? 0) with false by (symmetry; apply Z.eqb_neq; lia).
      apply (PagesFacts.split_loop_mono content (viewport_size (self st))
               (String.length content + 2) fuel 0 [] pages Hloop Hfuel).
    + subst pages. discriminate.
    + subst pages. reflexivity.
    + apply (PagesFacts.chain_last _ _ _ Hchain). subst pages. discriminate.
    + intros i p q p' q' H1 H2.
      apply (PagesFacts.chain_adjacent _ _ _ Hchain i p q p' q' H1 H2).
    + apply (PagesFacts.chain_join _ _ _ Hchain). lia.
    + discriminate.
Qed.

(** ** What leaves the history alone

    Only [set_address] writes [self.history]; every other method keeps it,
    whatever its outcome. *)

Section KeepsHistory.

Lemma keeps_ret {A} (a : A) : keeps_history (ret a).
Proof. intros s. reflexivity. Qed.

Lemma keeps_raise {A} (e : exn) : keeps_history (@raise A e).
Proof. intros s. reflexivity. Qed.

Lemma keeps_lift {A} (r : exn + A) : keeps_history (lift r).
Proof. destruct r; intros s; reflexivity. Qed.

Lemma keeps_get {A} (proj : SimpleTextBrowser -> A) : keeps_history (get proj).
Proof. intros s. reflexivity. Qed.

Lemma keeps_getattr {A} name (proj : SimpleTextBrowser -> option A) :
  keeps_history (getattr name proj).
Proof. intros s. unfold getattr. destruct (proj (self s)); reflexivity. Qed.

Lemma keeps_get_world : keeps_history get_world.
Proof. intros s. reflexivity. Qed.

Lemma keeps_put_world w : keeps_history (put_world w).
Proof. intros s. reflexivity. Qed.

Lemma keeps_modify f :
  (forall b, history (f b) = history b) -> keeps_history (modify f).
Proof. intros Hf s. simpl. apply Hf. Qed.

Lemma keeps_outcome {A} (r : outcome A) : keeps_history (fun s => (r, s)).
Proof. intros s. reflexivity. Qed.

Lemma keeps_bind {A B} (c : M A) (k : A -> M B) :
  keeps_history c -> (forall a, keeps_history (k a)) -> keeps_history (bind c k).
Proof.
  intros Hc Hk s. unfold bind. specialize (Hc s).
  destruct (c s) as [[a | e |] s']; simpl in *; try assumption.
  now rewrite Hk.
Qed.

Lemma keeps_catch {A} (c : M A) (h : exn -> M A) :
  keeps_history c -> (forall e, keeps_history (h e)) -> keeps_history (catch c h).
Proof.
  intros Hc Hh s. unfold catch. specialize (Hc s).
  destruct (c s) as [[a | e |] s']; simpl in *; try assumption.
  now rewrite Hh.
Qed.

End KeepsHistory.

Ltac keeps_step :=
  lazymatch goal with
  | |- keeps_history (bind _ _) => apply keeps_bind; [| intros]
  | |- keeps_history (catch _ _) => apply keeps_catch; [| intros]
  | |- keeps_history (ret _) => apply keeps_ret
  | |- keeps_history (raise _) => apply keeps_raise
  | |- keeps_history (lift _) => apply keeps_lift
  | |- keeps_history (get _) => apply keeps_get
  | |- keeps_history (getattr _ _) => apply keeps_getattr
  | |- keeps_history get_world => apply keeps_get_world
  | |- keeps_history (put_world _) => apply keeps_put_world
  | |- keeps_history (modify _) => apply keeps_modify; intros []; reflexivity
  | |- keeps_history (fun s => (_, s)) => apply keeps_outcome
  | |- keeps_history (match ?x with _ => _ end) => destruct x
  end.

Ltac keeps := repeat keeps_step; try assumption.

Section KeepsHistoryMethods.

Variable env : Env.

Lemma keeps_claim_responsibility r url status content_type :
  keeps_history (claim_responsibility r url status content_type).
Proof. destruct r; simpl; keeps. Qed.

Lemma keeps_render_page r response url status content_type :
  keeps_history (render_page env r response url status content_type).
Proof.
  destruct r; simpl; keeps.
  - unfold HtmlRenderer_render_page. keeps.
  - unfold DownloadRenderer_render_page, try_safe_filename, make_filename, write_file.
    keeps.
  - unfold FallbackErrorRenderer_render_page, HtmlRenderer_render_page. keeps.
Qed.

Lemma keeps_address : keeps_history address.
Proof. unfold address. keeps. Qed.

Lemma keeps_split_pages fuel : keeps_history (_split_pages fuel).
Proof. unfold _split_pages. pose proof keeps_address. keeps. Qed.

Lemma keeps_set_page_content fuel content :
  keeps_history (_set_page_content fuel content).
Proof. unfold _set_page_content. pose proof (keeps_split_pages fuel). keeps. Qed.

Lemma keeps_show fuel res : keeps_history (show fuel res).
Proof. unfold show. pose proof (keeps_set_page_content fuel (page_content res)). keeps. Qed.

Lemma keeps_page_loop fuel url response content_type renderers :
  keeps_history (page_loop env fuel url response content_type renderers).
Proof.
  induction renderers as [|r rs IH]; simpl.
  - keeps. apply keeps_set_page_content.
  - keeps.
    + apply keeps_claim_responsibility.
    + apply keeps_render_page.
    + apply keeps_show.
Qed.

Lemma keeps_error_loop fuel url ex_response renderers :
  forall response content_type,
    keeps_history (error_loop env fuel url ex_response renderers response content_type).
Proof.
  induction renderers as [|r rs IH]; intros response content_type; simpl.
  - keeps; apply keeps_set_page_content.
  - keeps.
    + apply keeps_claim_responsibility.
    + apply keeps_render_page.
    + apply keeps_show.
    + apply IH.
Qed.

Lemma keeps_except_RequestException fuel url response content_type ex :
  keeps_history (except_RequestException env fuel url response content_type ex).
Proof. destruct ex; simpl; keeps. apply keeps_error_loop. Qed.

Lemma keeps_fetch_page fuel url : keeps_history (_fetch_page env fuel url).
Proof.
  unfold _fetch_page. keeps;
    try apply keeps_except_RequestException; try apply keeps_page_loop.
Qed.

Lemma keeps_setitem2 key1 key2 v kw : keeps_history (setitem2 key1 key2 v kw).
Proof.
  unfold setitem2. keeps.
  apply keeps_modify. intros b. destruct (request_kwargs b) as [[orig|]|]; try reflexivity.
  destruct (dict_get key1 orig); reflexivity.
Qed.

Lemma keeps_bing_api_call query : keeps_history (_bing_api_call env query).
Proof. unfold _bing_api_call. keeps; apply keeps_setitem2. Qed.

Lemma keeps_bing_search fuel query : keeps_history (_bing_search env fuel query).
Proof.
  unfold _bing_search. keeps.
  - apply keeps_bing_api_call.
  - apply keeps_set_page_content.
Qed.

End KeepsHistoryMethods.

(** ** Running the monad step by step *)

Lemma run_bind {A B} (c : M A) (k : A -> M B) s a s' :
  c s = (Ret a, s') -> bind c k s = k a s'.
Proof. intros H. unfold bind. now rewrite H. Qed.

Lemma run_bind_raise {A B} (c : M A) (k : A -> M B) s e s' :
  c s = (Raise e, s') -> bind c k s = (Raise e, s').
Proof. intros H. unfold bind. now rewrite H. Qed.

Lemma run_bind_assoc {A B C} (c : M A) (k1 : A -> M B) (k2 : B -> M C) s :
  bind (bind c k1) k2 s = bind c (fun a => bind (k1 a) k2) s.
Proof. unfold bind. destruct (c s) as [[a | e |] s']; reflexivity. Qed.

Lemma run_catch_ret {A} (c : M A) (h : exn -> M A) s a s' :
  c s = (Ret a, s') -> catch c h s = (Ret a, s').
Proof. intros H. unfold catch. now rewrite H. Qed.

Lemma run_catch_raise {A} (c : M A) (h : exn -> M A) s e s' :
  c s = (Raise e, s') -> catch c h s = h e s'.
Proof. intros H. unfold catch. now rewrite H. Qed.

Lemma address_last (s : State) (h : list string) (x : string) :
  history (self s) = (h ++ [x])%list -> address s = (Ret x, s).
Proof.
  intros Hh. unfold address, bind, get. rewrite Hh.
  destruct h as [|y h']; simpl.
  - reflexivity.
  - unfold ret. f_equal. f_equal. apply last_last.
Qed.

(** ** Navigation to a relative path *)

(** C1.  When [set_address] is given a path that is not [about:blank], not
    a search address and not an [http:]/[https:] URL, the entry it leaves
    at the end of the history is [urljoin(uri_or_path, uri_or_path)]: the
    base handed to [urljoin] is [self.address], which at that point is the
    entry appended a line earlier, the path itself, and not the address the
    browser was on.  The previous address plays no part in the entry, which
    therefore stays relative. *)
Theorem set_address_joins_relative_path_with_itself :
  forall (env : Env) (fuel : nat) (st : State) (uri_or_path resolved : string),
    uri_or_path <> "about:blank" ->
    Py.startswith uri_or_path "bing:" = false ->
    Py.startswith uri_or_path "http:" = false ->
    Py.startswith uri_or_path "https:" = false ->
    urljoin env uri_or_path uri_or_path = inr resolved ->
    history (self (snd (set_address env fuel uri_or_path st)))
    = (history (self st) ++ [resolved])%list.
Proof.
  intros env fuel st u resolved Hblank Hbing Hhttp Hhttps Hjoin.
  unfold set_address.
  rewrite (run_bind _ _ st (history (self st)) st) by reflexivity.
  apply String.eqb_neq in Hblank. rewrite Hblank, Hbing, Hhttp, Hhttps. simpl negb. simpl andb.
  rewrite ?run_bind_assoc.
  set (s1 := {| self := set_history (history (self st) ++ [u]) (self st);
                world := world st |}).
  rewrite (run_bind _ _ st tt s1) by reflexivity.
  rewrite ?run_bind_assoc.
  rewrite (run_bind _ _ s1 u s1) by (apply address_last with (h := history (self st)); reflexivity).
  rewrite ?run_bind_assoc.
  rewrite Hjoin. simpl lift.
  rewrite (run_bind _ _ s1 resolved s1) by reflexivity.
  rewrite ?run_bind_assoc.
  rewrite (run_bind _ _ s1 (history (self st) ++ [u])%list s1) by reflexivity.
  rewrite ?run_bind_assoc.
  assert (Hset : set_last resolved (history (self st) ++ [u])
                 = inr (history (self st) ++ [resolved])%list).
  { unfold set_last. rewrite removelast_last.
    destruct (history (self st) ++ [u])%list eqn:E; [|reflexivity].
    now apply app_eq_nil in E. }
  rewrite Hset. simpl lift.
  rewrite (run_bind _ _ s1 (history (self st) ++ [resolved])%list s1) by reflexivity.
  rewrite ?run_bind_assoc.
  set (s2 := {| self := set_history (history (self st) ++ [resolved]) (self s1);
                world := world s1 |}).
  rewrite (run_bind _ _ s1 tt s2) by reflexivity.
  rewrite (run_bind _ _ s2 resolved s2) by reflexivity.
  assert (Hkeep : keeps_history
                    (_fetch_page env fuel resolved ;;; modify (set_viewport_current_page 0))).
  { apply keeps_bind; [apply keeps_fetch_page | intros; keeps]. }
  rewrite (Hkeep s2). reflexivity.
Qed.

(** ** Navigation to an absolute URL *)

Lemma absolute_is_not_special (uri : string) :
  Py.startswith uri "http:" = true \/ Py.startswith uri "https:" = true ->
  String.eqb uri "about:blank" = false /\ Py.startswith uri "bing:" = false.
Proof.
  unfold Py.startswith. intros H.
  destruct uri as [|c uri]; [destruct H; discriminate|].
  assert (Hc : c = "h"%char).
  { destruct H as [H | H]; apply String.prefix_correct in H; simpl in H; congruence. }
  subst c. split; reflexivity.
Qed.

(** For an [http:] or [https:] URL, [set_address] appends the URL to the
    history, fetches it and resets the viewport. *)
Lemma set_address_absolute (env : Env) (fuel : nat) (uri : string) (st : State) :
  Py.startswith uri "http:" = true \/ Py.startswith uri "https:" = true ->
  set_address env fuel uri st
  = (_fetch_page env fuel uri ;;; modify (set_viewport_current_page 0))
      {| self := set_history (history (self st) ++ [uri]) (self st); world := world st |}.
Proof.
  intros H. destruct (absolute_is_not_special uri H) as (Hblank & Hbing).
  assert (Hrel : negb (Py.startswith uri "http:") && negb (Py.startswith uri "https:")
                 = false).
  { destruct H as [-> | ->]; [reflexivity | apply andb_false_r]. }
  unfold set_address. rewrite Hblank, Hbing, Hrel.
  unfold bind at 1, get at 1. unfold bind at 1, modify at 1.
  unfold bind at 1, bind at 1. reflexivity.
Qed.

(** ** Fetch failures *)

(** C6.  When [requests.get] fails with an exception that carries no
    response, [_fetch_page] does not let that exception through: its
    handler starts the loop over the error renderers, and the first round
    reads [ex.response.headers] off [None], so an [AttributeError] leaves
    instead (with no error renderer registered, the lines after the loop
    set the title and then fail on the unbound local [response]).  No page
    content is stored in either case, and [set_address] passes the new
    exception on to its caller, with the URL left in the history. *)
Theorem fetch_page_transport_failure_is_replaced :
  forall (env : Env) (fuel : nat) (url : string) (st : State) (rk : option dict)
         (renderers : list Renderer),
    request_kwargs (self st) = Some rk ->
    requests_get env url (fetch_kwargs rk) = inl (RequestException None) ->
    _error_renderers (self st) = Some renderers ->
    let failed (s : State) : outcome unit * State :=
      match renderers with
      | _ :: _ => (Raise (AttributeError "headers"), s)
      | [] => (Raise (UnboundLocalError "response"),
               {| self := set_page_title (Some "Error - Unhandled _fetch_page") (self s);
                  world := world s |})
      end in
    _fetch_page env fuel url st = failed st /\
    (Py.startswith url "http:" = true \/ Py.startswith url "https:" = true ->
     set_address env fuel url st
     = failed {| self := set_history (history (self st) ++ [url]) (self st);
                 world := world st |}).
Proof.
  intros env fuel url st rk renderers Hrk Hget Hrs failed.
  assert (Hfetch : forall s,
             request_kwargs (self s) = Some rk ->
             _error_renderers (self s) = Some renderers ->
             _fetch_page env fuel url s = failed s).
  { intros s Hrk' Hrs'.
    unfold _fetch_page, bind, catch, getattr. rewrite Hrk'. unfold lift. rewrite Hget.
    simpl. unfold bind, getattr. rewrite Hrs'.
    subst failed. destruct renderers; reflexivity. }
  split; [apply Hfetch; assumption|].
  intros Habs. rewrite (set_address_absolute env fuel url st Habs).
  unfold bind at 1. rewrite Hfetch by assumption.
  subst failed. destruct renderers; reflexivity.
Qed.

(** ** Rendering an HTTP error *)

(** [FallbackErrorRenderer.render_page] never touches the state.  Where
    the body stream yields text it returns the [Error <status>] page for a
    body that is not HTML and for an HTML body with a title element, and
    raises for an HTML body without one; where the stream yields bytes it
    raises the [TypeError] of [_read_all_text]. *)
Lemma FallbackErrorRenderer_render_page_cases :
  forall (env : Env) (response : Response) (status : Z) (content_type : option string)
         (st : State),
    FallbackErrorRenderer_render_page env response status content_type st
    = match _read_all_text response with
      | inl e => (Raise e, st)
      | inr text =>
          if claims_type "text/html" content_type then
            match soup_title (BeautifulSoup env text) with
            | Some _ =>
                (Ret {| title := Some ("Error " ++ Py.str_of_int status);
                        page_content := "## Error " ++ Py.str_of_int status ++ Py.nl ++ Py.nl
                                        ++ html_content env text |}, st)
            | None => (Raise (AttributeError "string"), st)
            end
          else
            (Ret {| title := Some ("Error " ++ Py.str_of_int status);
                    page_content := "## Error " ++ Py.str_of_int status ++ Py.nl ++ Py.nl
                                    ++ text |}, st)
      end.
Proof.
  intros env response status content_type st.
  unfold FallbackErrorRenderer_render_page.
  destruct (claims_type "text/html" content_type).
  - unfold HtmlRenderer_render_page, _read_all_html, html_content, and_then.
    unfold bind, lift.
    destruct (_read_all_text response) as [e | text]; [reflexivity|].
    cbn [ret]. destruct (soup_title (BeautifulSoup env text)); reflexivity.
  - unfold bind, lift. destruct (_read_all_text response); reflexivity.
Qed.

(** C3.  An HTTP error whose body is declared [text/html] and has no title
    element is not rendered: [FallbackErrorRenderer] hands the body to
    [HtmlRenderer.render_page], which reads [soup.title.string] off a
    [soup.title] that is [None], and the [AttributeError] leaves
    [_fetch_page] from inside its exception handler, and [set_address]
    with it.  No [Error <status>] title is set and no content is stored.
    (A body that the stream yields as bytes is not rendered either: then
    it is the [TypeError] of [_read_all_text] that leaves.) *)
Theorem fetch_page_html_error_without_title_raises :
  forall (env : Env) (fuel : nat) (url : string) (st : State) (rk : option dict)
         (response : Response),
    request_kwargs (self st) = Some rk ->
    requests_get env url (fetch_kwargs rk) = inr response ->
    400 <= status_code response < 600 ->
    _error_renderers (self st) = Some [FallbackErrorRenderer] ->
    claims_type "text/html" (Some (headers_get (headers response) "content-type" "")) = true ->
    (forall text, _read_all_text response = inr text ->
       soup_title (BeautifulSoup env text) = None) ->
    let failure := match _read_all_text response with
                   | inl e => e
                   | inr _ => AttributeError "string"
                   end in
    _fetch_page env fuel url st = (Raise failure, st) /\
    (Py.startswith url "http:" = true \/ Py.startswith url "https:" = true ->
     set_address env fuel url st
     = (Raise failure,
        {| self := set_history (history (self st) ++ [url]) (self st);
           world := world st |})).
Proof.
  intros env fuel url st rk response Hrk Hget Hstatus Hrs Hhtml Htitle failure.
  assert (Hraise : raise_for_status response = inl (RequestException (Some response))).
  { unfold raise_for_status.
    replace ((400 <=? status_code response) && (status_code response <? 600)) with true;
      [reflexivity|].
    symmetry. apply andb_true_iff. split; [apply Z.leb_le | apply Z.ltb_lt]; lia. }
  assert (Hfetch : forall s,
             request_kwargs (self s) = Some rk ->
             _error_renderers (self s) = Some [FallbackErrorRenderer] ->
             _fetch_page env fuel url s = (Raise failure, s)).
  { intros s Hrk' Hrs'.
    unfold _fetch_page, bind at 1, catch at 1, bind at 1, getattr at 1. rewrite Hrk'.
    unfold bind at 1. unfold lift at 1. rewrite Hget. cbn [ret].
    unfold bind at 1, catch at 1, bind at 1, lift at 1. rewrite Hraise. cbn [raise].
    unfold bind at 1. cbn [except_RequestException]. unfold bind at 1, getattr at 1.
    rewrite Hrs'. cbn [error_loop claim_responsibility]. unfold bind at 1. cbn [ret].
    cbn [render_page]. unfold bind at 1.
    rewrite FallbackErrorRenderer_render_page_cases, Hhtml. subst failure.
    destruct (_read_all_text response) as [e | text]; [reflexivity|].
    rewrite (Htitle text eq_refl). reflexivity. }
  split; [apply Hfetch; assumption|].
  intros Habs. rewrite (set_address_absolute env fuel url st Habs).
  unfold bind at 1. rewrite Hfetch by assumption. reflexivity.
Qed.

(** ** Storing a rendered page *)

Lemma extend_end_raises fuel content :
  forall e x, Pages.extend_end fuel content e = Raise x -> x = IndexError.
Proof.
  induction fuel as [|fuel IH]; intros e x H; [discriminate|].
  simpl in H. destruct (e <? Py.len content); [|discriminate].
  destruct (Py.getitem content (e - 1)) as [c|]; [|congruence].
  destruct (negb (Pages.is_break c)); [eauto | discriminate].
Qed.

Lemma split_loop_raises fuel content size :
  forall from pages x,
    fst (Pages.split_loop fuel content size from pages) = Raise x -> x = IndexError.
Proof.
  induction fuel as [|fuel IH]; intros from pages x H; [discriminate|].
  simpl in H. destruct (from <? Py.len content); [|discriminate].
  destruct (Pages.extend_end fuel content (Z.min (from + size) (Py.len content)))
    as [e | y |] eqn:He; simpl in H.
  - eauto.
  - injection H as <-. eapply extend_end_raises; eauto.
  - discriminate.
Qed.

Lemma split_pages_raises fuel addr content size x :
  fst (Pages.split_pages fuel addr content size) = Raise x -> x = IndexError.
Proof.
  unfold Pages.split_pages.
  destruct (negb (Py.startswith addr "http:") && negb (Py.startswith addr "https:"));
    [discriminate|].
  destruct (Py.len content =? 0); [discriminate|].
  apply split_loop_raises.
Qed.

(** [_set_page_content] stores the content first; whatever the pagination
    does afterwards, the title is left alone and the only exception that
    can come out is an [IndexError]. *)
Lemma set_page_content_effect fuel content (s : State) :
  let r := _set_page_content fuel content s in
  _page_content (self (snd r)) = Some content /\
  page_title (self (snd r)) = page_title (self s) /\
  world (snd r) = world s /\
  (forall x, fst r = Raise x -> x = IndexError).
Proof.
  unfold _set_page_content, _split_pages, address, bind, modify, get, getattr, ret, raise.
  simpl.
  destruct (history (self s)) as [|h0 h]; simpl.
  - repeat split; intros x H; congruence.
  - destruct (Pages.split_pages fuel (last h h0) content (viewport_size (self s)))
      as [[[] | y |] pages] eqn:Hsp; simpl.
    + destruct (viewport_current_page (self s) >=? Z.of_nat (List.length pages));
        simpl; repeat split; intros x H; discriminate.
    + repeat split. intros x H. injection H as <-.
      apply (split_pages_raises fuel (last h h0) content (viewport_size (self s))).
      now rewrite Hsp.
    + repeat split. intros x H. discriminate.
Qed.

Lemma show_effect fuel res (s : State) :
  let r := show fuel res s in
  _page_content (self (snd r)) = Some (page_content res) /\
  page_title (self (snd r)) = title res /\
  world (snd r) = world s /\
  (forall x, fst r = Raise x -> x = IndexError).
Proof.
  unfold show, bind, modify. simpl.
  destruct (set_page_content_effect fuel (page_content res)
              {| self := set_page_title (title res) (self s); world := world s |})
    as (H1 & H2 & H3 & H4).
  repeat split; assumption.
Qed.

(** An outcome that is no [RequestException] passes the handler of
    [_fetch_page] unchanged. *)
Lemma catch_passes env fuel url response content_type (c : M unit) (s : State) :
  (forall x, fst (c s) = Raise x -> x = IndexError) ->
  catch c (except_RequestException env fuel url response content_type) s = c s.
Proof.
  intros H. unfold catch. destruct (c s) as [[[] | x |] s'] eqn:Hc; try reflexivity.
  rewrite (H x eq_refl). reflexivity.
Qed.

(** [claim_responsibility] only reads. *)
Lemma claim_responsibility_reads r url status content_type (s : State) :
  snd (claim_responsibility r url status content_type s) = s.
Proof.
  destruct r; try reflexivity.
  simpl. destruct (claim url status content_type); reflexivity.
Qed.

(** ** Renderer priority *)

(** C4.  Registering [A] and then [B] puts [B] in front of [A] in
    [_page_renderers], and a successful fetch of a response that [B] claims
    stores the page that [B.render_page] returns.  Nothing is asked of [A]:
    the statement holds for every [A], whether its own
    [claim_responsibility] would return true, return false or raise. *)
Theorem later_registered_renderer_is_invoked :
  forall (env : Env) (fuel : nat) (url : string) (st st' : State)
         (renderers : list Renderer) (rk : option dict) (response : Response)
         (A B : Renderer) (res : TextRendererResult),
    _page_renderers (self st) = Some renderers ->
    request_kwargs (self st) = Some rk ->
    requests_get env url (fetch_kwargs rk) = inr response ->
    raise_for_status response = inr tt ->
    let content_type := Some (headers_get (headers response) "content-type" "") in
    let st2 := {| self := set_page_renderers (B :: A :: renderers) (self st);
                  world := world st |} in
    fst (claim_responsibility B url (status_code response) content_type st2) = Ret true ->
    render_page env B response url (status_code response) content_type st2 = (Ret res, st') ->
    (register_page_renderer A ;;; register_page_renderer B) st = (Ret tt, st2) /\
    _fetch_page env fuel url st2 = show fuel res st' /\
    page_title (self (snd (_fetch_page env fuel url st2))) = title res /\
    _page_content (self (snd (_fetch_page env fuel url st2))) = Some (page_content res).
Proof.
  intros env fuel url st st' renderers rk response A B res Hrs Hrk Hget Hstatus
         content_type st2 Hclaim Hrender.
  assert (Hfetch : _fetch_page env fuel url st2 = show fuel res st').
  { assert (Hloop : (rs <- getattr "_page_renderers" _page_renderers ;;
                     page_loop env fuel url response
                       (headers_get (headers response) "content-type" "") rs) st2
                    = show fuel res st').
    { unfold bind at 1, getattr at 1. cbn [st2 self set_page_renderers _page_renderers].
      cbn [page_loop]. unfold bind at 1.
      pose proof (claim_responsibility_reads B url (status_code response) content_type st2)
        as Hreads.
      fold content_type. fold st2.
      destruct (claim_responsibility B url (status_code response) content_type st2)
        as [o s] eqn:E.
      simpl in Hclaim, Hreads. subst o s.
      unfold bind at 1. rewrite Hrender. reflexivity. }
    unfold _fetch_page. unfold bind at 1, catch at 1, bind at 1, getattr at 1.
    cbn [st2 self set_page_renderers request_kwargs]. rewrite Hrk.
    unfold bind at 1, lift at 1. rewrite Hget. cbn [ret].
    unfold bind at 1, catch at 1, bind at 1, lift at 1. rewrite Hstatus. cbn [ret].
    fold st2. rewrite catch_passes; [exact Hloop|].
    rewrite Hloop. apply show_effect. }
  split; [|split; [exact Hfetch|]].
  - unfold register_page_renderer, bind, getattr, modify. rewrite Hrs. reflexivity.
  - rewrite Hfetch. destruct (show_effect fuel res st') as (H1 & H2 & _). split; assumption.
Qed.

(** ** Downloads *)

Lemma init_rest_run (env : Env) key kw (s : State) :
  init_rest env key kw s
  = (Ret tt,
     {| self := set_error_renderers [FallbackErrorRenderer]
                  (set_page_renderers (default_page_renderers env)
                     (set_page_content_attr ""
                        (set_request_kwargs kw (set_bing_api_key key (self s)))));
        world := world s |}).
Proof.
  unfold init_rest, default_page_renderers, register_page_renderer,
    register_error_renderer, bind, modify, getattr.
  cbn [self world set_bing_api_key set_request_kwargs set_page_renderers
       set_error_renderers set_page_content_attr _page_renderers _error_renderers].
  destruct (IS_PDF_CAPABLE env); reflexivity.
Qed.

Lemma init_rest_registers (env : Env) key kw (s : State) :
  exists s',
    init_rest env key kw s = (Ret tt, s') /\
    _page_renderers (self s') = Some (default_page_renderers env) /\
    _error_renderers (self s') = Some [FallbackErrorRenderer] /\
    _page_content (self s') = Some "" /\
    bing_api_key (self s') = Some key /\
    request_kwargs (self s') = Some kw /\
    history (self s') = history (self s) /\
    viewport_pages (self s') = viewport_pages (self s) /\
    downloads_folder (self s') = downloads_folder (self s).
Proof.
  eexists. split; [apply init_rest_run|]. repeat split.
Qed.

Lemma dict_get_set_same {V} (k : string) (v : V) (d : list (string * V)) :
  dict_get k (dict_set k v d) = Some v.
Proof.
  induction d as [|[k' v'] d IH]; simpl.
  - now rewrite String.eqb_refl.
  - destruct (String.eqb k k') eqn:E; simpl.
    + now rewrite String.eqb_refl.
    + now rewrite E.
Qed.


(** The chunks appended one after the other are the chunks joined. *)
Lemma append_append (s1 s2 s3 : string) : (s1 ++ s2) ++ s3 = s1 ++ s2 ++ s3.
Proof. induction s1 as [|c s1 IH]; simpl; [reflexivity | now rewrite IH]. Qed.



(** *** Paths made of a folder and a plain name *)

Lemma prefix_cons (a c : ascii) (p s : string) :
  String.prefix (String a p) (String c s) = Ascii.eqb a c && String.prefix p s.
Proof.
  cbn [String.prefix]. destruct (ascii_dec a c) as [-> | Hne].
  - now rewrite Ascii.eqb_refl.
  - apply Ascii.eqb_neq in Hne. now rewrite Hne.
Qed.







(** Looking for a safe name leaves the state alone.  It finds the
    sanitized base name of the URL's path, stripped; it finds none where a
    [NameError] was raised on the way, as the one of the missing
    [pathvalidate]; any other error leaves the [try] block. *)
Lemma try_safe_filename_cases (env : Env) (url : string) (st : State) :
  try_safe_filename env url st
  = (match pathvalidate_sanitize_filename env with
     | None => Ret None
     | Some sanitize =>
         match and_then (urlparse_path env url)
                 (fun path => sanitize (OS.basename path)) with
         | inr clean => Ret (Some (Py.strip clean))
         | inl (NameError _) => Ret None
         | inl e => Raise e
         end
     end, st).
Proof.
  unfold try_safe_filename, catch, bind, lift, and_then.
  destruct (pathvalidate_sanitize_filename env) as [sanitize|]; [|reflexivity].
  destruct (urlparse_path env url) as [e1 | path]; simpl.
  - destruct e1; reflexivity.
  - destruct (sanitize (OS.basename path)) as [e2 | clean]; simpl; [|reflexivity].
    destruct e2; reflexivity.
Qed.

Lemma try_safe_filename_reads (env : Env) (url : string) (st : State) :
  snd (try_safe_filename env url st) = st.
Proof. now rewrite try_safe_filename_cases. Qed.


(** A run that differs only inside the [try] block differs the same way
    under its handler. *)
Lemma catch_congr {A} (c1 c2 : M A) (h : exn -> M A) (s : State) :
  c1 s = c2 s -> catch c1 h s = catch c2 h s.
Proof. intros H. unfold catch. now rewrite H. Qed.

(** One round of the loop over the page renderers, for a renderer whose
    [claim_responsibility] answers [claimed] without touching the state. *)
Lemma page_loop_round (env : Env) (fuel : nat) (url : string) (response : Response)
    (content_type : string) (renderer : Renderer) (rest : list Renderer) (claimed : bool)
    (s : State) :
  claim_responsibility renderer url (status_code response) (Some content_type) s
  = (Ret claimed, s) ->
  page_loop env fuel url response content_type (renderer :: rest) s
  = if claimed then
      (res <- render_page env renderer response url (status_code response)
                (Some content_type) ;;
       show fuel res) s
    else page_loop env fuel url response content_type rest s.
Proof.
  intros Hclaim. cbn [page_loop]. unfold bind at 1. rewrite Hclaim.
  destruct claimed; reflexivity.
Qed.


(** C8.  With [pathvalidate] present, a URL whose path has an empty
    basename (or any name that sanitizes and strips to the empty string)
    gets no generated name: [fname] is [""], which is not [None], so the
    file [render_page] opens is [abspath(join(downloads_folder, ""))], the
    downloads folder itself.  Where that is a directory, [open] raises and
    the error leaves [render_page]; no UUID was drawn and nothing was
    written. *)
Theorem download_with_empty_basename_is_not_renamed :
  forall (env : Env) (response : Response) (url : string) (content_type : option string)
         (st : State) (sanitize : string -> exn + string) (path clean folder : string),
    pathvalidate_sanitize_filename env = Some sanitize ->
    urlparse_path env url = inr path ->
    sanitize (OS.basename path) = inr clean ->
    Py.strip clean = "" ->
    downloads_folder (self st) = Some folder ->
    let download_path := os_path_abspath env (OS.join folder "") in
    DownloadRenderer_render_page env response url content_type st
    = (write_file download_path (iter_content response) ;;;
       ret {| title := Some "Download complete.";
              page_content := "Downloaded '" ++ url ++ "' to '" ++ download_path ++ "'." |})
        st /\
    (OS.is_dir (world st) download_path = true ->
     DownloadRenderer_render_page env response url content_type st
     = (Raise (OSError "IsADirectoryError"), st)).
Proof.
  intros env response url content_type st sanitize path clean folder
         Hpv Hpath Hclean Hstrip Hfolder download_path.
  assert (Hrun : DownloadRenderer_render_page env response url content_type st
                 = (write_file download_path (iter_content response) ;;;
                    ret {| title := Some "Download complete.";
                           page_content := "Downloaded '" ++ url ++ "' to '"
                                           ++ download_path ++ "'." |}) st).
  { unfold DownloadRenderer_render_page, try_safe_filename.
    unfold bind at 1, catch at 1. rewrite Hpv.
    unfold bind at 1, lift at 1. rewrite Hpath. cbn [ret].
    unfold bind at 1, lift at 1. rewrite Hclean. cbn [ret]. rewrite Hstrip.
    unfold bind at 1. cbn [ret]. unfold bind at 1, get at 1. rewrite Hfolder.
    reflexivity. }
  split; [exact Hrun|].
  intros Hdir. rewrite Hrun.
  unfold bind at 1, write_file, bind at 1, get_world at 1, bind at 1, lift at 1, OS.open_wb.
  rewrite Hdir. reflexivity.
Qed.

(** An error of the sanitizer other than the [NameError] of a missing
    module is not caught either. *)
Lemma download_sanitizer_error_surfaces :
  forall (env : Env) (response : Response) (url : string) (content_type : option string)
         (st : State) (sanitize : string -> exn + string) (path what : string),
    pathvalidate_sanitize_filename env = Some sanitize ->
    urlparse_path env url = inr path ->
    sanitize (OS.basename path) = inl (ValueError what) ->
    DownloadRenderer_render_page env response url content_type st
    = (Raise (ValueError what), st).
Proof.
  intros env response url content_type st sanitize path what Hpv Hpath Herr.
  unfold DownloadRenderer_render_page, try_safe_filename.
  unfold bind at 1, catch at 1. rewrite Hpv.
  unfold bind at 1, lift at 1. rewrite Hpath. cbn [ret].
  unfold bind at 1, lift at 1. rewrite Herr. reflexivity.
Qed.

(** The sibling path: without [pathvalidate] the name is generated, a UUID
    followed by the guessed extension or [.download]. *)
Lemma download_without_pathvalidate_generates_name :
  forall (env : Env) (url : string) (content_type : option string) (st : State),
    pathvalidate_sanitize_filename env = None ->
    (fname <- try_safe_filename env url ;;
     match fname with
     | Some f => ret f
     | None => make_filename env content_type
     end) st
    = (Ret (uuid4 env (uuid_count (world st))
            ++ match mimetypes_guess_extension env content_type with
               | Some ext => ext
               | None => ".download"
               end),
       {| self := self st;
          world := {| fs_dirs := fs_dirs (world st); fs_files := fs_files (world st);
                      uuid_count := S (uuid_count (world st)) |} |}).
Proof.
  intros env url content_type st Hpv.
  unfold try_safe_filename, bind at 1, catch. rewrite Hpv. reflexivity.
Qed.

(** ** Termination of the pagination loop *)

(** C10.  With a viewport of at least one character the loop of
    [_split_pages] returns for every content once the fuel exceeds the
    length of the content by two, and every page it appended is non-empty,
    so that [start_idx] moved forward in every round.  Without the
    precondition the guarantee is lost: with a viewport of 0 on the content
    [" "], and with a viewport of -1 on ["a "], the first page is empty,
    [start_idx] stays at 0 and no amount of fuel ends the loop. *)
Theorem split_loop_terminates_for_positive_viewport :
  (forall (content : string) (viewport_size : Z),
     1 <= viewport_size ->
     exists pages,
       (forall fuel, (String.length content + 2 <= fuel)%nat ->
          Pages.split_loop fuel content viewport_size 0 [] = (Ret tt, pages)) /\
       Forall (fun p => fst p < snd p) pages) /\
  (forall fuel, fst (Pages.split_loop fuel " " 0 0 []) = OutOfFuel) /\
  (forall fuel, fst (Pages.split_loop fuel "a " (-1) 0 []) = OutOfFuel).
Proof.
  split; [|split].
  - intros content size Hsize.
    destruct (PagesFacts.split_loop_ok content size Hsize (String.length content + 2) 0 [])
      as (pages & Hloop & Hchain); [unfold Py.len; lia | unfold Py.len; lia |].
    simpl in Hloop. exists pages. split.
    + intros fuel Hfuel.
      apply (PagesFacts.split_loop_mono content size _ fuel 0 [] pages Hloop Hfuel).
    + apply (PagesFacts.chain_nonempty _ _ _ Hchain).
  - intros fuel. apply PagesFacts.split_loop_stuck_0.
  - intros fuel. apply PagesFacts.split_loop_stuck_neg.
Qed.

(** ** Construction *)

(** C9.  [__init__] returns only for the start page [about:blank].  For
    any other start page the navigation it starts reads an attribute that
    is assigned further down: a search address fails on [bing_api_key], an
    [http:]/[https:] URL on [request_kwargs], and a relative path either in
    [urljoin] or, once joined, on [request_kwargs] as well.  The statements
    after the call of [set_address] set [_page_content] to the empty string
    whatever state that call left. *)
Theorem init_returns_only_for_about_blank :
  forall (env : Env) (fuel : nat) (start_page : string) (viewport_size : Z)
         (downloads_folder bing_api_key : option string) (request_kwargs : option dict)
         (w : World),
    let run := __init__ env fuel start_page viewport_size downloads_folder bing_api_key
                 request_kwargs w in
    (start_page = "about:blank" ->
     fst run = Ret tt /\
     history (self (snd run)) = ["about:blank"] /\
     _page_content (self (snd run)) = Some "" /\
     viewport_pages (self (snd run)) = [(0, 0)] /\
     _page_renderers (self (snd run)) = Some (default_page_renderers env) /\
     _error_renderers (self (snd run)) = Some [FallbackErrorRenderer]) /\
    (start_page <> "about:blank" ->
     fst run =
     if Py.startswith start_page "bing:" then Raise (AttributeError "bing_api_key")
     else if negb (Py.startswith start_page "http:")
             && negb (Py.startswith start_page "https:") then
       match urljoin env start_page start_page with
       | inl e => Raise e
       | inr _ => Raise (AttributeError "request_kwargs")
       end
     else Raise (AttributeError "request_kwargs")) /\
    (forall s : State,
     exists s',
       init_rest env bing_api_key request_kwargs s = (Ret tt, s') /\
       _page_content (self s') = Some "").
Proof.
  intros env fuel start_page size folder key kw w run.
  split; [|split].
  - intros ->. subst run. unfold __init__.
    assert (Hnav : set_address env fuel "about:blank"
                     {| self := new_object "about:blank" size folder; world := w |}
                   = (Ret tt,
                      {| self := set_page_content_attr ""
                                   (set_viewport_pages [(0, 0)]
                                      (set_history ["about:blank"]
                                         (new_object "about:blank" size folder)));
                         world := w |})) by reflexivity.
    destruct (init_rest_registers env key kw
                {| self := set_page_content_attr ""
                             (set_viewport_pages [(0, 0)]
                                (set_history ["about:blank"]
                                   (new_object "about:blank" size folder)));
                   world := w |})
      as (s' & Hrest & Hpr & Her & Hc & _ & _ & Hh & Hvp & _).
    rewrite (run_bind _ _ _ tt _ Hnav), Hrest. cbn [fst snd].
    split; [reflexivity|]. split; [exact Hh|]. split; [exact Hc|].
    split; [exact Hvp|]. split; assumption.
  - intros Hne. subst run. unfold __init__.
    apply String.eqb_neq in Hne.
    unfold bind at 1, set_address.
    unfold bind at 1, get at 1. unfold bind at 1, modify at 1.
    unfold bind at 1. rewrite Hne.
    destruct (Py.startswith start_page "bing:") eqn:Hbing.
    + reflexivity.
    + destruct (Py.startswith start_page "http:") eqn:Hhttp; simpl negb; simpl andb.
      * reflexivity.
      * destruct (Py.startswith start_page "https:") eqn:Hhttps; simpl negb.
        -- reflexivity.
        -- unfold bind at 1, bind at 1, address, bind at 1, get at 1.
           cbn [self history new_object set_history app last ret].
           unfold bind at 1.
           destruct (urljoin env start_page start_page) as [e | u]; reflexivity.
  - intros s. destruct (init_rest_registers env key kw s) as (s' & Hrest & _ & _ & Hc & _).
    exists s'. split; assumption.
Qed.

(** ** Search results *)

Lemma numbered_app (items1 items2 : list Item) :
  forall idx,
    numbered idx (items1 ++ items2)
    = (numbered idx items1 ++ numbered (idx + Z.of_nat (List.length items1)) items2)%list.
Proof.
  induction items1 as [|i items1 IH]; intros idx.
  - simpl. now rewrite Z.add_0_r.
  - cbn [app numbered List.length]. rewrite IH. do 3 f_equal. lia.
Qed.

Lemma numbered_nth (items : list Item) :
  forall idx i s,
    nth_error (numbered idx items) i = Some s ->
    exists it, nth_error items i = Some it /\ s = entry (idx + Z.of_nat i) it.
Proof.
  induction items as [|it items IH]; intros idx i s H.
  - destruct i; discriminate.
  - destruct i as [|i].
    + simpl in H. injection H as <-. exists it.
      split; [reflexivity | now rewrite Z.add_0_r].
    + simpl in H. destruct (IH _ _ _ H) as (it' & Hn & ->).
      exists it'. split; [exact Hn | f_equal; lia].
Qed.

Lemma numbered_length (items : list Item) :
  forall idx, List.length (numbered idx items) = List.length items.
Proof.
  induction items as [|it items IH]; intros idx; simpl; [reflexivity|].
  now rewrite IH.
Qed.

Lemma deep_links_loop_numbered (dls : list DeepLink) :
  forall links idx acc,
    all_items (one deep_link_item) dls = Some links ->
    deep_links_loop dls idx acc
    = inr (idx + Z.of_nat (List.length links), (acc ++ numbered (idx + 1) links)%list).
Proof.
  induction dls as [|dl dls IH]; intros links idx acc H.
  - injection H as <-. simpl. now rewrite Z.add_0_r, app_nil_r.
  - destruct dl as [[n|] [u|] sn]; cbn in H; try discriminate.
    destruct (all_items (one deep_link_item) dls) as [rest|]; [|discriminate].
    injection H as <-.
    cbn [deep_links_loop dl_name dl_url dl_snippet subscript and_then].
    rewrite (IH rest _ _ eq_refl). cbn [app numbered List.length].
    rewrite <- app_assoc. cbn [app]. f_equal. apply f_equal2; [lia | reflexivity].
Qed.

Lemma web_loop_numbered (pages : list WebPage) :
  forall items idx acc,
    all_items web_items pages = Some items ->
    web_loop pages idx acc
    = inr (idx + Z.of_nat (List.length items), (acc ++ numbered (idx + 1) items)%list).
Proof.
  induction pages as [|page pages IH]; intros items idx acc H.
  - injection H as <-. simpl. now rewrite Z.add_0_r, app_nil_r.
  - cbn [all_items] in H.
    destruct (web_items page) as [mine|] eqn:Hpage; [|discriminate].
    destruct (all_items web_items pages) as [rest|]; [|discriminate].
    injection H as <-.
    destruct page as [[n|] [u|] [t|] dls]; cbn in Hpage; try discriminate.
    cbn [web_loop wp_name wp_url wp_snippet wp_deepLinks subscript and_then].
    assert (Hstep :
              (match dls with
               | Some dls =>
                   deep_links_loop dls (idx + 1) (acc ++ [snippet (idx + 1) n u t])%list
               | None => inr (idx + 1, (acc ++ [snippet (idx + 1) n u t])%list)
               end)
              = inr (idx + Z.of_nat (List.length mine),
                     (acc ++ numbered (idx + 1) mine)%list)).
    { destruct dls as [dls|].
      - destruct (all_items (one deep_link_item) dls) as [links|] eqn:Hlinks;
          [|discriminate].
        injection Hpage as <-.
        rewrite (deep_links_loop_numbered dls links _ _ Hlinks).
        cbn [numbered List.length]. rewrite <- app_assoc. cbn [app].
        f_equal. apply f_equal2; [lia | reflexivity].
      - injection Hpage as <-. reflexivity. }
    rewrite Hstep. cbn [and_then].
    rewrite (IH rest _ _ eq_refl), numbered_app, length_app, <- app_assoc.
    f_equal. apply f_equal2; [lia | do 3 f_equal; lia].
Qed.

Lemma news_loop_numbered (pages : list NewsItem) :
  forall items idx acc,
    all_items (one news_item) pages = Some items ->
    news_loop pages idx acc
    = inr (idx + Z.of_nat (List.length items), (acc ++ numbered (idx + 1) items)%list).
Proof.
  induction pages as [|page pages IH]; intros items idx acc H.
  - injection H as <-. simpl. now rewrite Z.add_0_r, app_nil_r.
  - destruct page as [[n|] [u|] [t|]]; cbn in H; try discriminate.
    destruct (all_items (one news_item) pages) as [rest|]; [|discriminate].
    injection H as <-.
    cbn [news_loop news_name news_url news_description subscript and_then].
    rewrite (IH rest _ _ eq_refl). cbn [app numbered List.length].
    rewrite <- app_assoc. cbn [app]. f_equal. apply f_equal2; [lia | reflexivity].
Qed.

(** For an answer with all its keys, the two lists the loops build are the
    items of the answer numbered by one counter. *)
Lemma search_snippets_numbered (results : SearchResults) (web nw : list Item) :
  web_traversal results = Some web ->
  news_traversal results = Some nw ->
  search_snippets results
  = inr (numbered 1 web, numbered (1 + Z.of_nat (List.length web)) nw).
Proof.
  unfold search_snippets, web_traversal, news_traversal. intros Hweb Hnews.
  destruct (webPages results) as [[pages|]|]; try discriminate.
  cbn [subscript and_then].
  rewrite (web_loop_numbered pages web 0 [] Hweb). cbn [and_then app].
  destruct (news results) as [[items|]|]; try discriminate.
  - cbn [subscript and_then].
    rewrite (news_loop_numbered items nw _ [] Hnews). cbn [and_then app].
    do 3 f_equal. lia.
  - injection Hnews as <-. reflexivity.
Qed.

(** The content [_bing_search] builds from the numbered entries is the
    page of the search. *)
Lemma search_content_is_results_page (query : string) (web nw : list Item) :
  search_content query (numbered 1 web) (numbered (1 + Z.of_nat (List.length web)) nw)
  = results_page query web nw.
Proof.
  unfold search_content, results_page.
  rewrite !numbered_length, <- Nat2Z.inj_add.
  destruct nw as [|it nw].
  - cbn [List.length Z.of_nat Z.gtb Z.compare]. now rewrite PagesFacts.append_empty_r.
  - replace (Z.of_nat (List.length (it :: nw)) >? 0) with true
      by (symmetry; apply Z.gtb_lt; cbn [List.length]; lia).
    rewrite !append_append. reflexivity.
Qed.

(** C7.  For an answer with the keys the API documents, the snippets
    [_bing_search] builds carry one running counter in traversal order:
    the web snippets followed by the news snippets are the items of the
    result set (each web result, then its deep links, then the next web
    result, and the news last) numbered 1, 2, 3, ... without a restart.
    The entry at position [i] (from 0) is the text [<i+1>. [<name>](<url>)]
    with the item's text on the next line.  The page title becomes
    [<query> - Search], and the page content is the line with the number
    of results, the section [## Web Results] with the web entries and,
    where there are news, the section [## News Results:] with the news
    entries, numbered on from the last web entry. *)
Theorem search_results_are_numbered_by_one_counter :
  forall (env : Env) (fuel : nat) (query : string) (st st1 : State)
         (results : SearchResults) (web nw : list Item),
    _bing_api_call env query st = (Ret results, st1) ->
    web_traversal results = Some web ->
    news_traversal results = Some nw ->
    let items := (web ++ nw)%list in
    let web_snippets := numbered 1 web in
    let news_snippets := numbered (1 + Z.of_nat (List.length web)) nw in
    let run := _bing_search env fuel query st in
    search_snippets results = inr (web_snippets, news_snippets) /\
    (web_snippets ++ news_snippets)%list = numbered 1 items /\
    List.length web_snippets = List.length web /\
    (forall i s,
       nth_error (web_snippets ++ news_snippets) i = Some s ->
       exists name url text,
         nth_error items i = Some (name, url, text) /\
         s = Py.str_of_int (Z.of_nat i + 1) ++ ". [" ++ name ++ "](" ++ url ++ ")"
             ++ Py.nl ++ text) /\
    page_title (self (snd run)) = Some (query ++ " - Search") /\
    _page_content (self (snd run))
    = Some ("A Bing search for '" ++ query ++ "' found "
            ++ Py.str_of_int (Z.of_nat (List.length items)) ++ " results:"
            ++ Py.nl ++ Py.nl ++ "## Web Results" ++ Py.nl
            ++ Py.join (Py.nl ++ Py.nl) web_snippets
            ++ match nw with
               | [] => ""
               | _ :: _ =>
                   Py.nl ++ Py.nl ++ "## News Results:" ++ Py.nl
                   ++ Py.join (Py.nl ++ Py.nl) news_snippets
               end).
Proof.
  intros env fuel query st st1 results web nw Hcall Hweb Hnews items web_snippets
         news_snippets run.
  pose proof (search_snippets_numbered results web nw Hweb Hnews) as Hsnippets.
  assert (Hall : (web_snippets ++ news_snippets)%list = numbered 1 items).
  { subst web_snippets news_snippets items. now rewrite numbered_app. }
  split; [exact Hsnippets|]. split; [exact Hall|]. split; [|split].
  - apply numbered_length.
  - intros i s Hnth. rewrite Hall in Hnth.
    destruct (numbered_nth items 1 i s Hnth) as ([[name url] text] & Hitem & ->).
    exists name, url, text. split; [exact Hitem|].
    replace (1 + Z.of_nat i) with (Z.of_nat i + 1) by lia. reflexivity.
  - assert (Hrun : run
                   = _set_page_content fuel
                       (search_content query (numbered 1 web)
                          (numbered (1 + Z.of_nat (List.length web)) nw))
                       {| self := set_page_title (Some (query ++ " - Search")) (self st1);
                          world := world st1 |}).
    { subst run. unfold _bing_search.
      rewrite (run_bind _ _ _ _ _ Hcall), Hsnippets. reflexivity. }
    rewrite Hrun.
    destruct (set_page_content_effect fuel
                (search_content query (numbered 1 web)
                   (numbered (1 + Z.of_nat (List.length web)) nw))
                {| self := set_page_title (Some (query ++ " - Search")) (self st1);
                   world := world st1 |})
      as (Hcontent & Htitle & _).
    split; [exact Htitle|]. rewrite Hcontent, search_content_is_results_page.
    unfold results_page, items. now rewrite length_app.
Qed.

(** * The properties at concrete inputs *)

(** The specification's scenario: a viewport of 10 over 17 characters. *)
Lemma split_pages_partition_scenario :
  let st := Demo.reading "http://a.com/index.html" "abcdefghij klmnop" 10 in
  1 <= viewport_size (self st) /\
  viewport_pages (self (snd (_split_pages 19 st))) = [(0, 11); (11, 17)].
Proof.
  cbv zeta. split; [simpl; lia|].
  destruct (split_pages_partition
              (Demo.reading "http://a.com/index.html" "abcdefghij klmnop" 10)
              "http://a.com/index.html" "abcdefghij klmnop")
    as (pages & Hrun & _); [reflexivity | left; reflexivity | reflexivity | simpl; lia |].
  rewrite (Hrun 19%nat); [|simpl; lia].
  specialize (Hrun 19%nat ltac:(simpl; lia)).
  vm_compute in Hrun. injection Hrun as <-. reflexivity.
Defined.

(** From [https://a.com/dir/page], the relative path [../x] is stored as
    [x], although joined with the address the browser was on it is
    [https://a.com/x]. *)
Lemma set_address_relative_path_scenario :
  urljoin Demo.env "https://a.com/dir/page" "../x" = inr "https://a.com/x" /\
  urljoin Demo.env "../x" "../x" = inr "x" /\
  history (self (snd (set_address Demo.env 0 "../x"
                        (Demo.browser_at None "https://a.com/dir/page"))))
  = ["about:blank"; "https://a.com/dir/page"; "x"].
Proof.
  split; [reflexivity|]. split; [reflexivity|].
  apply (set_address_joins_relative_path_with_itself Demo.env 0
           (Demo.browser_at None "https://a.com/dir/page") "../x" "x");
    [discriminate | reflexivity | reflexivity | reflexivity | reflexivity].
Defined.

(** A 404 answer with an HTML body that has no title element. *)
Lemma fetch_page_html_error_scenario :
  status_code Demo.not_found = 404 /\
  _read_all_text Demo.not_found = inr "<html><body><p>Not found</p></body></html>" /\
  soup_title (BeautifulSoup Demo.env "<html><body><p>Not found</p></body></html>") = None /\
  _fetch_page Demo.env 0 "http://a.com/missing" (Demo.browser None)
  = (Raise (AttributeError "string"), Demo.browser None) /\
  fst (set_address Demo.env 0 "http://a.com/missing" (Demo.browser None))
  = Raise (AttributeError "string").
Proof.
  split; [reflexivity|]. split; [reflexivity|]. split; [reflexivity|].
  destruct (fetch_page_html_error_without_title_raises Demo.env 0 "http://a.com/missing"
              (Demo.browser None) None Demo.not_found)
    as (Hfetch & Hnav);
    [reflexivity | reflexivity | simpl; lia | reflexivity | reflexivity
    | intros text Htext; injection Htext as <-; reflexivity |].
  split; [exact Hfetch|].
  rewrite Hnav by (left; reflexivity). reflexivity.
Defined.

(** Two renderers that both claim everything: the page is the one of the
    renderer registered last. *)
Lemma later_registered_renderer_scenario :
  let st := Demo.browser None in
  let renderers := [PlainTextRenderer; HtmlRenderer; DownloadRenderer; FallbackPageRenderer] in
  let A := Demo.signing "A" in
  let B := Demo.signing "B" in
  let st2 := {| self := set_page_renderers (B :: A :: renderers) (self st);
                world := world st |} in
  (register_page_renderer A ;;; register_page_renderer B) st = (Ret tt, st2) /\
  _fetch_page Demo.env 0 "http://a.com/index.html" st2 = show 0 (Demo.signed "B") st2 /\
  page_title (self (snd (_fetch_page Demo.env 0 "http://a.com/index.html" st2)))
  = title (Demo.signed "B") /\
  _page_content (self (snd (_fetch_page Demo.env 0 "http://a.com/index.html" st2)))
  = Some (page_content (Demo.signed "B")).
Proof.
  cbv zeta.
  apply (later_registered_renderer_is_invoked Demo.env 0 "http://a.com/index.html"
           (Demo.browser None)
           {| self := set_page_renderers
                        (Demo.signing "B" :: Demo.signing "A"
                         :: [PlainTextRenderer; HtmlRenderer; DownloadRenderer;
                             FallbackPageRenderer])
                        (self (Demo.browser None));
              world := world (Demo.browser None) |}
           [PlainTextRenderer; HtmlRenderer; DownloadRenderer; FallbackPageRenderer]
           None Demo.html_page (Demo.signing "A") (Demo.signing "B") (Demo.signed "B"));
    vm_compute; reflexivity.
Defined.



(** A host that cannot be reached. *)
Lemma fetch_page_transport_failure_scenario :
  requests_get Demo.env "http://nowhere.invalid/" (fetch_kwargs None)
  = inl (RequestException None) /\
  _fetch_page Demo.env 0 "http://nowhere.invalid/" (Demo.browser None)
  = (Raise (AttributeError "headers"), Demo.browser None) /\
  fst (set_address Demo.env 0 "http://nowhere.invalid/" (Demo.browser None))
  = Raise (AttributeError "headers").
Proof.
  split; [reflexivity|].
  destruct (fetch_page_transport_failure_is_replaced Demo.env 0 "http://nowhere.invalid/"
              (Demo.browser None) None [FallbackErrorRenderer])
    as (Hfetch & Hnav); [reflexivity | reflexivity | reflexivity |].
  split; [exact Hfetch|].
  rewrite Hnav by (left; reflexivity). reflexivity.
Defined.

(** The specification's scenario: two web results, one deep link; and the
    same answer with one news item. *)
Lemma search_numbering_scenario :
  let run := _bing_search Demo.env 0 "cats" (Demo.browser None) in
  let news_run := _bing_search (Demo.answering Demo.cats_in_the_news) 0 "cats"
                    (Demo.browser None) in
  search_snippets Demo.cats
  = inr (["1. [A](http://a)" ++ Py.nl ++ "first";
          "2. [A1](http://a/1)" ++ Py.nl;
          "3. [B](http://b)" ++ Py.nl ++ "second"], []) /\
  page_title (self (snd run)) = Some "cats - Search" /\
  _page_content (self (snd run))
  = Some ("A Bing search for 'cats' found 3 results:" ++ Py.nl ++ Py.nl
          ++ "## Web Results" ++ Py.nl
          ++ "1. [A](http://a)" ++ Py.nl ++ "first" ++ Py.nl ++ Py.nl
          ++ "2. [A1](http://a/1)" ++ Py.nl ++ Py.nl ++ Py.nl
          ++ "3. [B](http://b)" ++ Py.nl ++ "second") /\
  _page_content (self (snd news_run))
  = Some ("A Bing search for 'cats' found 4 results:" ++ Py.nl ++ Py.nl
          ++ "## Web Results" ++ Py.nl
          ++ "1. [A](http://a)" ++ Py.nl ++ "first" ++ Py.nl ++ Py.nl
          ++ "2. [A1](http://a/1)" ++ Py.nl ++ Py.nl ++ Py.nl
          ++ "3. [B](http://b)" ++ Py.nl ++ "second" ++ Py.nl ++ Py.nl
          ++ "## News Results:" ++ Py.nl
          ++ "4. [N](http://n)" ++ Py.nl ++ "today").
Proof.
  cbv zeta.
  assert (Hcall : _bing_api_call Demo.env "cats" (Demo.browser None)
                  = (Ret Demo.cats, Demo.browser None)) by (vm_compute; reflexivity).
  assert (Hnews_call : _bing_api_call (Demo.answering Demo.cats_in_the_news) "cats"
                         (Demo.browser None)
                       = (Ret Demo.cats_in_the_news, Demo.browser None))
    by (vm_compute; reflexivity).
  assert (Hweb : web_traversal Demo.cats
                 = Some [("A", "http://a", "first"); ("A1", "http://a/1", "");
                         ("B", "http://b", "second")]) by (vm_compute; reflexivity).
  assert (Hnews : news_traversal Demo.cats_in_the_news = Some [("N", "http://n", "today")])
    by (vm_compute; reflexivity).
  destruct (search_results_are_numbered_by_one_counter Demo.env 0 "cats"
              (Demo.browser None) (Demo.browser None) Demo.cats _ [] Hcall Hweb eq_refl)
    as (Hsnippets & _ & _ & _ & Htitle & Hcontent).
  destruct (search_results_are_numbered_by_one_counter (Demo.answering Demo.cats_in_the_news)
              0 "cats" (Demo.browser None) (Demo.browser None) Demo.cats_in_the_news
              _ _ Hnews_call Hweb Hnews)
    as (_ & _ & _ & _ & _ & Hnews_content).
  split; [rewrite Hsnippets; vm_compute; reflexivity|].
  split; [exact Htitle|].
  split; [rewrite Hcontent | rewrite Hnews_content]; vm_compute; reflexivity.
Defined.

(** The URL [https://a.com/] has the path [/], whose basename is empty. *)
Lemma download_with_empty_basename_scenario :
  urlparse_path Demo.env "https://a.com/" = inr "/" /\
  OS.basename "/" = "" /\
  DownloadRenderer_render_page Demo.env Demo.blob "https://a.com/"
    (Some "application/octet-stream") (Demo.browser (Some "/tmp/dl"))
  = (Raise (OSError "IsADirectoryError"), Demo.browser (Some "/tmp/dl")) /\
  fst (set_address Demo.env 66 "https://a.com/" (Demo.browser (Some "/tmp/dl")))
  = Raise (OSError "IsADirectoryError").
Proof.
  split; [reflexivity|]. split; [reflexivity|].
  split; [|vm_compute; reflexivity].
  apply (download_with_empty_basename_is_not_renamed Demo.env Demo.blob "https://a.com/"
           (Some "application/octet-stream") (Demo.browser (Some "/tmp/dl"))
           (fun name => inr name) "/" "" "/tmp/dl"); reflexivity.
Defined.

(** The loop on the specification's scenario. *)
Lemma split_loop_scenario :
  1 <= 10 /\
  exists pages,
    (forall fuel, (String.length "abcdefghij klmnop" + 2 <= fuel)%nat ->
       Pages.split_loop fuel "abcdefghij klmnop" 10 0 [] = (Ret tt, pages)) /\
    Forall (fun p => fst p < snd p) pages.
Proof.
  split; [lia|].
  apply (proj1 split_loop_terminates_for_positive_viewport "abcdefghij klmnop" 10). lia.
Defined.

(** The constructor on the three kinds of start page it cannot open. *)
Lemma init_scenarios :
  fst (__init__ Demo.env 0 "about:blank" 8192 None None None Demo.disk) = Ret tt /\
  fst (__init__ Demo.env 0 "http://a.com/index.html" 8192 None None None Demo.disk)
  = Raise (AttributeError "request_kwargs") /\
  fst (__init__ Demo.env 0 "bing:cats" 8192 None (Some "k") None Demo.disk)
  = Raise (AttributeError "bing_api_key") /\
  fst (__init__ Demo.env 0 "page.html" 8192 None None None Demo.disk)
  = Raise (AttributeError "request_kwargs").
Proof.
  pose proof (init_returns_only_for_about_blank Demo.env 0) as H.
  split; [apply (H "about:blank" 8192 None None None Demo.disk); reflexivity|].
  split; [apply (H "http://a.com/index.html" 8192 None None None Demo.disk); discriminate|].
  split; [apply (H "bing:cats" 8192 None (Some "k") None Demo.disk); discriminate|].
  apply (H "page.html" 8192 None None None Demo.disk). discriminate.
Defined.

(** * Further properties of the browser *)

(** ** What a fetch leaves alone

    A projection that the four setters of the page state do not move is
    kept by every renderer and by [_fetch_page]. *)

Section Frame.

Context {B : Type} (proj : SimpleTextBrowser -> B).
Hypothesis proj_page_title : forall v b, proj (set_page_title v b) = proj b.
Hypothesis proj_page_content : forall v b, proj (set_page_content_attr v b) = proj b.
Hypothesis proj_viewport_pages : forall v b, proj (set_viewport_pages v b) = proj b.
Hypothesis proj_viewport_current_page :
  forall v b, proj (set_viewport_current_page v b) = proj b.
Variable env : Env.

Lemma frame_ret {A} (a : A) : keeps_attr proj (ret a).
Proof. intros s. reflexivity. Qed.

Lemma frame_raise {A} (e : exn) : keeps_attr proj (@raise A e).
Proof. intros s. reflexivity. Qed.

Lemma frame_lift {A} (r : exn + A) : keeps_attr proj (lift r).
Proof. destruct r; intros s; reflexivity. Qed.

Lemma frame_get {A} (f : SimpleTextBrowser -> A) : keeps_attr proj (get f).
Proof. intros s. reflexivity. Qed.

Lemma frame_getattr {A} name (f : SimpleTextBrowser -> option A) :
  keeps_attr proj (getattr name f).
Proof. intros s. unfold getattr. destruct (f (self s)); reflexivity. Qed.

Lemma frame_get_world : keeps_attr proj get_world.
Proof. intros s. reflexivity. Qed.

Lemma frame_put_world w : keeps_attr proj (put_world w).
Proof. intros s. reflexivity. Qed.

Lemma frame_modify f : (forall b, proj (f b) = proj b) -> keeps_attr proj (modify f).
Proof. intros Hf s. simpl. apply Hf. Qed.

Lemma frame_outcome {A} (r : outcome A) : keeps_attr proj (fun s => (r, s)).
Proof. intros s. reflexivity. Qed.

Lemma frame_bind {A C} (c : M A) (k : A -> M C) :
  keeps_attr proj c -> (forall a, keeps_attr proj (k a)) -> keeps_attr proj (bind c k).
Proof.
  intros Hc Hk s. unfold bind. specialize (Hc s).
  destruct (c s) as [[a | e |] s']; simpl in *; try assumption.
  now rewrite Hk.
Qed.

Lemma frame_catch {A} (c : M A) (h : exn -> M A) :
  keeps_attr proj c -> (forall e, keeps_attr proj (h e)) -> keeps_attr proj (catch c h).
Proof.
  intros Hc Hh s. unfold catch. specialize (Hc s).
  destruct (c s) as [[a | e |] s']; simpl in *; try assumption.
  now rewrite Hh.
Qed.

Ltac frame_step :=
  lazymatch goal with
  | |- keeps_attr _ (bind _ _) => apply frame_bind; [| intros]
  | |- keeps_attr _ (catch _ _) => apply frame_catch; [| intros]
  | |- keeps_attr _ (ret _) => apply frame_ret
  | |- keeps_attr _ (raise _) => apply frame_raise
  | |- keeps_attr _ (lift _) => apply frame_lift
  | |- keeps_attr _ (get _) => apply frame_get
  | |- keeps_attr _ (getattr _ _) => apply frame_getattr
  | |- keeps_attr _ get_world => apply frame_get_world
  | |- keeps_attr _ (put_world _) => apply frame_put_world
  | |- keeps_attr _ (modify (set_page_title _)) =>
      apply frame_modify; intros; apply proj_page_title
  | |- keeps_attr _ (modify (set_page_content_attr _)) =>
      apply frame_modify; intros; apply proj_page_content
  | |- keeps_attr _ (modify (set_viewport_pages _)) =>
      apply frame_modify; intros; apply proj_viewport_pages
  | |- keeps_attr _ (modify (set_viewport_current_page _)) =>
      apply frame_modify; intros; apply proj_viewport_current_page
  | |- keeps_attr _ (fun s => (_, s)) => apply frame_outcome
  | |- keeps_attr _ (match ?x with _ => _ end) => destruct x
  end.

Ltac frame := repeat frame_step; try assumption.

Lemma frame_claim_responsibility r url status content_type :
  keeps_attr proj (claim_responsibility r url status content_type).
Proof. destruct r; simpl; frame. Qed.

Lemma frame_render_page r response url status content_type :
  keeps_attr proj (render_page env r response url status content_type).
Proof.
  destruct r; simpl; frame.
  - unfold HtmlRenderer_render_page. frame.
  - unfold DownloadRenderer_render_page, try_safe_filename, make_filename, write_file.
    frame.
  - unfold FallbackErrorRenderer_render_page, HtmlRenderer_render_page. frame.
Qed.

Lemma frame_set_page_content fuel content :
  keeps_attr proj (_set_page_content fuel content).
Proof. unfold _set_page_content, _split_pages, address. frame. Qed.

Lemma frame_show fuel res : keeps_attr proj (show fuel res).
Proof. unfold show. pose proof (frame_set_page_content fuel (page_content res)). frame. Qed.

Lemma frame_page_loop fuel url response content_type renderers :
  keeps_attr proj (page_loop env fuel url response content_type renderers).
Proof.
  induction renderers as [|r rs IH]; simpl.
  - frame. apply frame_set_page_content.
  - frame.
    + apply frame_claim_responsibility.
    + apply frame_render_page.
    + apply frame_show.
Qed.

Lemma frame_error_loop fuel url ex_response renderers :
  forall response content_type,
    keeps_attr proj (error_loop env fuel url ex_response renderers response content_type).
Proof.
  induction renderers as [|r rs IH]; intros response content_type; simpl.
  - frame; apply frame_set_page_content.
  - frame.
    + apply frame_claim_responsibility.
    + apply frame_render_page.
    + apply frame_show.
    + apply IH.
Qed.

Lemma frame_fetch_page fuel url : keeps_attr proj (_fetch_page env fuel url).
Proof.
  unfold _fetch_page, except_RequestException.
  frame; try apply frame_error_loop; try apply frame_page_loop.
Qed.

End Frame.

(** X1.  Whatever it fetches and however it ends, [_fetch_page] writes
    only the page state (title, content, pages, page index) and the file
    system: the history, the request arguments, the API key, the downloads
    folder, the viewport size and both renderer lists are afterwards what
    they were before. *)
Theorem fetch_page_keeps_configuration :
  forall (env : Env) (fuel : nat) (url : string) (st : State),
    let st' := snd (_fetch_page env fuel url st) in
    history (self st') = history (self st) /\
    request_kwargs (self st') = request_kwargs (self st) /\
    bing_api_key (self st') = bing_api_key (self st) /\
    downloads_folder (self st') = downloads_folder (self st) /\
    viewport_size (self st') = viewport_size (self st) /\
    _page_renderers (self st') = _page_renderers (self st) /\
    _error_renderers (self st') = _error_renderers (self st).
Proof.
  intros env fuel url st. cbv zeta.
  repeat split;
    (refine (frame_fetch_page _ _ _ _ _ env fuel url st); intros v []; reflexivity).
Qed.

(** ** The history *)

(** The state after the first statement of [set_address]. *)
Lemma set_address_unfold (env : Env) (fuel : nat) (uri : string) (st : State) :
  set_address env fuel uri st
  = ((if String.eqb uri "about:blank" then _set_page_content fuel ""
      else if Py.startswith uri "bing:" then
        _bing_search env fuel (Py.strip (Py.drop 5 uri))
      else
        uri_or_path <-
          (if negb (Py.startswith uri "http:") && negb (Py.startswith uri "https:") then
             base <- address ;;
             uri_or_path <- lift (urljoin env base uri) ;;
             h <- get history ;;
             h <- lift (set_last uri_or_path h) ;;
             modify (set_history h) ;;;
             ret uri_or_path
           else ret uri) ;;
        _fetch_page env fuel uri_or_path) ;;;
     modify (set_viewport_current_page 0))
      {| self := set_history (history (self st) ++ [uri]) (self st); world := world st |}.
Proof. reflexivity. Qed.

(** X2.  Every call of [set_address] adds exactly one entry to the history
    and leaves the earlier entries alone, whether it returns or raises.
    For [about:blank], a [bing:] address and an [http:] or [https:] URL
    the entry is the argument.  For any other path the entry is
    [urljoin(path, path)] where [urljoin] returns, and the path itself
    where [urljoin] raised. *)
Theorem set_address_appends_one_entry :
  forall (env : Env) (fuel : nat) (uri : string) (st : State),
    history (self (snd (set_address env fuel uri st)))
    = (history (self st)
       ++ [if String.eqb uri "about:blank" || Py.startswith uri "bing:"
              || Py.startswith uri "http:" || Py.startswith uri "https:"
           then uri
           else match urljoin env uri uri with
                | inr resolved => resolved
                | inl _ => uri
                end])%list.
Proof.
  intros env fuel uri st. rewrite set_address_unfold.
  set (s1 := {| self := set_history (history (self st) ++ [uri]) (self st);
                world := world st |}).
  assert (Hreset : keeps_history (modify (set_viewport_current_page 0))) by keeps.
  destruct (String.eqb uri "about:blank") eqn:Hblank.
  { cbn [orb].
    rewrite (keeps_bind _ _ (keeps_set_page_content fuel "") (fun _ => Hreset) s1).
    reflexivity. }
  destruct (Py.startswith uri "bing:") eqn:Hbing.
  { cbn [orb].
    rewrite (keeps_bind _ _ (keeps_bing_search env fuel _) (fun _ => Hreset) s1).
    reflexivity. }
  cbn [orb].
  destruct (negb (Py.startswith uri "http:") && negb (Py.startswith uri "https:")) eqn:Hrel.
  - apply andb_true_iff in Hrel. destruct Hrel as (Hhttp & Hhttps).
    apply negb_true_iff in Hhttp, Hhttps. rewrite Hhttp, Hhttps. cbn [orb].
    rewrite ?run_bind_assoc.
    rewrite (run_bind _ _ s1 uri s1)
      by (apply address_last with (h := history (self st)); reflexivity).
    rewrite ?run_bind_assoc.
    destruct (urljoin env uri uri) as [e | resolved] eqn:Hjoin; [reflexivity|].
    simpl lift.
    rewrite (run_bind _ _ s1 resolved s1) by reflexivity.
    rewrite ?run_bind_assoc.
    rewrite (run_bind _ _ s1 (history (self st) ++ [uri])%list s1) by reflexivity.
    rewrite ?run_bind_assoc.
    assert (Hset : set_last resolved (history (self st) ++ [uri])
                   = inr (history (self st) ++ [resolved])%list).
    { unfold set_last. rewrite removelast_last.
      destruct (history (self st) ++ [uri])%list eqn:E; [|reflexivity].
      now apply app_eq_nil in E. }
    rewrite Hset. simpl lift.
    rewrite (run_bind _ _ s1 (history (self st) ++ [resolved])%list s1) by reflexivity.
    rewrite ?run_bind_assoc.
    set (s2 := {| self := set_history (history (self st) ++ [resolved]) (self s1);
                  world := world s1 |}).
    rewrite (run_bind _ _ s1 tt s2) by reflexivity.
    rewrite (run_bind _ _ s2 resolved s2) by reflexivity.
    rewrite (keeps_bind _ _ (keeps_fetch_page env fuel resolved) (fun _ => Hreset) s2).
    reflexivity.
  - assert (Habs : Py.startswith uri "http:" || Py.startswith uri "https:" = true).
    { apply andb_false_iff in Hrel. destruct Hrel as [H | H];
        apply negb_false_iff in H; rewrite H; [reflexivity | apply orb_true_r]. }
    rewrite Habs.
    rewrite ?run_bind_assoc.
    rewrite (run_bind _ _ s1 uri s1) by reflexivity.
    rewrite (keeps_bind _ _ (keeps_fetch_page env fuel uri) (fun _ => Hreset) s1).
    reflexivity.
Qed.

(** ** Pages that are not paginated *)

(** On an address that starts with neither [http:] nor [https:],
    [_set_page_content] returns without entering the loop, whatever the
    viewport size, and leaves one page over the whole content. *)
Lemma set_page_content_single_page (fuel : nat) (content : string) (s : State)
    (h : list string) (addr : string) :
  history (self s) = (h ++ [addr])%list ->
  Py.startswith addr "http:" = false ->
  Py.startswith addr "https:" = false ->
  _set_page_content fuel content s
  = (Ret tt,
     {| self :=
          set_viewport_current_page
            (if viewport_current_page (self s) >=? 1 then 0
             else viewport_current_page (self s))
            (set_viewport_pages [(0, Py.len content)]
               (set_page_content_attr content (self s)));
        world := world s |}).
Proof.
  intros Hh Hhttp Hhttps.
  unfold _set_page_content. unfold bind at 1, modify at 1.
  unfold bind at 1, _split_pages. unfold bind at 1.
  rewrite (address_last _ h addr) by exact Hh.
  unfold bind at 1, getattr at 1. cbn [self _page_content set_page_content_attr].
  unfold bind at 1, get at 1. unfold Pages.split_pages. rewrite Hhttp, Hhttps.
  cbn [negb andb]. unfold bind at 1, modify at 1.
  unfold bind at 1, get at 1. unfold bind at 1, get at 1.
  cbn [self viewport_current_page viewport_pages set_viewport_pages set_page_content_attr
       List.length Z.of_nat Pos.of_succ_nat].
  destruct (viewport_current_page (self s) >=? 1); reflexivity.
Qed.

(** X3.  Navigating to [about:blank] always returns, whatever the fuel and
    the viewport size: the content is empty, there is the one page (0, 0),
    the page index is 0 and nothing is written to the file system.  The
    title is not touched: the browser keeps the title of the page it was
    on. *)
Theorem set_address_about_blank :
  forall (env : Env) (fuel : nat) (st : State),
    let run := set_address env fuel "about:blank" st in
    fst run = Ret tt /\
    history (self (snd run)) = (history (self st) ++ ["about:blank"])%list /\
    _page_content (self (snd run)) = Some "" /\
    viewport_pages (self (snd run)) = [(0, 0)] /\
    viewport_current_page (self (snd run)) = 0 /\
    page_title (self (snd run)) = page_title (self st) /\
    world (snd run) = world st.
Proof.
  intros env fuel st run.
  assert (Hrun : run
                 = (Ret tt,
                    {| self :=
                         set_viewport_current_page 0
                           (set_viewport_pages [(0, 0)]
                              (set_page_content_attr ""
                                 (set_history (history (self st) ++ ["about:blank"])
                                    (self st))));
                       world := world st |})).
  { subst run. rewrite set_address_unfold.
    cbn [String.eqb Ascii.eqb Bool.eqb].
    unfold bind at 1.
    rewrite (set_page_content_single_page fuel "" _ (history (self st)) "about:blank")
      by reflexivity.
    reflexivity. }
  rewrite Hrun. repeat split.
Qed.

Lemma startswith_bing (text : string) : Py.startswith ("bing:" ++ text) "bing:" = true.
Proof. destruct text; reflexivity. Qed.


(** X5.  A search navigation on a browser whose API key is [None] raises
    the [ValueError] before any request is made.  The address has already
    been appended to the history; title, content and pages stay those of
    the page before, so the browser's address and its content no longer
    belong together. *)
Theorem set_address_search_without_key :
  forall (env : Env) (fuel : nat) (text : string) (st : State),
    bing_api_key (self st) = Some None ->
    set_address env fuel ("bing:" ++ text) st
    = (Raise (ValueError "Missing Bing API key."),
       {| self := set_history (history (self st) ++ [("bing:" ++ text)%string]) (self st);
          world := world st |}).
Proof.
  intros env fuel text st Hkey. rewrite set_address_unfold.
  change (String.eqb ("bing:" ++ text) "about:blank") with false.
  rewrite startswith_bing.
  unfold bind at 1, _bing_search. unfold bind at 1, _bing_api_call.
  unfold bind at 1, getattr at 1. cbn [self bing_api_key set_history].
  rewrite Hkey. reflexivity.
Qed.

(** ** An answer that lacks a key *)

Lemma deep_links_loop_missing (dls : list DeepLink) :
  all_items (one deep_link_item) dls = None ->
  forall idx acc, exists key, deep_links_loop dls idx acc = inl (KeyError key).
Proof.
  induction dls as [|dl dls IH]; intros H idx acc; [discriminate|].
  destruct dl as [[n|] [u|] sn];
    cbn [deep_links_loop dl_name dl_url dl_snippet subscript and_then];
    try (eexists; reflexivity).
  apply IH. cbn in H. destruct (all_items (one deep_link_item) dls); [discriminate|].
  reflexivity.
Qed.

Lemma news_loop_missing (pages : list NewsItem) :
  all_items (one news_item) pages = None ->
  forall idx acc, exists key, news_loop pages idx acc = inl (KeyError key).
Proof.
  induction pages as [|page pages IH]; intros H idx acc; [discriminate|].
  destruct page as [[n|] [u|] [t|]];
    cbn [news_loop news_name news_url news_description subscript and_then];
    try (eexists; reflexivity).
  apply IH. cbn in H. destruct (all_items (one news_item) pages); [discriminate|].
  reflexivity.
Qed.

Lemma web_loop_missing (pages : list WebPage) :
  all_items web_items pages = None ->
  forall idx acc, exists key, web_loop pages idx acc = inl (KeyError key).
Proof.
  induction pages as [|page pages IH]; intros H idx acc; [discriminate|].
  cbn [all_items] in H.
  destruct (web_items page) as [mine|] eqn:Hpage.
  - destruct (all_items web_items pages) as [rest|] eqn:Hrest; [discriminate|].
    destruct (IH eq_refl (idx + Z.of_nat (List.length mine))
                (acc ++ numbered (idx + 1) mine)%list) as (key & Hkey).
    exists key. rewrite <- Hkey.
    pose proof (web_loop_numbered [page] mine idx acc) as Hone.
    cbn [all_items] in Hone. rewrite Hpage, app_nil_r in Hone.
    specialize (Hone eq_refl).
    destruct page as [[n|] [u|] [t|] dls]; cbn in Hpage; try discriminate.
    cbn [web_loop wp_name wp_url wp_snippet wp_deepLinks subscript and_then] in Hone |- *.
    destruct (match dls with
              | Some dls =>
                  deep_links_loop dls (idx + 1) (acc ++ [snippet (idx + 1) n u t])%list
              | None => inr (idx + 1, (acc ++ [snippet (idx + 1) n u t])%list)
              end) as [e | [idx' acc']]; [discriminate|].
    cbn [and_then] in Hone |- *. injection Hone as -> ->. reflexivity.
  - destruct page as [[n|] [u|] [t|] dls];
      cbn [web_loop wp_name wp_url wp_snippet wp_deepLinks subscript and_then];
      try (eexists; reflexivity).
    destruct dls as [dls|]; cbn in Hpage; [|discriminate].
    destruct (all_items (one deep_link_item) dls) as [links|] eqn:Hlinks; [discriminate|].
    destruct (deep_links_loop_missing dls Hlinks (idx + 1)
                (acc ++ [snippet (idx + 1) n u t])%list) as (key & Hkey).
    exists key. now rewrite Hkey.
Qed.

(** An answer without all its keys ends the loops with a [KeyError]. *)
Lemma search_snippets_missing (results : SearchResults) :
  web_traversal results = None \/ news_traversal results = None ->
  exists key,
    search_snippets results = inl (KeyError key) /\
    (webPages results = None -> key = "webPages").
Proof.
  unfold search_snippets, web_traversal, news_traversal. intros H.
  destruct (webPages results) as [[pages|]|]; cbn [subscript and_then].
  - destruct (all_items web_items pages) as [web|] eqn:Hweb.
    + rewrite (web_loop_numbered pages web 0 [] Hweb). cbn [and_then].
      destruct H as [H | H]; [discriminate|].
      destruct (news results) as [[items|]|]; cbn [subscript and_then].
      * destruct (news_loop_missing items H (0 + Z.of_nat (List.length web)) [])
          as (key & Hkey).
        exists key. rewrite Hkey. split; [reflexivity | discriminate].
      * exists "value". split; [reflexivity | discriminate].
      * discriminate.
    + destruct (web_loop_missing pages Hweb 0 []) as (key & Hkey).
      exists key. rewrite Hkey. split; [reflexivity | discriminate].
  - exists "value". split; [reflexivity | discriminate].
  - exists "webPages". split; reflexivity.
Qed.

(** X18.  A search navigation whose answer lacks a key that [_bing_search]
    reads ([webPages] or its [value], the [name], [url] or [snippet] of a
    web result, the [name] or [url] of a deep link, the [value] of [news],
    the [name], [url] or [description] of a news item) raises [KeyError]
    once the API call has returned; for an answer without [webPages] it is
    [KeyError('webPages')].  Nothing is stored after the call: the address
    has been appended to the history, and title, content and pages are
    what the API call left, those of the page before. *)
Theorem set_address_search_missing_key :
  forall (env : Env) (fuel : nat) (text : string) (st st1 : State)
         (results : SearchResults),
    _bing_api_call env (Py.strip text)
      {| self := set_history (history (self st) ++ [("bing:" ++ text)%string]) (self st);
         world := world st |}
    = (Ret results, st1) ->
    web_traversal results = None \/ news_traversal results = None ->
    exists key,
      set_address env fuel ("bing:" ++ text) st = (Raise (KeyError key), st1) /\
      (webPages results = None -> key = "webPages") /\
      history (self st1) = (history (self st) ++ [("bing:" ++ text)%string])%list.
Proof.
  intros env fuel text st st1 results Hcall Hmissing.
  destruct (search_snippets_missing results Hmissing) as (key & Hkey & Hweb).
  exists key. split; [|split; [exact Hweb|]].
  - rewrite set_address_unfold.
    change (String.eqb ("bing:" ++ text) "about:blank") with false.
    rewrite startswith_bing.
    change (Py.drop 5 ("bing:" ++ text)) with text.
    unfold bind at 1, _bing_search. unfold bind at 1. rewrite Hcall.
    rewrite Hkey. reflexivity.
  - pose proof (keeps_bing_api_call env (Py.strip text)
                  {| self := set_history (history (self st) ++ [("bing:" ++ text)%string])
                               (self st);
                     world := world st |}) as Hk.
    rewrite Hcall in Hk. exact Hk.
Qed.

(** ** The API key and the request arguments *)

Lemma dict_get_set_other {V} (k k' : string) (v : V) (d : list (string * V)) :
  String.eqb k k' = false -> dict_get k (dict_set k' v d) = dict_get k d.
Proof.
  intros Hk. induction d as [|[k0 v0] d IH]; simpl.
  - now rewrite Hk.
  - destruct (String.eqb k' k0) eqn:E; simpl.
    + apply String.eqb_eq in E. subst k0. now rewrite Hk.
    + now rewrite IH.
Qed.

Section KeepsPredicate.

Variable P : SimpleTextBrowser -> Prop.

Lemma pred_pure {A} (c : M A) : (forall s, self (snd (c s)) = self s) -> keeps_pred P c.
Proof. intros H s Hs. now rewrite H. Qed.

Lemma pred_lift {A} (r : exn + A) : keeps_pred P (lift r).
Proof. apply pred_pure. destruct r; reflexivity. Qed.

Lemma pred_bind {A C} (c : M A) (k : A -> M C) :
  keeps_pred P c -> (forall a, keeps_pred P (k a)) -> keeps_pred P (bind c k).
Proof.
  intros Hc Hk s Hs. unfold bind. specialize (Hc s Hs).
  destruct (c s) as [[a | e |] s']; simpl in *; try assumption.
  now apply Hk.
Qed.

End KeepsPredicate.

(** X6.  [_bing_api_call] writes the API key into the caller's own
    [headers] dictionary: its local [request_kwargs] is a shallow copy, so
    where [self.request_kwargs] has a [headers] dictionary, the assignment
    of the [Ocp-Apim-Subscription-Key] header reaches that dictionary too.
    It stays there whether the search then succeeds or fails, and every
    later [_fetch_page] sends it along with its request, to whatever host. *)
Theorem bing_api_call_leaves_key_in_request_kwargs :
  forall (env : Env) (query : string) (st : State) (key : string) (d : dict)
         (h : list (string * scalar)),
    bing_api_key (self st) = Some (Some key) ->
    request_kwargs (self st) = Some (Some d) ->
    dict_get "headers" d = Some (VDict h) ->
    let st' := snd (_bing_api_call env query st) in
    exists d' h',
      request_kwargs (self st') = Some (Some d') /\
      dict_get "headers" d' = Some (VDict h') /\
      dict_get "Ocp-Apim-Subscription-Key" h' = Some (SStr key) /\
      dict_get "headers" (fetch_kwargs (Some d')) = Some (VDict h').
Proof.
  intros env query st key d h Hkey Hrk Hheaders st'.
  set (Inv := fun b : SimpleTextBrowser =>
                exists d' h',
                  request_kwargs b = Some (Some d') /\
                  dict_get "headers" d' = Some (VDict h') /\
                  dict_get "Ocp-Apim-Subscription-Key" h' = Some (SStr key)).
  assert (Hparams : forall key2 v kw, keeps_pred Inv (setitem2 "params" key2 v kw)).
  { intros key2 v kw s (d' & h' & H1 & H2 & H3). unfold setitem2.
    destruct (dict_get "params" kw) as [[sc | dp]|]; try (exists d', h'; now repeat split).
    unfold bind, modify. cbn [snd self]. rewrite H1.
    destruct (dict_get "params" d'); [|exists d', h'; now repeat split].
    eexists; exists h'. split; [reflexivity|]. split; [|exact H3].
    rewrite dict_get_set_other by reflexivity. exact H2. }
  assert (Hinv : Inv (self st')).
  { subst st'. unfold _bing_api_call.
    unfold bind at 1, getattr at 1. rewrite Hkey.
    unfold bind at 1, getattr at 1. rewrite Hrk.
    set (s1 := {| self := set_request_kwargs
                            (Some (dict_set "headers"
                                     (VDict (dict_set "Ocp-Apim-Subscription-Key"
                                               (SStr key) h)) d))
                            (self st);
                  world := world st |}).
    assert (Hfirst : setitem2 "headers" "Ocp-Apim-Subscription-Key" (SStr key) d st
                     = (Ret (dict_set "headers"
                               (VDict (dict_set "Ocp-Apim-Subscription-Key" (SStr key) h)) d),
                        s1)).
    { unfold setitem2. rewrite Hheaders. unfold bind, modify. rewrite Hrk, Hheaders.
      reflexivity. }
    rewrite (run_bind _ _ _ _ _ Hfirst).
    assert (Hs1 : Inv (self s1)).
    { eexists; eexists. split; [reflexivity|]. split; apply dict_get_set_same. }
    revert Hs1. generalize s1. clear Hfirst s1.
    change (keeps_pred Inv
              (kw <- setitem2 "params" "q" (SStr query)
                       (dict_set "headers"
                          (VDict (dict_set "Ocp-Apim-Subscription-Key" (SStr key) h)) d) ;;
               kw <- setitem2 "params" "textDecorations" (SBool false) kw ;;
               kw <- setitem2 "params" "textFormat" (SStr "raw") kw ;;
               response <- lift (requests_get env search_url
                                   (dict_set "stream" (VScalar (SBool false)) kw)) ;;
               lift (raise_for_status response) ;;;
               lift (response_json env response))).
    repeat (apply pred_bind; [try apply Hparams; try apply pred_lift | intros]).
    apply pred_lift. }
  destruct Hinv as (d' & h' & H1 & H2 & H3).
  exists d', h'. repeat split; try assumption.
  unfold fetch_kwargs. rewrite dict_get_set_other by reflexivity. exact H2.
Qed.

(** ** Dispatch on the edges *)

(** The first two stretches of [_fetch_page] for a response with a good
    status: what is left is the loop over the page renderers under the
    handler. *)
Lemma fetch_page_success (env : Env) (fuel : nat) (url : string) (st : State)
    (rk : option dict) (response : Response) :
  request_kwargs (self st) = Some rk ->
  requests_get env url (fetch_kwargs rk) = inr response ->
  raise_for_status response = inr tt ->
  _fetch_page env fuel url st
  = catch
      (renderers <- getattr "_page_renderers" _page_renderers ;;
       page_loop env fuel url response (headers_get (headers response) "content-type" "")
         renderers)
      (except_RequestException env fuel url (Some response)
         (Some (headers_get (headers response) "content-type" ""))) st.
Proof.
  intros Hrk Hget Hstatus.
  unfold _fetch_page. unfold bind at 1, catch at 1, bind at 1, getattr at 1. rewrite Hrk.
  unfold bind at 1, lift at 1. rewrite Hget. cbn [ret].
  unfold bind at 1, catch at 1, bind at 1, lift at 1. rewrite Hstatus. reflexivity.
Qed.

(** The first two stretches for a response with an error status: what is
    left is the loop over the error renderers, started with [response]
    bound and [content_type] unbound. *)
Lemma fetch_page_http_error (env : Env) (fuel : nat) (url : string) (st : State)
    (rk : option dict) (response : Response) (renderers : list Renderer) :
  request_kwargs (self st) = Some rk ->
  requests_get env url (fetch_kwargs rk) = inr response ->
  400 <= status_code response < 600 ->
  _error_renderers (self st) = Some renderers ->
  _fetch_page env fuel url st
  = error_loop env fuel url (Some response) renderers (Some response) None st.
Proof.
  intros Hrk Hget Hstatus Hrs.
  assert (Hraise : raise_for_status response = inl (RequestException (Some response))).
  { unfold raise_for_status.
    replace ((400 <=? status_code response) && (status_code response <? 600)) with true;
      [reflexivity|].
    symmetry. apply andb_true_iff. split; [apply Z.leb_le | apply Z.ltb_lt]; lia. }
  unfold _fetch_page. unfold bind at 1, catch at 1, bind at 1, getattr at 1. rewrite Hrk.
  unfold bind at 1, lift at 1. rewrite Hget. cbn [ret].
  unfold bind at 1, catch at 1, bind at 1, lift at 1. rewrite Hraise. cbn [raise].
  unfold bind at 1. cbn [except_RequestException]. unfold bind at 1, getattr at 1.
  rewrite Hrs.
  destruct (error_loop env fuel url (Some response) renderers (Some response) None st)
    as [[[] | e |] s']; reflexivity.
Qed.

(** X7.  Without a downloads folder ([None], or the empty string, which
    is as false) the [DownloadRenderer] never claims, and a successfully
    fetched resource whose type is neither [application/pdf] (with PDF
    support), [text/plain] nor [text/html] ends at the
    [FallbackPageRenderer]: the page shown has the title and the content
    [Error - Unsupported Content-Type '<type>'], and [_fetch_page] returns
    as if the page had loaded. *)
Theorem fetch_page_without_downloads_folder :
  forall (env : Env) (fuel : nat) (url : string) (st : State) (rk : option dict)
         (response : Response),
    _page_renderers (self st) = Some (default_page_renderers env) ->
    request_kwargs (self st) = Some rk ->
    requests_get env url (fetch_kwargs rk) = inr response ->
    raise_for_status response = inr tt ->
    Py.truthy (downloads_folder (self st)) = false ->
    let content_type := headers_get (headers response) "content-type" "" in
    _fetch_page env fuel url st
    = catch
        (res <- render_page env (default_choice env false (Some content_type)) response url
                  (status_code response) (Some content_type) ;;
         show fuel res)
        (except_RequestException env fuel url (Some response) (Some content_type)) st /\
    (default_choice env false (Some content_type) = FallbackPageRenderer ->
     _fetch_page env fuel url st
     = show fuel (FallbackPageRenderer_render_page (Some content_type)) st /\
     page_title (self (snd (_fetch_page env fuel url st)))
     = Some ("Error - Unsupported Content-Type '" ++ content_type ++ "'") /\
     _page_content (self (snd (_fetch_page env fuel url st)))
     = Some ("Error - Unsupported Content-Type '" ++ content_type ++ "'")).
Proof.
  intros env fuel url st rk response Hrs Hrk Hget Hstatus Hfolder content_type.
  assert (Hfetch :
            _fetch_page env fuel url st
            = catch
                (res <- render_page env (default_choice env false (Some content_type))
                          response url (status_code response) (Some content_type) ;;
                 show fuel res)
                (except_RequestException env fuel url (Some response) (Some content_type)) st).
  { rewrite (fetch_page_success env fuel url st rk response Hrk Hget Hstatus).
    fold content_type. apply catch_congr.
    unfold bind at 1, getattr at 1. rewrite Hrs.
    assert (Hdl : claim_responsibility DownloadRenderer url (status_code response)
                    (Some content_type) st = (Ret false, st)).
    { cbn [claim_responsibility]. unfold bind, get. now rewrite Hfolder. }
    assert (Htail : page_loop env fuel url response content_type
                      [PlainTextRenderer; HtmlRenderer; DownloadRenderer; FallbackPageRenderer]
                      st
                    = (res <- render_page env
                                (if claims_type "text/plain" (Some content_type)
                                 then PlainTextRenderer
                                 else if claims_type "text/html" (Some content_type)
                                      then HtmlRenderer
                                      else FallbackPageRenderer)
                                response url (status_code response) (Some content_type) ;;
                       show fuel res) st).
    { rewrite (page_loop_round _ _ _ _ _ PlainTextRenderer _ _ _ eq_refl).
      destruct (claims_type "text/plain" (Some content_type)); [reflexivity|].
      rewrite (page_loop_round _ _ _ _ _ HtmlRenderer _ _ _ eq_refl).
      destruct (claims_type "text/html" (Some content_type)); [reflexivity|].
      rewrite (page_loop_round _ _ _ _ _ DownloadRenderer _ _ _ Hdl).
      rewrite (page_loop_round _ _ _ _ _ FallbackPageRenderer _ _ _ eq_refl).
      reflexivity. }
    unfold default_page_renderers, default_choice.
    destruct (IS_PDF_CAPABLE env); cbn [app andb]; [|exact Htail].
    rewrite (page_loop_round _ _ _ _ _ PdfRenderer _ _ _ eq_refl).
    destruct (claims_type "application/pdf" (Some content_type)); [reflexivity | exact Htail]. }
  split; [exact Hfetch|].
  intros Hchoice.
  assert (Hshow : _fetch_page env fuel url st
                  = show fuel (FallbackPageRenderer_render_page (Some content_type)) st).
  { rewrite Hfetch, Hchoice.
    assert (Hbody : (res <- render_page env FallbackPageRenderer response url
                              (status_code response) (Some content_type) ;;
                     show fuel res) st
                    = show fuel (FallbackPageRenderer_render_page (Some content_type)) st)
      by reflexivity.
    rewrite catch_passes; [exact Hbody|].
    rewrite Hbody. apply show_effect. }
  split; [exact Hshow|]. rewrite Hshow.
  destruct (show_effect fuel (FallbackPageRenderer_render_page (Some content_type)) st)
    as (Hc & Ht & _).
  split; [exact Ht | exact Hc].
Qed.

(** With a viewport of at least one character and fuel for the length of
    the content, storing a page returns. *)
Lemma split_pages_returns (fuel : nat) (addr content : string) (size : Z) :
  1 <= size -> (String.length content + 2 <= fuel)%nat ->
  fst (Pages.split_pages fuel addr content size) = Ret tt.
Proof.
  intros Hsize Hfuel. unfold Pages.split_pages.
  destruct (negb (Py.startswith addr "http:") && negb (Py.startswith addr "https:"));
    [reflexivity|].
  destruct (Py.len content =? 0); [reflexivity|].
  destruct (PagesFacts.split_loop_ok content size Hsize fuel 0 []) as (rest & Hrun & _);
    [unfold Py.len; lia | unfold Py.len; lia |].
  now rewrite Hrun.
Qed.

Lemma set_page_content_returns (fuel : nat) (content : string) (s : State) :
  history (self s) <> [] -> 1 <= viewport_size (self s) ->
  (String.length content + 2 <= fuel)%nat ->
  fst (_set_page_content fuel content s) = Ret tt.
Proof.
  intros Hh Hsize Hfuel.
  unfold _set_page_content, _split_pages, address, bind, modify, get, getattr. simpl.
  destruct (history (self s)) as [|h0 h]; [congruence|]. simpl.
  pose proof (split_pages_returns fuel (last h h0) content (viewport_size (self s))
                Hsize Hfuel) as Hsplit.
  destruct (Pages.split_pages fuel (last h h0) content (viewport_size (self s)))
    as [r pages].
  simpl in Hsplit. subst r. simpl.
  destruct (viewport_current_page (self s) >=? Z.of_nat (List.length pages)); reflexivity.
Qed.

(** X8.  When no registered page renderer claims a successfully fetched
    response (or none is registered), [_fetch_page] raises nothing of its
    own: it stores the page titled [Error - Unhandled _fetch_page], whose
    content names the URL, the status code and the content type, and ends
    as storing that page ends.  With a viewport size of at least 1, a
    history that is not empty (as it is under [set_address]) and fuel for
    the length of that content, it returns. *)
Theorem fetch_page_unclaimed_is_unhandled :
  forall (env : Env) (fuel : nat) (url : string) (st : State) (rk : option dict)
         (response : Response) (renderers : list Renderer),
    _page_renderers (self st) = Some renderers ->
    request_kwargs (self st) = Some rk ->
    requests_get env url (fetch_kwargs rk) = inr response ->
    raise_for_status response = inr tt ->
    let content_type := headers_get (headers response) "content-type" "" in
    (forall r, In r renderers ->
       fst (claim_responsibility r url (status_code response) (Some content_type) st)
       = Ret false) ->
    let page := {| title := Some "Error - Unhandled _fetch_page";
                   page_content := unhandled_text "Error - Unhandled _fetch_page:" url
                                     (status_code response) content_type |} in
    _fetch_page env fuel url st = show fuel page st /\
    page_title (self (snd (_fetch_page env fuel url st))) = title page /\
    _page_content (self (snd (_fetch_page env fuel url st))) = Some (page_content page) /\
    (history (self st) <> [] ->
     1 <= viewport_size (self st) ->
     (String.length (page_content page) + 2 <= fuel)%nat ->
     fst (_fetch_page env fuel url st) = Ret tt).
Proof.
  intros env fuel url st rk response renderers Hrs Hrk Hget Hstatus content_type
         Hnone page.
  assert (Hloop : page_loop env fuel url response content_type renderers st
                  = show fuel page st).
  { clear Hrs. induction renderers as [|r rs IH]; [reflexivity|].
    pose proof (claim_responsibility_reads r url (status_code response)
                  (Some content_type) st) as Hreads.
    pose proof (Hnone r (or_introl eq_refl)) as Hclaim.
    destruct (claim_responsibility r url (status_code response) (Some content_type) st)
      as [o s] eqn:E.
    simpl in Hclaim, Hreads. subst o s.
    rewrite (page_loop_round _ _ _ _ _ r rs false st E).
    apply IH. intros r' Hin. apply Hnone. now right. }
  assert (Hfetch : _fetch_page env fuel url st = show fuel page st).
  { rewrite (fetch_page_success env fuel url st rk response Hrk Hget Hstatus).
    fold content_type.
    assert (Hbody : (rs <- getattr "_page_renderers" _page_renderers ;;
                     page_loop env fuel url response content_type rs) st
                    = show fuel page st).
    { unfold bind at 1, getattr at 1. rewrite Hrs. exact Hloop. }
    rewrite catch_passes; [exact Hbody|].
    rewrite Hbody. apply show_effect. }
  split; [exact Hfetch|]. rewrite Hfetch.
  destruct (show_effect fuel page st) as (Hc & Ht & _).
  split; [exact Ht|]. split; [exact Hc|].
  intros Hh Hsize Hfuel. unfold show, bind, modify.
  apply set_page_content_returns; assumption.
Qed.

(** X9.  With [FallbackErrorRenderer] first among the error renderers, an
    HTTP error status is not raised to the caller where the body stream
    yields text and the body is not HTML, or is HTML with a title element:
    [_fetch_page] shows a page titled [Error <status>] whose content is
    the heading [## Error <status>], a blank line, and the body (converted
    for HTML, as received otherwise).  Where the stream yields bytes (a
    response for which [requests] has no encoding), the [TypeError] of
    [_read_all_text] leaves [_fetch_page] from inside its handler, and
    neither title nor content is stored. *)
Theorem fetch_page_renders_http_error :
  forall (env : Env) (fuel : nat) (url : string) (st : State) (rk : option dict)
         (response : Response) (others : list Renderer),
    request_kwargs (self st) = Some rk ->
    requests_get env url (fetch_kwargs rk) = inr response ->
    400 <= status_code response < 600 ->
    _error_renderers (self st) = Some (FallbackErrorRenderer :: others) ->
    let content_type := Some (headers_get (headers response) "content-type" "") in
    (forall text,
       _read_all_text response = inr text ->
       claims_type "text/html" content_type = false \/
       soup_title (BeautifulSoup env text) <> None ->
       let page :=
         {| title := Some ("Error " ++ Py.str_of_int (status_code response));
            page_content :=
              "## Error " ++ Py.str_of_int (status_code response) ++ Py.nl ++ Py.nl
              ++ (if claims_type "text/html" content_type then html_content env text
                  else text) |} in
       _fetch_page env fuel url st = show fuel page st /\
       page_title (self (snd (_fetch_page env fuel url st))) = title page /\
       _page_content (self (snd (_fetch_page env fuel url st))) = Some (page_content page)) /\
    (forall e,
       _read_all_text response = inl e ->
       _fetch_page env fuel url st = (Raise e, st)).
Proof.
  intros env fuel url st rk response others Hrk Hget Hstatus Hrs content_type.
  assert (Hloop : _fetch_page env fuel url st
                  = (res <- FallbackErrorRenderer_render_page env response
                              (status_code response) content_type ;;
                     show fuel res) st).
  { rewrite (fetch_page_http_error env fuel url st rk response _ Hrk Hget Hstatus Hrs).
    cbn [error_loop claim_responsibility]. unfold bind at 1. cbn [ret].
    cbn [render_page]. reflexivity. }
  split.
  - intros text Htext Hbody page.
    assert (Hfetch : _fetch_page env fuel url st = show fuel page st).
    { rewrite Hloop. unfold bind at 1.
      rewrite FallbackErrorRenderer_render_page_cases, Htext. subst page.
      destruct (claims_type "text/html" content_type); [|reflexivity].
      destruct Hbody as [Hno | Htitle]; [discriminate|].
      destruct (soup_title (BeautifulSoup env text)); [reflexivity | congruence]. }
    split; [exact Hfetch|]. rewrite Hfetch.
    destruct (show_effect fuel page st) as (Hc & Ht & _).
    split; [exact Ht | exact Hc].
  - intros e He. rewrite Hloop. unfold bind at 1.
    rewrite FallbackErrorRenderer_render_page_cases, He. reflexivity.
Qed.

(** What the loop over the error renderers comes to when none of them
    claims: the lines after the loop, with the local variables as the last
    round left them. *)
Lemma error_loop_unclaimed (env : Env) (fuel : nat) (url : string) (response : Response)
    (st : State) (renderers : list Renderer) :
  (forall r, In r renderers ->
     fst (claim_responsibility r url (status_code response)
            (Some (headers_get (headers response) "content-type" "")) st)
     = Ret false) ->
  forall content_type,
    error_loop env fuel url (Some response) renderers (Some response) content_type st
    = error_loop env fuel url (Some response) [] (Some response)
        (match renderers with
         | [] => content_type
         | _ :: _ => Some (headers_get (headers response) "content-type" "")
         end) st.
Proof.
  induction renderers as [|r rs IH]; intros Hnone content_type; [reflexivity|].
  pose proof (claim_responsibility_reads r url (status_code response)
                (Some (headers_get (headers response) "content-type" "")) st) as Hreads.
  pose proof (Hnone r (or_introl eq_refl)) as Hclaim.
  cbn [error_loop]. unfold bind at 1.
  destruct (claim_responsibility r url (status_code response)
              (Some (headers_get (headers response) "content-type" "")) st)
    as [o s] eqn:E.
  simpl in Hclaim, Hreads. subst o s.
  rewrite IH by (intros r' Hin; apply Hnone; now right).
  destruct rs; reflexivity.
Qed.

(** X10.  The fallback after the loop over the error renderers depends on
    the loop having run.  For an HTTP error status with error renderers
    registered of which none claims, [_fetch_page] shows the page
    [Error - Unhandled _fetch_page] with the URL, status and content type.
    With no error renderer registered at all, the same lines set the title
    and then raise [UnboundLocalError]: [content_type] is assigned only in
    the [try] block after [raise_for_status] and inside the loop. *)
Theorem fetch_page_http_error_unclaimed :
  forall (env : Env) (fuel : nat) (url : string) (st : State) (rk : option dict)
         (response : Response) (renderers : list Renderer),
    request_kwargs (self st) = Some rk ->
    requests_get env url (fetch_kwargs rk) = inr response ->
    400 <= status_code response < 600 ->
    _error_renderers (self st) = Some renderers ->
    let content_type := headers_get (headers response) "content-type" "" in
    (forall r, In r renderers ->
       fst (claim_responsibility r url (status_code response) (Some content_type) st)
       = Ret false) ->
    _fetch_page env fuel url st
    = match renderers with
      | [] =>
          (Raise (UnboundLocalError "content_type"),
           {| self := set_page_title (Some "Error - Unhandled _fetch_page") (self st);
              world := world st |})
      | _ :: _ =>
          show fuel
            {| title := Some "Error - Unhandled _fetch_page";
               page_content := unhandled_text "Error - Unhandled _fetch_page error:" url
                                 (status_code response) content_type |} st
      end.
Proof.
  intros env fuel url st rk response renderers Hrk Hget Hstatus Hrs content_type Hnone.
  rewrite (fetch_page_http_error env fuel url st rk response _ Hrk Hget Hstatus Hrs).
  rewrite (error_loop_unclaimed env fuel url response st renderers Hnone).
  destruct renderers; reflexivity.
Qed.

(** ** Paging *)

Lemma set_current_page_same (s : State) :
  {| self := set_viewport_current_page (viewport_current_page (self s)) (self s);
     world := world s |} = s.
Proof. destruct s as [[] w]. reflexivity. Qed.

(** X11.  [page_down] and [page_up] keep the page index inside the list of
    pages.  At the last page [page_down] changes nothing and at the first
    page [page_up] changes nothing; anywhere before the last page,
    [page_up] after [page_down] is back on the page it started from.
    Neither touches anything but the index. *)
Theorem paging_keeps_index_in_range :
  forall (st : State),
    readable (self st) ->
    let n := Z.of_nat (List.length (viewport_pages (self st))) in
    let cur := viewport_current_page (self st) in
    let at_page (i : Z) : State :=
      {| self := set_viewport_current_page i (self st); world := world st |} in
    page_down st = (Ret tt, at_page (Z.min (cur + 1) (n - 1))) /\
    page_up st = (Ret tt, at_page (Z.max (cur - 1) 0)) /\
    readable (self (snd (page_down st))) /\
    readable (self (snd (page_up st))) /\
    (cur = n - 1 -> page_down st = (Ret tt, st)) /\
    (cur = 0 -> page_up st = (Ret tt, st)) /\
    (cur < n - 1 -> (page_down ;;; page_up) st = (Ret tt, st)).
Proof.
  intros st (Hcontent & Hrange) n cur at_page.
  assert (Hdown : page_down st = (Ret tt, at_page (Z.min (cur + 1) (n - 1))))
    by reflexivity.
  assert (Hup : page_up st = (Ret tt, at_page (Z.max (cur - 1) 0))) by reflexivity.
  split; [exact Hdown|]. split; [exact Hup|].
  split; [|split; [|split; [|split]]].
  - rewrite Hdown. split; [exact Hcontent|]. cbn. fold n cur. lia.
  - rewrite Hup. split; [exact Hcontent|]. cbn. fold n cur. lia.
  - intros Hlast. rewrite Hdown. f_equal.
    replace (Z.min (cur + 1) (n - 1)) with cur by lia. apply set_current_page_same.
  - intros Hfirst. rewrite Hup. f_equal.
    replace (Z.max (cur - 1) 0) with cur by lia. apply set_current_page_same.
  - intros Hmid. unfold bind. rewrite Hdown.
    unfold page_up, bind, get, modify. cbn. f_equal.
    replace (Z.max (Z.min (cur + 1) (n - 1) - 1) 0) with cur by lia.
    destruct st as [[] w]. reflexivity.
Qed.



(** ** Reading the viewport after a navigation *)

Section ReturnsWith.

Lemma returns_bind {A C} (P : State -> Prop) (c : M A) (k : A -> M C)
    (Q1 : A -> State -> Prop) (Q2 : C -> State -> Prop) :
  returns_with P c Q1 ->
  (forall a, returns_with (Q1 a) (k a) Q2) ->
  returns_with P (bind c k) Q2.
Proof.
  intros Hc Hk s b s' Hs Hrun. unfold bind in Hrun.
  destruct (c s) as [[a | e |] s1] eqn:E; try discriminate.
  exact (Hk a s1 b s' (Hc s a s1 Hs E) Hrun).
Qed.

Lemma returns_catch {A} (P : State -> Prop) (c : M A) (h : exn -> M A)
    (Q : A -> State -> Prop) :
  returns_with P c Q ->
  (forall e, returns_with (fun _ => True) (h e) Q) ->
  returns_with P (catch c h) Q.
Proof.
  intros Hc Hh s a s' Hs Hrun. unfold catch in Hrun.
  destruct (c s) as [[a1 | e |] s1] eqn:E; try discriminate.
  - injection Hrun as <- <-. exact (Hc s a1 s1 Hs E).
  - exact (Hh e s1 a s' I Hrun).
Qed.

Lemma returns_weaken {A} (P P' : State -> Prop) (c : M A) (Q : A -> State -> Prop) :
  returns_with P' c Q -> (forall s, P s -> P' s) -> returns_with P c Q.
Proof. intros Hc HP s a s' Hs Hrun. exact (Hc s a s' (HP s Hs) Hrun). Qed.

Lemma returns_raise {A} (P : State -> Prop) (e : exn) (Q : A -> State -> Prop) :
  returns_with P (raise e) Q.
Proof. intros s a s' _ Hrun. discriminate. Qed.

Lemma returns_ret {A} (P : State -> Prop) (a : A) (Q : A -> State -> Prop) :
  (forall s, P s -> Q a s) -> returns_with P (ret a) Q.
Proof. intros H s a' s' Hs Hrun. injection Hrun as <- <-. now apply H. Qed.

End ReturnsWith.

(** The loop appends to the list it was given, and a run that returns
    from inside the content has appended at least one page. *)
Lemma split_loop_grows (content : string) (size : Z) :
  forall fuel from pages r pages',
    Pages.split_loop fuel content size from pages = (r, pages') ->
    exists rest,
      pages' = (pages ++ rest)%list /\
      (r = Ret tt -> from < Py.len content -> rest <> []).
Proof.
  induction fuel as [|fuel IH]; intros from pages r pages' Hrun; simpl in Hrun.
  - injection Hrun as <- <-. exists []. split; [now rewrite app_nil_r | discriminate].
  - destruct (from <? Py.len content) eqn:Hlt.
    + destruct (Pages.extend_end fuel content (Z.min (from + size) (Py.len content)))
        as [e | x |].
      * destruct (IH _ _ _ _ Hrun) as (rest & -> & _).
        exists ((from, e) :: rest). split; [now rewrite <- app_assoc | discriminate].
      * injection Hrun as <- <-. exists []. split; [now rewrite app_nil_r | discriminate].
      * injection Hrun as <- <-. exists []. split; [now rewrite app_nil_r | discriminate].
    + injection Hrun as <- <-. exists []. split; [now rewrite app_nil_r|].
      intros _ H. apply Z.ltb_ge in Hlt. lia.
Qed.

Lemma split_pages_ret_nonempty fuel addr content size pages :
  Pages.split_pages fuel addr content size = (Ret tt, pages) -> pages <> [].
Proof.
  unfold Pages.split_pages.
  destruct (negb (Py.startswith addr "http:") && negb (Py.startswith addr "https:")).
  - intros H. injection H as <-. discriminate.
  - destruct (Py.len content =? 0) eqn:Hz.
    + intros H. injection H as <-. discriminate.
    + intros H. destruct (split_loop_grows _ _ _ _ _ _ _ H) as (rest & -> & Hne).
      apply Hne; [reflexivity|]. apply Z.eqb_neq in Hz. unfold Py.len in *. lia.
Qed.

Lemma set_page_content_paged fuel content :
  returns_with (fun _ => True) (_set_page_content fuel content) (fun _ s => paged s).
Proof.
  intros s [] s' _ Hrun.
  unfold _set_page_content, _split_pages, address, bind, modify, get, getattr, ret, raise
    in Hrun.
  simpl in Hrun.
  destruct (history (self s)) as [|h0 h]; simpl in Hrun; [discriminate|].
  destruct (Pages.split_pages fuel (last h h0) content (viewport_size (self s)))
    as [[[] | y |] pages] eqn:Hsp; simpl in Hrun; try discriminate.
  apply split_pages_ret_nonempty in Hsp.
  destruct (viewport_current_page (self s) >=? Z.of_nat (List.length pages));
    injection Hrun as <-; (split; [discriminate | exact Hsp]).
Qed.

Lemma show_paged fuel res :
  returns_with (fun _ => True) (show fuel res) (fun _ s => paged s).
Proof.
  unfold show. apply returns_bind with (Q1 := fun _ _ => True).
  - intros s a s' _ _. exact I.
  - intros _. apply set_page_content_paged.
Qed.

Section Paged.

Variable env : Env.

Lemma page_loop_paged fuel url response content_type renderers :
  returns_with (fun _ => True)
    (page_loop env fuel url response content_type renderers) (fun _ s => paged s).
Proof.
  induction renderers as [|r rs IH]; cbn [page_loop].
  - apply returns_bind with (Q1 := fun _ _ => True).
    + intros s a s' _ _. exact I.
    + intros _. apply set_page_content_paged.
  - apply returns_bind with (Q1 := fun _ _ => True).
    + intros s a s' _ _. exact I.
    + intros [|]; [|exact IH].
      apply returns_bind with (Q1 := fun _ _ => True).
      * intros s a s' _ _. exact I.
      * intros res. apply show_paged.
Qed.

Lemma error_loop_paged fuel url ex_response renderers :
  forall response content_type,
    returns_with (fun _ => True)
      (error_loop env fuel url ex_response renderers response content_type)
      (fun _ s => paged s).
Proof.
  induction renderers as [|r rs IH]; intros response content_type; cbn [error_loop].
  - apply returns_bind with (Q1 := fun _ _ => True).
    + intros s a s' _ _. exact I.
    + intros _. destruct response as [resp|]; [|apply returns_raise].
      destruct content_type as [ct|]; [|apply returns_raise].
      apply set_page_content_paged.
  - destruct ex_response as [resp|]; [|apply returns_raise].
    apply returns_bind with (Q1 := fun _ _ => True).
    + intros s a s' _ _. exact I.
    + intros [|]; [|apply IH].
      apply returns_bind with (Q1 := fun _ _ => True).
      * intros s a s' _ _. exact I.
      * intros res. apply show_paged.
Qed.

Lemma except_paged fuel url response content_type ex :
  returns_with (fun _ => True)
    (except_RequestException env fuel url response content_type ex) (fun _ s => paged s).
Proof.
  destruct ex; cbn [except_RequestException]; try apply returns_raise.
  apply returns_bind with (Q1 := fun _ _ => True).
  - intros s a s' _ _. exact I.
  - intros rs. apply error_loop_paged.
Qed.

Lemma fetch_page_paged fuel url :
  returns_with (fun _ => True) (_fetch_page env fuel url) (fun _ s => paged s).
Proof.
  unfold _fetch_page.
  apply returns_bind with (Q1 := fun got s => got = None -> paged s).
  - apply returns_catch.
    + intros s a s' _ Hrun. unfold bind, getattr, lift in Hrun.
      destruct (request_kwargs (self s)) as [rk|]; [|discriminate].
      destruct (requests_get env url (fetch_kwargs rk)); simpl in Hrun; [discriminate|].
      injection Hrun as <- <-. discriminate.
    + intros e. apply returns_bind with (Q1 := fun _ s => paged s).
      * apply except_paged.
      * intros _. apply returns_ret. intros s Hs _. exact Hs.
  - intros [response|].
    + apply returns_weaken with (P' := fun _ => True); [|intros s _; exact I].
      apply returns_bind with (Q1 := fun ok s => ok = false -> paged s).
      * apply returns_catch.
        -- intros s a s' _ Hrun. unfold bind, lift in Hrun.
           destruct (raise_for_status response); simpl in Hrun; [discriminate|].
           injection Hrun as <- <-. discriminate.
        -- intros e. apply returns_bind with (Q1 := fun _ s => paged s).
           ++ apply except_paged.
           ++ intros _. apply returns_ret. intros s Hs _. exact Hs.
      * intros [|].
        -- apply returns_weaken with (P' := fun _ => True); [|intros s _; exact I].
           apply returns_catch.
           ++ apply returns_bind with (Q1 := fun _ _ => True).
              ** intros s a s' _ _. exact I.
              ** intros rs. apply page_loop_paged.
           ++ intros e. apply except_paged.
        -- apply returns_ret. intros s Hs. now apply Hs.
    + apply returns_ret. intros s Hs. now apply Hs.
Qed.

Lemma bing_search_paged fuel query :
  returns_with (fun _ => True) (_bing_search env fuel query) (fun _ s => paged s).
Proof.
  unfold _bing_search.
  apply returns_bind with (Q1 := fun _ _ => True).
  - intros s a s' _ _. exact I.
  - intros results.
    apply returns_bind with (Q1 := fun _ _ => True).
    + intros s a s' _ _. exact I.
    + intros [web nw].
      apply returns_bind with (Q1 := fun _ _ => True).
      * intros s a s' _ _. exact I.
      * intros _. apply set_page_content_paged.
Qed.

Lemma set_address_paged fuel uri :
  returns_with (fun _ => True) (set_address env fuel uri)
    (fun _ s => paged s /\ viewport_current_page (self s) = 0).
Proof.
  unfold set_address.
  apply returns_bind with (Q1 := fun _ _ => True); [intros s a s' _ _; exact I|].
  intros h.
  apply returns_bind with (Q1 := fun _ _ => True); [intros s a s' _ _; exact I|].
  intros _.
  apply returns_bind with (Q1 := fun _ s => paged s).
  - destruct (String.eqb uri "about:blank"); [apply set_page_content_paged|].
    destruct (Py.startswith uri "bing:"); [apply bing_search_paged|].
    apply returns_bind with (Q1 := fun _ _ => True); [intros s a s' _ _; exact I|].
    intros u. apply fetch_page_paged.
  - intros _ s a s' Hs Hrun. injection Hrun as _ <-.
    split; [exact Hs | reflexivity].
Qed.

End Paged.

(** X13.  Whenever [set_address] returns, the viewport can be read: a
    content is stored, there is at least one page and the index is 0, so
    [visit_page] returns too, and what it returns is the slice of the
    content over the first page. *)
Theorem visit_page_returns_first_page :
  forall (env : Env) (fuel : nat) (uri : string) (st : State),
    fst (set_address env fuel uri st) = Ret tt ->
    let st' := snd (set_address env fuel uri st) in
    readable (self st') /\
    viewport_current_page (self st') = 0 /\
    exists content a b,
      _page_content (self st') = Some content /\
      nth_error (viewport_pages (self st')) 0 = Some (a, b) /\
      visit_page env fuel uri st = (Ret (Py.slice content a b), st').
Proof.
  intros env fuel uri st Hret st'.
  destruct (set_address env fuel uri st) as [o s1] eqn:Hrun.
  simpl in Hret. subst o. subst st'. cbn [snd].
  destruct (set_address_paged env fuel uri st tt s1 I Hrun) as ((Hcontent & Hpages) & Hcur).
  destruct (_page_content (self s1)) as [content|] eqn:Hc; [|congruence].
  destruct (viewport_pages (self s1)) as [|[a b] pages] eqn:Hp; [congruence|].
  split; [|split; [exact Hcur|]].
  - split; [rewrite Hc; discriminate|]. rewrite Hcur, Hp. cbn [List.length]. lia.
  - exists content, a, b. split; [reflexivity|]. split; [reflexivity|].
    unfold visit_page. rewrite (run_bind _ _ _ _ _ Hrun).
    unfold viewport, bind, get, lift, list_getitem, getattr.
    rewrite Hp, Hcur. cbn. rewrite Hc. reflexivity.
Qed.

(** ** Error renderers of the caller *)

(** X14.  [register_error_renderer] puts the renderer in front of the
    error renderers.  For a response with an error status that the
    registered renderer claims, [_fetch_page] shows the page that renderer
    returns; the renderers registered before it, [FallbackErrorRenderer]
    among them, are not consulted. *)
Theorem registered_error_renderer_is_invoked :
  forall (env : Env) (fuel : nat) (url : string) (st st' : State)
         (renderers : list Renderer) (rk : option dict) (response : Response)
         (E : Renderer) (res : TextRendererResult),
    _error_renderers (self st) = Some renderers ->
    request_kwargs (self st) = Some rk ->
    requests_get env url (fetch_kwargs rk) = inr response ->
    400 <= status_code response < 600 ->
    let content_type := Some (headers_get (headers response) "content-type" "") in
    let st1 := {| self := set_error_renderers (E :: renderers) (self st);
                  world := world st |} in
    fst (claim_responsibility E url (status_code response) content_type st1) = Ret true ->
    render_page env E response url (status_code response) content_type st1 = (Ret res, st') ->
    register_error_renderer E st = (Ret tt, st1) /\
    _fetch_page env fuel url st1 = show fuel res st' /\
    page_title (self (snd (_fetch_page env fuel url st1))) = title res /\
    _page_content (self (snd (_fetch_page env fuel url st1))) = Some (page_content res).
Proof.
  intros env fuel url st st' renderers rk response E res Hrs Hrk Hget Hstatus
         content_type st1 Hclaim Hrender.
  assert (Hfetch : _fetch_page env fuel url st1 = show fuel res st').
  { rewrite (fetch_page_http_error env fuel url st1 rk response (E :: renderers));
      [|exact Hrk | exact Hget | exact Hstatus | reflexivity].
    cbn [error_loop]. unfold bind at 1.
    pose proof (claim_responsibility_reads E url (status_code response) content_type st1)
      as Hreads.
    fold content_type.
    destruct (claim_responsibility E url (status_code response) content_type st1)
      as [o s] eqn:Eq.
    simpl in Hclaim, Hreads. subst o s.
    unfold bind at 1. rewrite Hrender. reflexivity. }
  split.
  { unfold register_error_renderer, bind, getattr, modify. rewrite Hrs. reflexivity. }
  split; [exact Hfetch|]. rewrite Hfetch.
  destruct (show_effect fuel res st') as (Hc & Ht & _).
  split; [exact Ht | exact Hc].
Qed.



(** ** The text of an HTML page *)

Lemma prefix_app (p r t : string) :
  String.prefix p r = true -> String.prefix p (r ++ t) = true.
Proof.
  revert r. induction p as [|c p IH]; intros r H; [destruct (r ++ t); reflexivity|].
  destruct r as [|c' r]; [discriminate|].
  simpl in *. destruct (ascii_dec c c'); [now apply IH | discriminate].
Qed.

Lemma contains_app (p r t : string) :
  Py.contains p r = true -> Py.contains p (r ++ t) = true.
Proof.
  induction r as [|c r IH]; intros H.
  - simpl in H. rewrite orb_false_r in H.
    destruct p; [|discriminate]. destruct t; reflexivity.
  - cbn [Py.contains] in H. apply orb_true_iff in H.
    change (String c r ++ t) with (String c (r ++ t)). cbn [Py.contains].
    apply orb_true_iff. destruct H as [H | H].
    + left. exact (prefix_app p (String c r) t H).
    + right. now apply IH.
Qed.

Lemma rstrip_is_prefix (s : string) : exists t, s = Py.rstrip s ++ t.
Proof.
  induction s as [|c s (t & IH)]; [now exists ""|].
  cbn [Py.rstrip]. destruct (Py.rstrip s) as [|c' r].
  - destruct (Py.isspace c); [now exists (String c s)|].
    exists s. reflexivity.
  - exists t. simpl in *. now rewrite <- IH.
Qed.

Lemma contains_lstrip (p s : string) :
  Py.contains p s = false -> Py.contains p (Py.lstrip s) = false.
Proof.
  induction s as [|c s IH]; intros H; [exact H|].
  cbn [Py.lstrip]. destruct (Py.isspace c); [|exact H].
  apply IH. cbn [Py.contains] in H. now apply orb_false_iff in H.
Qed.

Lemma contains_strip (p s : string) :
  Py.contains p s = false -> Py.contains p (Py.strip s) = false.
Proof.
  intros H. unfold Py.strip. apply contains_lstrip in H.
  destruct (rstrip_is_prefix (Py.lstrip s)) as (t & Ht).
  destruct (Py.contains p (Py.rstrip (Py.lstrip s))) eqn:E; [|reflexivity].
  apply contains_app with (t := t) in E. rewrite <- Ht in E. congruence.
Qed.

(** What [sub_blank_lines_from] writes after [seen] line feeds of a run
    holds no run of three, and starts with no more line feeds than the run
    has left. *)
Lemma sub_blank_lines_from_runs (s : string) :
  forall seen,
    let out := Re.sub_blank_lines_from seen s in
    Py.contains three_newlines out = false /\
    ((1 <= seen)%nat -> String.prefix (Py.nl ++ Py.nl) out = false) /\
    ((2 <= seen)%nat -> String.prefix Py.nl out = false).
Proof.
  change three_newlines with (String Py.LF (String Py.LF (String Py.LF ""))).
  change (Py.nl ++ Py.nl) with (String Py.LF (String Py.LF "")).
  change Py.nl with (String Py.LF "").
  induction s as [|c s IH]; intros seen; cbv zeta.
  - repeat split.
  - cbn [Re.sub_blank_lines_from].
    destruct (Ascii.eqb c Py.LF) eqn:Hc.
    + apply Ascii.eqb_eq in Hc. subst c.
      destruct (Nat.ltb seen 2) eqn:Hseen; [|apply IH].
      apply Nat.ltb_lt in Hseen.
      destruct (IH (S seen)) as (Hno & H1 & H2).
      split; [|split].
      * cbn [Py.contains]. rewrite Hno, orb_false_r, prefix_cons, Ascii.eqb_refl.
        apply H1. lia.
      * intros Hge. rewrite prefix_cons, Ascii.eqb_refl. apply H2. lia.
      * intros Hge. lia.
    + destruct (IH O) as (Hno & _ & _).
      rewrite Ascii.eqb_sym in Hc.
      split; [|split].
      * cbn [Py.contains]. now rewrite Hno, orb_false_r, prefix_cons, Hc.
      * intros _. now rewrite prefix_cons, Hc.
      * intros _. now rewrite prefix_cons, Hc.
Qed.

Lemma rstrip_rstrip (s : string) : Py.rstrip (Py.rstrip s) = Py.rstrip s.
Proof.
  induction s as [|c s IH]; [reflexivity|].
  cbn [Py.rstrip]. destruct (Py.rstrip s) as [|c' r] eqn:E.
  - destruct (Py.isspace c) eqn:Hc; [reflexivity|].
    cbn [Py.rstrip]. now rewrite Hc.
  - cbn [Py.rstrip] in *. now rewrite IH.
Qed.

Lemma lstrip_rstrip_lstrip (s : string) :
  Py.lstrip (Py.rstrip (Py.lstrip s)) = Py.rstrip (Py.lstrip s).
Proof.
  induction s as [|c s IH]; [reflexivity|].
  cbn [Py.lstrip]. destruct (Py.isspace c) eqn:Hc; [exact IH|].
  cbn [Py.rstrip]. destruct (Py.rstrip s); rewrite ?Hc; cbn [Py.lstrip]; now rewrite Hc.
Qed.

Lemma strip_strip (s : string) : Py.strip (Py.strip s) = Py.strip s.
Proof. unfold Py.strip. now rewrite lstrip_rstrip_lstrip, rstrip_rstrip. Qed.

(** X16.  The content [HtmlRenderer] returns is normalised: it holds no
    three line feeds in a row (at most one blank line between two lines)
    and has no white space at either end, so that stripping it again
    changes nothing.  The body stream has yielded text, the title is the
    one of the document's title element, and rendering leaves the browser
    and the file system alone. *)
Theorem html_page_content_is_normalised :
  forall (env : Env) (response : Response) (url : string) (status : Z)
         (content_type : option string) (st st' : State) (res : TextRendererResult),
    render_page env HtmlRenderer response url status content_type st = (Ret res, st') ->
    Py.contains three_newlines (page_content res) = false /\
    Py.strip (page_content res) = page_content res /\
    (exists text,
       _read_all_text response = inr text /\
       soup_title (BeautifulSoup env text) = Some (title res)) /\
    st' = st.
Proof.
  intros env response url status content_type st st' res Hrun.
  cbn [render_page] in Hrun.
  unfold HtmlRenderer_render_page, _read_all_html, and_then in Hrun.
  unfold bind, lift in Hrun.
  destruct (_read_all_text response) as [e | text]; [discriminate|].
  cbn [ret] in Hrun.
  destruct (soup_title (BeautifulSoup env text)) as [t|] eqn:Htitle; [|discriminate].
  injection Hrun as <- <-. cbn [page_content title].
  split; [|split; [apply strip_strip | split; [|reflexivity]]].
  - apply contains_strip. apply (sub_blank_lines_from_runs _ O).
  - exists text. split; [reflexivity | exact Htitle].
Qed.

(** ** The request arguments when nothing is shared *)

Lemma bind_fixes {A B} (c : M A) (k : A -> M B) (s : State) :
  snd (c s) = s -> (forall a, snd (k a s) = s) -> snd (bind c k s) = s.
Proof.
  intros Hc Hk. unfold bind. specialize Hk.
  destruct (c s) as [[a | e |] s']; simpl in *; subst; auto.
Qed.

Lemma setitem2_unshared (key1 key2 : string) (v : scalar) (kw : dict) (st : State) :
  (forall orig, request_kwargs (self st) = Some (Some orig) -> dict_get key1 orig = None) ->
  snd (setitem2 key1 key2 v kw st) = st.
Proof.
  intros Hnone. unfold setitem2.
  destruct (dict_get key1 kw) as [[sc | d]|]; try reflexivity.
  unfold bind, modify. cbn [snd ret].
  destruct st as [b w]. cbn [self world] in *.
  destruct (request_kwargs b) as [[orig|]|]; try reflexivity.
  now rewrite (Hnone orig eq_refl).
Qed.

(** X17.  The other side of the shared [headers] dictionary: where the
    caller's [request_kwargs] is [None], or a dictionary with neither a
    [headers] nor a [params] entry, [_bing_api_call] works on its own copy
    alone.  Whether the search succeeds or fails, the browser is afterwards
    exactly as it was: no key, no query and no [stream] setting is left in
    [self.request_kwargs]. *)
Theorem bing_api_call_without_shared_dictionaries :
  forall (env : Env) (query : string) (st : State),
    (forall orig, request_kwargs (self st) = Some (Some orig) ->
       dict_get "headers" orig = None /\ dict_get "params" orig = None) ->
    snd (_bing_api_call env query st) = st.
Proof.
  intros env query st Hnone. unfold _bing_api_call.
  apply bind_fixes; [unfold getattr; destruct (bing_api_key (self st)); reflexivity|].
  intros [key|]; [|reflexivity].
  apply bind_fixes; [unfold getattr; destruct (request_kwargs (self st)); reflexivity|].
  intros rk.
  repeat (apply bind_fixes;
          [first [ apply setitem2_unshared; intros orig Horig; apply (Hnone orig Horig)
                 | unfold lift; match goal with |- context [match ?r with _ => _ end] =>
                     destruct r end; reflexivity ]
          | intros ]).
  unfold lift. destruct (response_json env _); reflexivity.
Qed.

(** ** The further properties at concrete inputs *)


(** The same search on a browser built without an API key. *)
Lemma search_without_key_scenario :
  let st := snd (__init__ Demo.env 0 "about:blank" 8192 None None None Demo.disk) in
  let run := set_address Demo.env 0 ("bing:" ++ "cats") st in
  bing_api_key (self st) = Some None /\
  fst run = Raise (ValueError "Missing Bing API key.") /\
  history (self (snd run)) = ["about:blank"; "bing:cats"] /\
  _page_content (self (snd run)) = Some "".
Proof.
  cbv zeta.
  assert (Hkey : bing_api_key
                   (self (snd (__init__ Demo.env 0 "about:blank" 8192 None None None
                                 Demo.disk)))
                 = Some None) by (vm_compute; reflexivity).
  split; [exact Hkey|].
  rewrite (set_address_search_without_key Demo.env 0 "cats" _ Hkey).
  repeat split; vm_compute; reflexivity.
Defined.

(** A browser built with a [User-Agent] header of the caller's. *)
Lemma api_key_in_request_kwargs_scenario :
  let kw := [("headers", VDict [("User-Agent", SStr "agent")])] in
  let st := snd (__init__ Demo.env 0 "about:blank" 8192 None (Some "k") (Some kw)
                   Demo.disk) in
  request_kwargs (self st) = Some (Some kw) /\
  exists d' h',
    request_kwargs (self (snd (_bing_api_call Demo.env "cats" st))) = Some (Some d') /\
    dict_get "headers" d' = Some (VDict h') /\
    dict_get "Ocp-Apim-Subscription-Key" h' = Some (SStr "k") /\
    dict_get "headers" (fetch_kwargs (Some d')) = Some (VDict h').
Proof.
  cbv zeta.
  assert (Hrk : request_kwargs
                  (self (snd (__init__ Demo.env 0 "about:blank" 8192 None (Some "k")
                                (Some [("headers", VDict [("User-Agent", SStr "agent")])])
                                Demo.disk)))
                = Some (Some [("headers", VDict [("User-Agent", SStr "agent")])]))
    by (vm_compute; reflexivity).
  split; [exact Hrk|].
  apply (bing_api_call_leaves_key_in_request_kwargs Demo.env "cats" _ "k"
           [("headers", VDict [("User-Agent", SStr "agent")])]
           [("User-Agent", SStr "agent")]);
    [vm_compute; reflexivity | exact Hrk | reflexivity].
Defined.

(** A binary file on a browser without a downloads folder. *)
Lemma fetch_without_downloads_folder_scenario :
  let run := _fetch_page Demo.env 0 "https://a.com/files/data.bin" (Demo.browser None) in
  Py.truthy (downloads_folder (self (Demo.browser None))) = false /\
  fst run = Ret tt /\
  page_title (self (snd run))
  = Some "Error - Unsupported Content-Type 'application/octet-stream'".
Proof.
  cbv zeta.
  assert (Hfolder : Py.truthy (downloads_folder (self (Demo.browser None))) = false)
    by (vm_compute; reflexivity).
  assert (Hrs : _page_renderers (self (Demo.browser None))
                = Some (default_page_renderers Demo.env)) by (vm_compute; reflexivity).
  assert (Hrk : request_kwargs (self (Demo.browser None)) = Some None)
    by (vm_compute; reflexivity).
  assert (Hget : requests_get Demo.env "https://a.com/files/data.bin" (fetch_kwargs None)
                 = inr Demo.blob) by (vm_compute; reflexivity).
  assert (Hstatus : raise_for_status Demo.blob = inr tt) by (vm_compute; reflexivity).
  destruct (fetch_page_without_downloads_folder Demo.env 0 "https://a.com/files/data.bin"
              (Demo.browser None) None Demo.blob Hrs Hrk Hget Hstatus Hfolder)
    as (_ & Hfallback).
  destruct Hfallback as (Hshow & Htitle & _); [vm_compute; reflexivity|].
  split; [exact Hfolder|].
  split; [rewrite Hshow; vm_compute; reflexivity|].
  rewrite Htitle. vm_compute. reflexivity.
Defined.

(** The same file on a browser left with the two text renderers only,
    on an [https:] address and with a viewport of 40 characters. *)
Lemma fetch_unclaimed_scenario :
  let st0 := Demo.reading "https://a.com/files/data.bin" "" 40 in
  let st := {| self := set_page_renderers [PlainTextRenderer; HtmlRenderer] (self st0);
               world := world st0 |} in
  let run := _fetch_page Demo.env 200 "https://a.com/files/data.bin" st in
  fst run = Ret tt /\
  page_title (self (snd run)) = Some "Error - Unhandled _fetch_page" /\
  _page_content (self (snd run))
  = Some ("Error - Unhandled _fetch_page:" ++ Py.nl
          ++ "Url: https://a.com/files/data.bin" ++ Py.nl
          ++ "Status code: 200" ++ Py.nl
          ++ "Content-type: application/octet-stream") /\
  viewport_pages (self (snd run)) = [(0, 65); (65, 120)].
Proof.
  cbv zeta.
  destruct (fetch_page_unclaimed_is_unhandled Demo.env 200 "https://a.com/files/data.bin"
              {| self := set_page_renderers [PlainTextRenderer; HtmlRenderer]
                           (self (Demo.reading "https://a.com/files/data.bin" "" 40));
                 world := world (Demo.reading "https://a.com/files/data.bin" "" 40) |}
              None Demo.blob [PlainTextRenderer; HtmlRenderer])
    as (Hshow & Htitle & Hcontent & Hreturns);
    [vm_compute; reflexivity | vm_compute; reflexivity | vm_compute; reflexivity
    | vm_compute; reflexivity
    | intros r [<- | [<- | []]]; vm_compute; reflexivity |].
  split; [apply Hreturns; [vm_compute; discriminate | vm_compute; discriminate
                          | vm_compute; lia]|].
  split; [exact Htitle|].
  split; [rewrite Hcontent; vm_compute; reflexivity|].
  rewrite Hshow. vm_compute. reflexivity.
Defined.

(** A 410 answer in plain text, and a 500 answer of a type without an
    encoding. *)
Lemma fetch_http_error_scenario :
  let run := _fetch_page Demo.env 0 "http://a.com/gone" (Demo.browser None) in
  status_code Demo.gone = 410 /\
  _read_all_text Demo.gone = inr "Gone" /\
  fst run = Ret tt /\
  page_title (self (snd run)) = Some "Error 410" /\
  _page_content (self (snd run)) = Some ("## Error 410" ++ Py.nl ++ Py.nl ++ "Gone") /\
  _fetch_page Demo.env 0 "http://a.com/broken" (Demo.browser None)
  = (Raise (TypeError ("can only concatenate str (not " ++ String Py.DQ "bytes"
                       ++ String Py.DQ ") to str")),
     Demo.browser None).
Proof.
  cbv zeta. split; [reflexivity|]. split; [reflexivity|].
  destruct (fetch_page_renders_http_error Demo.env 0 "http://a.com/gone"
              (Demo.browser None) None Demo.gone [])
    as (Htext & _);
    [vm_compute; reflexivity | vm_compute; reflexivity | simpl; lia
    | vm_compute; reflexivity |].
  destruct (Htext "Gone") as (Hshow & Htitle & Hcontent);
    [reflexivity | left; vm_compute; reflexivity |].
  destruct (fetch_page_renders_http_error Demo.env 0 "http://a.com/broken"
              (Demo.browser None) None Demo.broken [])
    as (_ & Hbytes);
    [vm_compute; reflexivity | vm_compute; reflexivity | simpl; lia
    | vm_compute; reflexivity |].
  split; [rewrite Hshow; vm_compute; reflexivity|].
  split; [rewrite Htitle; vm_compute; reflexivity|].
  split; [rewrite Hcontent; vm_compute; reflexivity|].
  apply Hbytes. reflexivity.
Defined.

(** The same answer on a browser without error renderers, and on one
    whose only error renderer is [HtmlRenderer]. *)
Lemma fetch_http_error_unclaimed_scenario :
  let without := {| self := set_error_renderers [] (self (Demo.browser None));
                    world := world (Demo.browser None) |} in
  let html_only := {| self := set_error_renderers [HtmlRenderer] (self (Demo.browser None));
                      world := world (Demo.browser None) |} in
  fst (_fetch_page Demo.env 0 "http://a.com/gone" without)
  = Raise (UnboundLocalError "content_type") /\
  fst (_fetch_page Demo.env 0 "http://a.com/gone" html_only) = Ret tt /\
  page_title (self (snd (_fetch_page Demo.env 0 "http://a.com/gone" html_only)))
  = Some "Error - Unhandled _fetch_page".
Proof.
  cbv zeta. split.
  - rewrite (fetch_page_http_error_unclaimed Demo.env 0 "http://a.com/gone"
               {| self := set_error_renderers [] (self (Demo.browser None));
                  world := world (Demo.browser None) |}
               None Demo.gone []);
      [reflexivity | vm_compute; reflexivity | vm_compute; reflexivity | simpl; lia
      | vm_compute; reflexivity | intros r []].
  - rewrite (fetch_page_http_error_unclaimed Demo.env 0 "http://a.com/gone"
               {| self := set_error_renderers [HtmlRenderer] (self (Demo.browser None));
                  world := world (Demo.browser None) |}
               None Demo.gone [HtmlRenderer]);
      [split; vm_compute; reflexivity | vm_compute; reflexivity | vm_compute; reflexivity
      | simpl; lia | vm_compute; reflexivity
      | intros r [<- | []]; vm_compute; reflexivity].
Defined.

(** A content of two pages, read from the first. *)
Lemma paging_scenario :
  let st := snd (_split_pages 19
                   (Demo.reading "http://a.com/index.html" "abcdefghij klmnop" 10)) in
  readable (self st) /\
  viewport_pages (self st) = [(0, 11); (11, 17)] /\
  viewport_current_page (self (snd (page_down st))) = 1 /\
  viewport_current_page (self (snd (page_up st))) = 0 /\
  (page_down ;;; page_up) st = (Ret tt, st).
Proof.
  cbv zeta.
  assert (Hreadable : readable
                        (self (snd (_split_pages 19
                                      (Demo.reading "http://a.com/index.html"
                                         "abcdefghij klmnop" 10)))))
    by (split; [vm_compute; discriminate | vm_compute; split; [discriminate | reflexivity]]).
  destruct (paging_keeps_index_in_range _ Hreadable)
    as (Hdown & Hup & _ & _ & _ & _ & Hback).
  split; [exact Hreadable|].
  split; [vm_compute; reflexivity|].
  split; [rewrite Hdown; vm_compute; reflexivity|].
  split; [rewrite Hup; vm_compute; reflexivity|].
  apply Hback. vm_compute. reflexivity.
Defined.


(** A visit of the HTML page. *)
Lemma visit_page_scenario :
  fst (set_address Demo.env 66 "http://a.com/index.html" (Demo.browser None)) = Ret tt /\
  fst (visit_page Demo.env 66 "http://a.com/index.html" (Demo.browser None))
  = Ret "<html><head><title>T</title></head><body><p>Hi</p></body></html>".
Proof.
  assert (Hret : fst (set_address Demo.env 66 "http://a.com/index.html" (Demo.browser None))
                 = Ret tt) by (vm_compute; reflexivity).
  split; [exact Hret|].
  destruct (visit_page_returns_first_page Demo.env 66 "http://a.com/index.html"
              (Demo.browser None) Hret)
    as (_ & _ & content & a & b & Hcontent & Hnth & Hvisit).
  rewrite Hvisit. vm_compute in Hcontent, Hnth.
  injection Hcontent as <-. injection Hnth as <- <-. vm_compute. reflexivity.
Defined.

(** The 404 answer without a title element, on a browser with an error
    renderer of the caller's. *)
Lemma registered_error_renderer_scenario :
  let st1 := {| self := set_error_renderers [Demo.signing "E"; FallbackErrorRenderer]
                          (self (Demo.browser None));
                world := world (Demo.browser None) |} in
  register_error_renderer (Demo.signing "E") (Demo.browser None) = (Ret tt, st1) /\
  fst (_fetch_page Demo.env 0 "http://a.com/missing" st1) = Ret tt /\
  page_title (self (snd (_fetch_page Demo.env 0 "http://a.com/missing" st1))) = Some "E".
Proof.
  cbv zeta.
  destruct (registered_error_renderer_is_invoked Demo.env 0 "http://a.com/missing"
              (Demo.browser None)
              {| self := set_error_renderers [Demo.signing "E"; FallbackErrorRenderer]
                           (self (Demo.browser None));
                 world := world (Demo.browser None) |}
              [FallbackErrorRenderer] None Demo.not_found (Demo.signing "E")
              (Demo.signed "E"))
    as (Hreg & Hfetch & Htitle & _);
    [vm_compute; reflexivity | vm_compute; reflexivity | vm_compute; reflexivity
    | simpl; lia | vm_compute; reflexivity | vm_compute; reflexivity |].
  split; [exact Hreg|].
  split; [rewrite Hfetch; vm_compute; reflexivity | exact Htitle].
Defined.


(** A document with a run of four line feeds and white space at both
    ends. *)
Lemma html_page_content_scenario :
  let response :=
    {| status_code := 200;
       headers := [("Content-Type", "text/html")];
       iter_content := [("  <title>T</title>" ++ Py.nl ++ Py.nl ++ Py.nl ++ Py.nl)%string;
                        ("Hi" ++ Py.nl)%string];
       iter_content_unicode :=
         [StrChunk ("  <title>T</title>" ++ Py.nl ++ Py.nl ++ Py.nl ++ Py.nl);
          StrChunk ("Hi" ++ Py.nl)] |} in
  let res := {| title := Some "T";
                page_content := "<title>T</title>" ++ Py.nl ++ Py.nl ++ "Hi" |} in
  render_page Demo.env HtmlRenderer response "http://a.com/index.html" 200
    (Some "text/html") (Demo.browser None)
  = (Ret res, Demo.browser None) /\
  Py.contains three_newlines (page_content res) = false /\
  Py.strip (page_content res) = page_content res.
Proof.
  cbv zeta.
  match goal with
  | |- ?run = _ /\ _ => assert (Hrun : run
                                      = (Ret {| title := Some "T";
                                                page_content := "<title>T</title>" ++ Py.nl
                                                                ++ Py.nl ++ "Hi" |},
                                         Demo.browser None)) by (vm_compute; reflexivity)
  end.
  split; [exact Hrun|].
  destruct (html_page_content_is_normalised _ _ _ _ _ _ _ _ Hrun) as (Hruns & Hstrip & _).
  split; [exact Hruns | exact Hstrip].
Defined.

(** A browser built with request arguments that hold no dictionary. *)
Lemma search_leaves_request_kwargs_scenario :
  let kw := [("verify", VScalar (SBool false))] in
  let st := snd (__init__ Demo.env 0 "about:blank" 8192 None (Some "k") (Some kw)
                   Demo.disk) in
  request_kwargs (self st) = Some (Some kw) /\
  _bing_api_call Demo.env "cats" st = (Ret Demo.cats, st).
Proof.
  cbv zeta.
  assert (Hrk : request_kwargs
                  (self (snd (__init__ Demo.env 0 "about:blank" 8192 None (Some "k")
                                (Some [("verify", VScalar (SBool false))]) Demo.disk)))
                = Some (Some [("verify", VScalar (SBool false))]))
    by (vm_compute; reflexivity).
  split; [exact Hrk|].
  rewrite (surjective_pairing (_bing_api_call Demo.env "cats" _)).
  rewrite (bing_api_call_without_shared_dictionaries Demo.env "cats" _);
    [f_equal; vm_compute; reflexivity|].
  intros orig Horig. rewrite Hrk in Horig. injection Horig as <-. split; reflexivity.
Defined.

(** A search whose answer has no web results. *)
Lemma search_missing_key_scenario :
  let env := Demo.answering Demo.no_web_pages in
  web_traversal Demo.no_web_pages = None /\
  set_address env 0 ("bing:" ++ "cats") (Demo.browser None)
  = (Raise (KeyError "webPages"), Demo.browser_at None "bing:cats") /\
  page_title (self (Demo.browser_at None "bing:cats")) = None.
Proof.
  cbv zeta. split; [reflexivity|].
  assert (Hcall : _bing_api_call (Demo.answering Demo.no_web_pages) (Py.strip "cats")
                    {| self := set_history
                                 (history (self (Demo.browser None))
                                  ++ [("bing:" ++ "cats")%string])
                                 (self (Demo.browser None));
                       world := world (Demo.browser None) |}
                  = (Ret Demo.no_web_pages, Demo.browser_at None "bing:cats"))
    by (vm_compute; reflexivity).
  destruct (set_address_search_missing_key (Demo.answering Demo.no_web_pages) 0 "cats"
              (Demo.browser None) (Demo.browser_at None "bing:cats") Demo.no_web_pages
              Hcall (or_introl eq_refl))
    as (key & Hrun & Hkey & _).
  rewrite (Hkey eq_refl) in Hrun.
  split; [exact Hrun | reflexivity].
Defined.
